(** * goscrape: a shallow embedding of [scrape.go]

    The UDP tracker scrape client of package [goscrape] (BEP-0015):
    the connect handshake with its cached session, the scrape exchange
    with its retry loop, and the decoding of the scrape response.

    Go values are modelled as follows.
    - [uint32], [uint64], [int]: [Z], with the wrap-around written out
      where a value is converted or incremented ([wrap_u32], [wrap_int];
      [int] is 64 bits).
    - [[]byte]: [list byte].
    - [time.Time]: [Z], nanoseconds since the zero [Time];
      [time.Duration]: a 64-bit [Z], [Time.Sub] saturating as in package
      [time].
    - [error]: the inductive [error]; a function returning [(T, error)]
      returns an [outcome T].
    - the network, the clock and the random source: an environment
      [Env] of oracles, answering from the history of the operations
      performed so far, and a [World] holding that history. *)

From Stdlib Require Import ZArith List Bool Lia.
From Stdlib Require String.
Import String.StringSyntax.
Delimit Scope string_scope with string.
From Stdlib Require Import Strings.Byte.
Import ListNotations.
Open Scope Z_scope.

(** ** Machine integers *)

Module Int.

Definition wrap_u32 (z : Z) : Z := z mod 2 ^ 32.

Definition min_int : Z := - 2 ^ 63.
Definition max_int : Z := 2 ^ 63 - 1.

(** A Go [int] (64 bits, two's complement): overflow wraps around. *)
Definition wrap_int (z : Z) : Z := (z + 2 ^ 63) mod 2 ^ 64 - 2 ^ 63.

Definition in_int (z : Z) : Prop := min_int <= z <= max_int.

(** Saturation to the range of [int64], as [time.Time.Sub] does. *)
Definition saturate (z : Z) : Z :=
  if z <? min_int then min_int else if max_int <? z then max_int else z.

End Int.

(** ** Bytes and byte slices *)

Module Bytes.

Definition val (b : byte) : Z := Z.of_N (Byte.to_N b).

(** The conversion [byte(z)]: the low 8 bits. *)
Definition of_Z (z : Z) : byte :=
  match Byte.of_N (Z.to_N (z mod 256)) with
  | Some b => b
  | None => x00
  end.

(** [make([]byte, n)]: [n] zero bytes. *)
Definition make (n : nat) : list byte := repeat x00 n.

(** [copy(dst[off:], src)] for [off <= len(dst)]: copies
    [min(len(dst) - off, len(src))] bytes and leaves the rest of [dst]. *)
Definition copy_at (dst : list byte) (off : nat) (src : list byte)
  : list byte :=
  let k := Nat.min (length dst - off) (length src) in
  firstn off dst ++ firstn k src ++ skipn (off + k) dst.

(** [bytes.Join] with the empty separator: plain concatenation. *)
Definition Join (s : list (list byte)) : list byte := concat s.

End Bytes.

(** ** [encoding/binary], big endian *)

Module BigEndian.

(** The value of a big-endian byte string. *)
Fixpoint decode (acc : Z) (bs : list byte) : Z :=
  match bs with
  | [] => acc
  | b :: bs' => decode (acc * 256 + Bytes.val b) bs'
  end.

(** The [n] low bytes of [v], most significant first. *)
Fixpoint encode (n : nat) (v : Z) : list byte :=
  match n with
  | O => []
  | S n' => Bytes.of_Z (Z.shiftr v (8 * Z.of_nat n')) :: encode n' v
  end.

(** [binary.BigEndian.Uint32(b[off:])]; [None] is the run-time panic of
    an out-of-range slice or index. *)
Definition Uint32 (b : list byte) (off : nat) : option Z :=
  if (off + 4 <=? length b)%nat
  then Some (decode 0 (firstn 4 (skipn off b)))
  else None.

Definition Uint64 (b : list byte) (off : nat) : option Z :=
  if (off + 8 <=? length b)%nat
  then Some (decode 0 (firstn 8 (skipn off b)))
  else None.

(** [binary.BigEndian.PutUint32(b[off:], v)]: the updated buffer. *)
Definition PutUint32 (b : list byte) (off : nat) (v : Z)
  : option (list byte) :=
  if (off + 4 <=? length b)%nat
  then Some (Bytes.copy_at b off (encode 4 v))
  else None.

Definition PutUint64 (b : list byte) (off : nat) (v : Z)
  : option (list byte) :=
  if (off + 8 <=? length b)%nat
  then Some (Bytes.copy_at b off (encode 8 v))
  else None.

End BigEndian.

(** ** Errors and outcomes *)

(** An error value coming out of package [net]: whether its dynamic type
    implements [net.Error], what its [Timeout()] method answers, and a
    code standing for the rest of it. *)
Record io_error : Type := IOError {
  implements_net_Error : bool;
  Timeout : bool;
  io_code : Z
}.

Inductive error : Type :=
| ErrUnsupportedScheme
| ErrTooManyInfohash
| ErrRequest
| ErrResponse
| ErrInvalidAction
| ErrInvalidTransactionID
| ErrRemote
| ErrRetryLimit
| hex_ErrLength
| hex_InvalidByteError (b : byte)
| url_Error (code : Z)
| net_Err (e : io_error).

(** What a call does: return a value, return an error, panic (a nil
    interface or an index out of range), or still run when the fuel of
    the model is spent. *)
Inductive outcome (A : Type) : Type :=
| Ok (a : A)
| Err (e : error)
| Panic
| OutOfFuel.

Arguments Ok {A} a.
Arguments Err {A} e.
Arguments Panic {A}.
Arguments OutOfFuel {A}.

Definition is_Ok {A} (o : outcome A) : bool :=
  match o with Ok _ => true | _ => false end.

(** ** [encoding/hex] *)

Module Hex.

(** [fromHexChar]: the value of a hexadecimal digit. *)
Definition fromHexChar (c : byte) : option Z :=
  let v := Bytes.val c in
  if (48 <=? v) && (v <=? 57) then Some (v - 48)
  else if (97 <=? v) && (v <=? 102) then Some (v - 97 + 10)
  else if (65 <=? v) && (v <=? 70) then Some (v - 65 + 10)
  else None.

Definition DecodedLen (x : nat) : nat := Nat.div x 2.

(** [hex.Decode(dst, src)] with [len(dst) = DecodedLen(len(src))]: the
    bytes written to [dst], or the error.  Pairs are decoded from the
    left; an invalid digit is reported where it is met, an odd length
    at the end. *)
Fixpoint Decode (src : list byte) : outcome (list byte) :=
  match src with
  | [] => Ok []
  | p :: [] =>
      match fromHexChar p with
      | None => Err (hex_InvalidByteError p)
      | Some _ => Err hex_ErrLength
      end
  | p :: q :: rest =>
      match fromHexChar p with
      | None => Err (hex_InvalidByteError p)
      | Some a =>
          match fromHexChar q with
          | None => Err (hex_InvalidByteError q)
          | Some b =>
              match Decode rest with
              | Ok d => Ok (Bytes.of_Z (Z.lor (Z.shiftl a 4) b) :: d)
              | Err e => Err e
              | Panic => Panic
              | OutOfFuel => OutOfFuel
              end
          end
      end
  end.

End Hex.

(** ** Time *)

Module TimeModel.

(** [time.Duration] constants, in nanoseconds. *)
Definition Second : Z := 1000000000.
Definition Minute : Z := 60 * Second.

(** [t.Add(d)]. *)
Definition Add (t d : Z) : Z := t + d.

(** [t.Sub(u)]: the difference, saturated to the range of a
    [Duration]. *)
Definition Sub (t u : Z) : Z := Int.saturate (t - u).

End TimeModel.

(** ** The network, the clock and the random source *)

(** The identity of an open connection ([net.Conn]). *)
Definition Conn : Type := Z.

(** What the program does to the outside, with what came back. *)
Inductive Event : Type :=
| EvDial (addr : String.string) (d : Z) (res : Conn + io_error)
| EvSetWriteDeadline (c : Conn) (t : Z)
| EvWrite (c : Conn) (b : list byte) (n : Z) (err : option io_error)
| EvSetReadDeadline (c : Conn) (t : Z)
| EvRead (c : Conn) (size : nat) (data : list byte) (err : option io_error).

(** The oracles.  Each answers from the history so far, most recent
    event first.
    - [rand_source k]: the [k]-th number of the global source of
      [math/rand];
    - [dial h addr]: [net.DialTimeout("udp", addr, _)];
    - [write h c b]: [c.Write(b)], the count and the error;
    - [read h c size]: [c.Read(buf)] with [len(buf) = size], the datagram
      that arrived (if any) and the error;
    - [elapsed h]: how long the last operation of [h] took. *)
Record Env : Type := {
  rand_source : nat -> Z;
  dial : list Event -> String.string -> Conn + io_error;
  write : list Event -> Conn -> list byte -> Z * option io_error;
  read : list Event -> Conn -> nat -> list byte * option io_error;
  elapsed : list Event -> N
}.

Record World : Type := {
  now : Z;
  rand_calls : nat;
  trace : list Event
}.

(** One more operation in the history; the clock moves on. *)
Definition record (env : Env) (ev : Event) (w : World) : World :=
  {| now := now w + Z.of_N (elapsed env (ev :: trace w));
     rand_calls := rand_calls w;
     trace := ev :: trace w |}.

Definition time_Now (w : World) : Z := now w.

(** [time.Since(t)]. *)
Definition time_Since (w : World) (t : Z) : Z := TimeModel.Sub (time_Now w) t.

(** [rand.Int63()]: a non-negative 63-bit integer. *)
Definition rand_Int63 (env : Env) (w : World) : Z * World :=
  (rand_source env (rand_calls w) mod 2 ^ 63,
   {| now := now w; rand_calls := S (rand_calls w); trace := trace w |}).

(** [rand.Int31()]: [int32(r.Int63() >> 32)]. *)
Definition rand_Int31 (env : Env) (w : World) : Z * World :=
  let '(r, w) := rand_Int63 env w in (Z.shiftr r 32, w).

Definition net_DialTimeout (env : Env) (addr : String.string) (d : Z)
  (w : World) : (Conn + io_error) * World :=
  let res := dial env (trace w) addr in
  (res, record env (EvDial addr d res) w).

Definition SetWriteDeadline (env : Env) (c : Conn) (t : Z) (w : World)
  : World := record env (EvSetWriteDeadline c t) w.

Definition SetReadDeadline (env : Env) (c : Conn) (t : Z) (w : World)
  : World := record env (EvSetReadDeadline c t) w.

(** [n, err = c.Write(b)]. *)
Definition Write (env : Env) (c : Conn) (b : list byte) (w : World)
  : Z * option io_error * World :=
  let '(n, err) := write env (trace w) c b in
  (n, err, record env (EvWrite c b n err) w).

(** [n, err = c.Read(buf)]: the datagram is copied to the front of
    [buf], cut to its length. *)
Definition Read (env : Env) (c : Conn) (buf : list byte) (w : World)
  : Z * option io_error * list byte * World :=
  let '(data, err) := read env (trace w) c (length buf) in
  (Z.of_nat (Nat.min (length data) (length buf)), err,
   Bytes.copy_at buf 0 data,
   record env (EvRead c (length buf) data err) w).

(** The number of datagrams written in a history. *)
Fixpoint count_writes (h : list Event) : nat :=
  match h with
  | [] => O
  | EvWrite _ _ _ _ :: h' => S (count_writes h')
  | _ :: h' => count_writes h'
  end.

(** The number of reads in a history. *)
Fixpoint count_reads (h : list Event) : nat :=
  match h with
  | [] => O
  | EvRead _ _ _ _ :: h' => S (count_reads h')
  | _ :: h' => count_reads h'
  end.

(** ** The package *)

Definition pid : Z := 0x41727101980.
Definition actionConnect : Z := 0.
Definition actionAnnounce : Z := 1.
Definition actionScrap : Z := 2.
Definition actionError : Z := 3.
Definition timeout : Z := TimeModel.Second * 15.

Record ScrapeResult : Type := {
  Infohash : list byte;
  Seeders : Z;
  Leechers : Z;
  Completed : Z
}.

(** The struct [Goscrape]; its mutex has no content in a sequential
    run. *)
Record Goscrape : Type := {
  url : String.string;
  conn : option Conn;
  connectionID : Z;
  session : Z;
  retries : Z
}.

Record URL : Type := { Scheme : String.string; Host : String.string }.

(** [New], over the result of [url.Parse]. *)
Definition New (url_Parse : String.string -> outcome URL)
  (rawurl : String.string) : outcome Goscrape :=
  match url_Parse rawurl with
  | Ok u =>
      if String.eqb (Scheme u) "udp"%string
      then Ok {| url := Host u; conn := None; connectionID := 0;
                 session := 0; retries := 3 |}
      else Err ErrUnsupportedScheme
  | Err e => Err e
  | Panic => Panic
  | OutOfFuel => OutOfFuel
  end.

Definition SetRetryLimit (g : Goscrape) (n : Z) : Goscrape :=
  {| url := url g; conn := conn g; connectionID := connectionID g;
     session := session g; retries := n |}.

(** [transactionID]: [uint32(rand.Int31())]. *)
Definition transactionID (env : Env) (w : World) : Z * World :=
  let '(r, w) := rand_Int31 env w in (Int.wrap_u32 r, w).

(** A panic where an index is out of range. *)
Definition checked {A} (o : option A) : outcome A :=
  match o with Some a => Ok a | None => Panic end.

Definition bind {A B} (o : outcome A) (k : A -> outcome B) : outcome B :=
  match o with
  | Ok a => k a
  | Err e => Err e
  | Panic => Panic
  | OutOfFuel => OutOfFuel
  end.

Notation "x <- o ;; k" := (bind o (fun x => k))
  (at level 61, o at next level, right associativity).

(** The retry loop, [for { retries++ ... }], of [connect] (lines 119-147)
    and of [Scrape] (lines 205-234).  The two loops differ in one point:
    [connect] reads the answer into the buffer it sends ([reuse = true]),
    so that a retry sends what the read left there; [Scrape] reads into a
    buffer of its own.  [limit] is [g.retries] and [retries] the counter
    before [retries++].  The loop ends with the count [n] of the last read
    and the buffer read into.

    The error of a read is tested as
    [if err, ok := err.(net.Error); ok && err.Timeout() {...}
     else if err != nil {...}]: the second [err] is the one declared by
    the [if], nil when the assertion failed, so that branch returns the
    errors that implement [net.Error] and the others fall through to
    [break]. *)
Fixpoint exchange (fuel : nat) (env : Env) (limit : Z) (c : Conn)
  (reuse : bool) (buf response : list byte) (retries : Z) (w : World)
  : outcome (Z * list byte) * World :=
  match fuel with
  | O => (OutOfFuel, w)
  | S fuel' =>
      let retries := Int.wrap_int (retries + 1) in
      let w := SetWriteDeadline env c (TimeModel.Add (time_Now w) timeout) w in
      let '(n, err, w) := Write env c buf w in
      match err with
      | Some e => (Err (net_Err e), w)
      | None =>
          if negb (n =? Z.of_nat (length buf)) then (Err ErrRequest, w)
          else
            let w :=
              SetReadDeadline env c (TimeModel.Add (time_Now w) timeout) w in
            let '(n, err, response, w) := Read env c response w in
            let buf := if reuse then response else buf in
            match err with
            | Some e =>
                if implements_net_Error e && Timeout e then
                  if retries >? limit then (Err ErrRetryLimit, w)
                  else exchange fuel' env limit c reuse buf response retries w
                else if implements_net_Error e then (Err (net_Err e), w)
                else (Ok (n, response), w)
            | None => (Ok (n, response), w)
            end
      end
  end.

(** The connect request (lines 107-110). *)
Definition connect_request (tid : Z) : outcome (list byte) :=
  buf <- checked (BigEndian.PutUint64 (Bytes.make 16) 0 pid) ;;
  buf <- checked (BigEndian.PutUint32 buf 8 0) ;;
  checked (BigEndian.PutUint32 buf 12 tid).

Definition set_conn (g : Goscrape) (c : option Conn) : Goscrape :=
  {| url := url g; conn := c; connectionID := connectionID g;
     session := session g; retries := retries g |}.

Definition set_session (g : Goscrape) (id : Z) (t : Z) : Goscrape :=
  {| url := url g; conn := conn g; connectionID := id;
     session := t; retries := retries g |}.

(** The end of [connect] (lines 149-161), on the count [n] and the
    buffer [buf] the loop ended with: the checks, then the new session.
    The comparison of line 156 is between the value just read and
    itself: its [tid] is the one the [if] declares. *)
Definition connect_response (g : Goscrape) (n : Z) (buf : list byte)
  (w : World) : outcome Goscrape :=
  if negb (n =? Z.of_nat (length buf)) then Err ErrResponse
  else
    action <- checked (BigEndian.Uint32 buf 0) ;;
    if negb (action =? actionConnect) then Err ErrInvalidAction
    else
      tid <- checked (BigEndian.Uint32 buf 4) ;;
      if negb (tid =? tid) then Err ErrInvalidTransactionID
      else
        id <- checked (BigEndian.Uint64 buf 8) ;;
        Ok (set_session g id (time_Now w)).

(** [connect] (lines 96-164). *)
Definition connect (fuel : nat) (env : Env) (g : Goscrape) (w : World)
  : outcome (option Conn * Z) * Goscrape * World :=
  if time_Since w (session g) >? TimeModel.Minute then
    let '(tid, w) := transactionID env w in
    match connect_request tid with
    | Ok buf =>
        let '(res, w) := net_DialTimeout env (url g) timeout w in
        match res with
        | inr e => (Err (net_Err e), set_conn g None, w)
        | inl c =>
            let g := set_conn g (Some c) in
            match exchange fuel env (retries g) c true buf buf 0 w with
            | (Ok (n, buf), w) =>
                match connect_response g n buf w with
                | Ok g => (Ok (conn g, connectionID g), g, w)
                | Err e => (Err e, g, w)
                | Panic => (Panic, g, w)
                | OutOfFuel => (OutOfFuel, g, w)
                end
            | (Err e, w) => (Err e, g, w)
            | (Panic, w) => (Panic, g, w)
            | (OutOfFuel, w) => (OutOfFuel, g, w)
            end
        end
    | Err e => (Err e, g, w)
    | Panic => (Panic, g, w)
    | OutOfFuel => (OutOfFuel, g, w)
    end
  else (Ok (conn g, connectionID g), g, w).

(** The scrape request (lines 182-200). *)
Definition scrape_request (connectionid tid : Z) (infohash : list (list byte))
  : outcome (list byte) :=
  buf <- checked (BigEndian.PutUint64
                       (Bytes.make (16 + length infohash * 20)) 0
                       connectionid) ;;
  buf <- checked (BigEndian.PutUint32 buf 8 2) ;;
  buf <- checked (BigEndian.PutUint32 buf 12 tid) ;;
  let src := Bytes.Join infohash in
  dst <- Hex.Decode src ;;
  Ok (Bytes.copy_at buf 16 dst).

(** The loop of lines 256-265, from [offset]. *)
Fixpoint results (infohash : list (list byte)) (response : list byte)
  (offset : nat) : outcome (list ScrapeResult) :=
  match infohash with
  | [] => Ok []
  | h :: rest =>
      s <- checked (BigEndian.Uint32 response offset) ;;
      c <- checked (BigEndian.Uint32 response (offset + 4)) ;;
      l <- checked (BigEndian.Uint32 response (offset + 8)) ;;
      r <- results rest response (offset + 12) ;;
      Ok ({| Infohash := h; Seeders := s; Leechers := l; Completed := c |}
          :: r)
  end.

(** The end of [Scrape] (lines 236-267), on the count [n] and the
    buffer [response] the loop ended with. *)
Definition scrape_response (infohash : list (list byte)) (tid : Z) (n : Z)
  (response : list byte) : outcome (list ScrapeResult) :=
  if n <? 8 + 12 * Z.of_nat (length infohash) then Err ErrResponse
  else
    action <- checked (BigEndian.Uint32 response 0) ;;
    transactionid <- checked (BigEndian.Uint32 response 4) ;;
    if negb (transactionid =? tid) then Err ErrInvalidTransactionID
    else if action =? actionError then Err ErrRemote
    else if negb (action =? actionScrap) then Err ErrInvalidAction
    else results infohash response 8.

(** [Scrape] (lines 167-268). *)
Definition Scrape (fuel : nat) (env : Env) (g : Goscrape)
  (infohash : list (list byte)) (w : World)
  : outcome (list ScrapeResult) * Goscrape * World :=
  if (74 <? length infohash)%nat then (Err ErrTooManyInfohash, g, w)
  else
    match connect fuel env g w with
    | (Ok (conn, connectionid), g, w) =>
        let '(tid, w) := transactionID env w in
        match scrape_request connectionid tid infohash with
        | Ok buf =>
            let response := Bytes.make (8 + 12 * length infohash) in
            match conn with
            | None => (Panic, g, w)
            | Some c =>
                match exchange fuel env (retries g) c false buf response 0 w
                with
                | (Ok (n, response), w) =>
                    (scrape_response infohash tid n response, g, w)
                | (Err e, w) => (Err e, g, w)
                | (Panic, w) => (Panic, g, w)
                | (OutOfFuel, w) => (OutOfFuel, g, w)
                end
            end
        | Err e => (Err e, g, w)
        | Panic => (Panic, g, w)
        | OutOfFuel => (OutOfFuel, g, w)
        end
    | (Err e, g, w) => (Err e, g, w)
    | (Panic, g, w) => (Panic, g, w)
    | (OutOfFuel, g, w) => (OutOfFuel, g, w)
    end.

(** * Notions for the statements *)

(** What [exchange] leaves behind: the new events in front of the old
    history, a clock that has not gone back, the random source
    untouched. *)
Definition extends (w w' : World) : Prop :=
  (exists evs, trace w' = evs ++ trace w) /\
  now w <= now w' /\ rand_calls w' = rand_calls w.

(** The worlds an attempt goes through: after the write, and after the
    read. *)
Definition sent (env : Env) (c : Conn) (buf : list byte) (w : World)
  : World :=
  snd (Write env c buf
         (SetWriteDeadline env c (TimeModel.Add (time_Now w) timeout) w)).

Definition received (env : Env) (c : Conn) (buf response : list byte)
  (w : World) : World :=
  let w2 := sent env c buf w in
  match Read env c response
          (SetReadDeadline env c (TimeModel.Add (time_Now w2) timeout) w2)
  with (_, w4) => w4 end.

(** The answers of the oracles to an attempt. *)
Definition write_answer (env : Env) (c : Conn) (buf : list byte) (w : World)
  : Z * option io_error :=
  write env (EvSetWriteDeadline c (TimeModel.Add (time_Now w) timeout)
             :: trace w) c buf.

Definition read_answer (env : Env) (c : Conn) (buf response : list byte)
  (w : World) : list byte * option io_error :=
  let w2 := sent env c buf w in
  read env (EvSetReadDeadline c (TimeModel.Add (time_Now w2) timeout)
            :: trace w2) c (length response).

(** ** Assumptions on the transport *)

Definition dial_succeeds (env : Env) : Prop :=
  forall h addr, exists c, dial env h addr = inl c.

Definition writes_complete (env : Env) : Prop :=
  forall h c b, write env h c b = (Z.of_nat (length b), None).

(** Every read fails, and with a deadline expiry: a [net.Error] whose
    [Timeout()] is true. *)
Definition reads_time_out (env : Env) : Prop :=
  forall h c size, exists data e,
    read env h c size = (data, Some e) /\
    implements_net_Error e = true /\ Timeout e = true.

(** The attempts made from a counter at [retries]. *)
Definition attempts (limit retries : Z) : nat :=
  Z.to_nat (Z.max 1 (limit - retries + 1)).

(** The error a write or a read ends the call with, if it does: a write
    error, a short write, or a read error that implements [net.Error]
    and is not a deadline expiry. *)
Definition fatal (ev : Event) : option error :=
  match ev with
  | EvWrite _ b n (Some e) => Some (net_Err e)
  | EvWrite _ b n None =>
      if n =? Z.of_nat (length b) then None else Some ErrRequest
  | EvRead _ _ _ (Some e) =>
      if implements_net_Error e && negb (Timeout e)
      then Some (net_Err e) else None
  | _ => None
  end.

Definition quiet (evs : list Event) : Prop :=
  Forall (fun ev => fatal ev = None) evs.

(** Only the last event (the head) may be fatal, and then its error is
    the result. *)
Definition ends_in {A} (r : outcome A) (evs : list Event) : Prop :=
  match evs with
  | [] => True
  | ev :: rest => quiet rest /\ forall e, fatal ev = Some e -> r = Err e
  end.

Definition tid_of (env : Env) (w : World) : Z :=
  Int.wrap_u32 (Z.shiftr (rand_source env (rand_calls w) mod 2 ^ 63) 32).

Definition used_rand (w : World) : World :=
  {| now := now w; rand_calls := S (rand_calls w); trace := trace w |}.

(** The world once [connect] has dialled. *)
Definition dialled (env : Env) (g : Goscrape) (w : World) : World :=
  record env (EvDial (url g) timeout (dial env (trace w) (url g)))
    (used_rand w).

(** A struct that holds a transport whenever its session is no older
    than a minute, as every struct made by [New] and used through
    [Scrape] does. *)
Definition has_transport (g : Goscrape) (w : World) : Prop :=
  time_Since w (session g) <= TimeModel.Minute -> conn g <> None.

(** A hexadecimal digit; a string of an even number of them. *)
Definition is_hex (c : byte) : bool :=
  match Hex.fromHexChar c with Some _ => true | None => false end.

Definition hexadecimal (src : list byte) : bool :=
  Nat.even (length src) && forallb is_hex src.

(** The errors of [hex.Decode]. *)
Definition hex_error (e : error) : Prop :=
  e = hex_ErrLength \/ exists b, e = hex_InvalidByteError b.

(** ** Example transports and clients *)

Definition timed_out : io_error :=
  {| implements_net_Error := true; Timeout := true; io_code := 110 |}.

Definition refused : io_error :=
  {| implements_net_Error := true; Timeout := false; io_code := 111 |}.

(** The datagram of the last write of a history. *)
Fixpoint last_written (h : list Event) : option (list byte) :=
  match h with
  | [] => None
  | EvWrite _ b _ _ :: _ => Some b
  | _ :: h' => last_written h'
  end.

(** The datagram of the last read of a history. *)
Fixpoint last_read (h : list Event) : option (list byte) :=
  match h with
  | [] => None
  | EvRead _ _ data _ :: _ => Some data
  | _ :: h' => last_read h'
  end.

Definition stats_record (s : Z * Z * Z) : list byte :=
  let '(seeders, completed, leechers) := s in
  BigEndian.encode 4 seeders ++ BigEndian.encode 4 completed
  ++ BigEndian.encode 4 leechers.

(** A tracker: it answers a connect request with the connection
    identifier [id] and a scrape request with the records [stats]; the
    transaction identifier of the answer is [echo] of the one received. *)
Definition tracker_answer (id : Z) (stats : list (Z * Z * Z))
  (echo : list byte -> list byte) (h : list Event)
  : list byte * option io_error :=
  match last_written h with
  | Some b =>
      match BigEndian.Uint32 b 8 with
      | Some 0 =>
          (BigEndian.encode 4 actionConnect ++ echo (firstn 4 (skipn 12 b))
           ++ BigEndian.encode 8 id, None)
      | Some 2 =>
          (BigEndian.encode 4 actionScrap ++ echo (firstn 4 (skipn 12 b))
           ++ flat_map stats_record stats, None)
      | _ => ([], Some timed_out)
      end
  | None => ([], Some timed_out)
  end.

Definition tracker_env (stats : list (Z * Z * Z))
  (echo : list byte -> list byte) : Env :=
  {| rand_source := fun k => 0x123456789abcdef0 * (Z.of_nat k + 1);
     dial := fun _ _ => inl 7;
     write := fun _ _ b => (Z.of_nat (length b), None);
     read := fun h _ _ => tracker_answer 0x1122334455667788 stats echo h;
     elapsed := fun _ => 1000%N |}.

(** A well-behaved tracker. *)
Definition tracker (stats : list (Z * Z * Z)) : Env :=
  tracker_env stats (fun t => t).

(** A tracker that answers with a transaction identifier of its own. *)
Definition stray_tracker (stats : list (Z * Z * Z)) : Env :=
  tracker_env stats (fun _ => BigEndian.encode 4 0xffffffff).

(** A tracker that never answers: every read runs into its deadline. *)
Definition silent : Env :=
  {| rand_source := fun k => 0x123456789abcdef0 * (Z.of_nat k + 1);
     dial := fun _ _ => inl 7;
     write := fun _ _ b => (Z.of_nat (length b), None);
     read := fun _ _ _ => ([], Some timed_out);
     elapsed := fun _ => 15000000000%N |}.

(** A host that refuses: every read fails, and at once, with an error
    of package [net] that is no deadline expiry. *)
Definition refusing : Env :=
  {| rand_source := fun k => 0x123456789abcdef0 * (Z.of_nat k + 1);
     dial := fun _ _ => inl 7;
     write := fun _ _ b => (Z.of_nat (length b), None);
     read := fun _ _ _ => ([], Some refused);
     elapsed := fun _ => 1000%N |}.

Definition example_host : String.string := "tracker.example:6969"%string.

(** A client as [New] makes it. *)
Definition fresh_client : Goscrape :=
  {| url := example_host; conn := None; connectionID := 0; session := 0;
     retries := 3 |}.

(** Some instant of the year 2015, and a world starting there. *)
Definition an_instant : Z := 63555555555 * TimeModel.Second.

Definition world_at (t : Z) : World :=
  {| now := t; rand_calls := 0; trace := [] |}.

(** A client whose session was established at [an_instant]. *)
Definition connected_client : Goscrape :=
  {| url := example_host; conn := Some 7; connectionID := 99;
     session := an_instant; retries := 3 |}.

Definition hash_1 : list byte :=
  String.list_byte_of_string "176e2a9696092482d4acdef445b53ffcebb56960".

Definition hash_2 : list byte :=
  String.list_byte_of_string "e80cb87fbd938f3b1e47db64c10c3ab04ad49987".

Definition short_hash : list byte := String.list_byte_of_string "ab".

Definition not_hex : list byte := String.list_byte_of_string "zz".

(** The stages of a scrape of [hash_1] against [stray_tracker], from
    [fresh_client]. *)
Definition stray_session
  : outcome (option Conn * Z) * Goscrape * World :=
  connect 4 (stray_tracker [(10, 50, 2)]) fresh_client (world_at an_instant).

Definition stray_client : Goscrape := snd (fst stray_session).

Definition stray_request : list byte :=
  match scrape_request 0x1122334455667788
          (fst (transactionID (stray_tracker [(10, 50, 2)])
                  (snd stray_session))) [hash_1]
  with
  | Ok b => b
  | _ => []
  end.

Definition stray_exchange : outcome (Z * list byte) * World :=
  exchange 4 (stray_tracker [(10, 50, 2)]) 3 7 false stray_request
    (Bytes.make 20) 0
    (snd (transactionID (stray_tracker [(10, 50, 2)]) (snd stray_session))).

Definition stray_answer : Z * list byte :=
  match fst stray_exchange with
  | Ok a => a
  | _ => (0, [])
  end.

(** What the example of the README would give against a tracker that
    answers (10, 50, 2) and (20, 100, 4). *)
Definition scraped : list ScrapeResult :=
  [ {| Infohash := hash_1; Seeders := 10; Leechers := 2; Completed := 50 |};
    {| Infohash := hash_2; Seeders := 20; Leechers := 4; Completed := 100 |} ].

Definition no_result : ScrapeResult :=
  {| Infohash := []; Seeders := 0; Leechers := 0; Completed := 0 |}.

(** ** Notions for the further properties *)

(** The number of dials in a history. *)
Fixpoint count_dials (h : list Event) : nat :=
  match h with
  | [] => O
  | EvDial _ _ _ :: h' => S (count_dials h')
  | _ :: h' => count_dials h'
  end.

(** A transport on which no read runs into its deadline. *)
Definition no_timeouts (env : Env) : Prop :=
  forall h c size data e,
    read env h c size = (data, Some e) ->
    implements_net_Error e && Timeout e = false.

(** A transport whose reads deliver nothing when they run into their
    deadline, as a read on a UDP connection does. *)
Definition timeouts_deliver_nothing (env : Env) : Prop :=
  forall h c size data e,
    read env h c size = (data, Some e) ->
    implements_net_Error e && Timeout e = true -> data = [].

(** The writes of a history all carry the datagram [b] to the
    connection [c], and its reads are on [c] into [size] bytes. *)
Definition talks_to (c : Conn) (b : list byte) (size : nat) (ev : Event)
  : Prop :=
  match ev with
  | EvWrite c' b' _ _ => c' = c /\ b' = b
  | EvRead c' size' _ _ => c' = c /\ size' = size
  | EvSetWriteDeadline c' _ | EvSetReadDeadline c' _ => c' = c
  | EvDial _ _ _ => False
  end.

(** The header of a scrape request. *)
Definition scrape_header (connectionid tid : Z) : list byte :=
  BigEndian.encode 8 connectionid ++ BigEndian.encode 4 actionScrap
  ++ BigEndian.encode 4 tid.

(** The results that pair the infohashes with the triples (seeders,
    completed, leechers), in order. *)
Fixpoint paired (infohash : list (list byte)) (stats : list (Z * Z * Z))
  : list ScrapeResult :=
  match infohash, stats with
  | h :: infohash', (s, c, l) :: stats' =>
      {| Infohash := h; Seeders := s; Leechers := l; Completed := c |}
      :: paired infohash' stats'
  | _, _ => []
  end.

(** A triple of 32-bit values. *)
Definition u32_triple (s : Z * Z * Z) : Prop :=
  let '(a, b, c) := s in
  0 <= a < 2 ^ 32 /\ 0 <= b < 2 ^ 32 /\ 0 <= c < 2 ^ 32.

(** What [Scrape] does once [connect] has returned (lines 174-267). *)
Definition Scrape_rest (fuel : nat) (env : Env) (infohash : list (list byte))
  (connected : outcome (option Conn * Z) * Goscrape * World)
  : outcome (list ScrapeResult) * Goscrape * World :=
  match connected with
  | (Ok (conn, connectionid), g, w) =>
      let '(tid, w) := transactionID env w in
      match scrape_request connectionid tid infohash with
      | Ok buf =>
          let response := Bytes.make (8 + 12 * length infohash) in
          match conn with
          | None => (Panic, g, w)
          | Some c =>
              match exchange fuel env (retries g) c false buf response 0 w
              with
              | (Ok (n, response), w) =>
                  (scrape_response infohash tid n response, g, w)
              | (Err e, w) => (Err e, g, w)
              | (Panic, w) => (Panic, g, w)
              | (OutOfFuel, w) => (OutOfFuel, g, w)
              end
          end
      | Err e => (Err e, g, w)
      | Panic => (Panic, g, w)
      | OutOfFuel => (OutOfFuel, g, w)
      end
  | (Err e, g, w) => (Err e, g, w)
  | (Panic, g, w) => (Panic, g, w)
  | (OutOfFuel, g, w) => (OutOfFuel, g, w)
  end.

(** ** Further examples *)

(** A host that cannot be dialled. *)
Definition unreachable : Env :=
  {| rand_source := fun k => 0x123456789abcdef0 * (Z.of_nat k + 1);
     dial := fun _ _ => inr refused;
     write := fun _ _ b => (Z.of_nat (length b), None);
     read := fun _ _ _ => ([], Some refused);
     elapsed := fun _ => 1000%N |}.

(** The well-behaved tracker, on a transport that fails at once where
    the other would run into its deadline. *)
Definition prompt_tracker (stats : list (Z * Z * Z)) : Env :=
  {| rand_source := fun k => 0x123456789abcdef0 * (Z.of_nat k + 1);
     dial := fun _ _ => inl 7;
     write := fun _ _ b => (Z.of_nat (length b), None);
     read := fun h _ _ =>
       match tracker_answer 0x1122334455667788 stats (fun t => t) h with
       | (data, Some _) => (data, Some refused)
       | answer => answer
       end;
     elapsed := fun _ => 1000%N |}.

(** The stages of a call of [Scrape] on an example: the request, the
    loop and what the loop ends with. *)
Definition example_request (env : Env) (cid : Z) (w1 : World)
  (infohash : list (list byte)) : list byte :=
  match scrape_request cid (fst (transactionID env w1)) infohash with
  | Ok b => b
  | _ => []
  end.

Definition example_exchange (fuel : nat) (env : Env) (g1 : Goscrape)
  (c : Conn) (cid : Z) (w1 : World) (infohash : list (list byte))
  : outcome (Z * list byte) * World :=
  exchange fuel env (retries g1) c false
    (example_request env cid w1 infohash)
    (Bytes.make (8 + 12 * length infohash)) 0 (snd (transactionID env w1)).

Definition example_answer (x : outcome (Z * list byte) * World)
  : Z * list byte :=
  match fst x with
  | Ok a => a
  | _ => (0, [])
  end.

(** The session of [fresh_client] with the well-behaved tracker. *)
Definition first_session (stats : list (Z * Z * Z))
  : outcome (option Conn * Z) * Goscrape * World :=
  connect 4 (tracker stats) fresh_client (world_at an_instant).

(** A parser that knows one URL. *)
Definition example_parse (rawurl : String.string) : outcome URL :=
  if String.eqb rawurl "udp://tracker.example:6969/announce"%string
  then Ok {| Scheme := "udp"%string; Host := example_host |}
  else Err (url_Error 1).

(** * Properties *)

(** ** Integers and buffers *)

Lemma wrap_int_small (z : Z) : Int.in_int z -> Int.wrap_int z = z.
Proof.
  unfold Int.in_int, Int.wrap_int, Int.min_int, Int.max_int; intros H.
  rewrite Z.mod_small; lia.
Qed.

Lemma wrap_int_range (z : Z) : Int.in_int (Int.wrap_int z).
Proof.
  unfold Int.in_int, Int.wrap_int, Int.min_int, Int.max_int.
  pose proof (Z.mod_pos_bound (z + 2 ^ 63) (2 ^ 64)); lia.
Qed.

(** Every comparison [x <? y] of the goal, by cases. *)
Ltac by_comparisons :=
  repeat match goal with
         | |- context [?x <? ?y] => destruct (Z.ltb_spec x y)
         end.

Lemma saturate_mono (a b : Z) : a <= b -> Int.saturate a <= Int.saturate b.
Proof.
  unfold Int.saturate, Int.min_int, Int.max_int; intros H.
  by_comparisons; lia.
Qed.

Lemma copy_at_length (dst src : list byte) (off : nat) :
  (off <= length dst)%nat -> length (Bytes.copy_at dst off src) = length dst.
Proof.
  intros H; unfold Bytes.copy_at.
  rewrite !length_app, length_firstn, length_firstn, length_skipn; lia.
Qed.

Lemma copy_at_front (dst src : list byte) :
  (length dst <= length src)%nat ->
  Bytes.copy_at dst 0 src = firstn (length dst) src.
Proof.
  intros H; unfold Bytes.copy_at; cbn [firstn app].
  rewrite Nat.sub_0_r, Nat.min_l, Nat.add_0_l, skipn_all by lia.
  apply app_nil_r.
Qed.

Lemma make_length (n : nat) : length (Bytes.make n) = n.
Proof. apply repeat_length. Qed.

Lemma Uint32_firstn (b : list byte) (m off : nat) :
  (off + 4 <= m)%nat -> (m <= length b)%nat ->
  BigEndian.Uint32 (firstn m b) off = BigEndian.Uint32 b off.
Proof.
  intros H1 H2; unfold BigEndian.Uint32.
  rewrite length_firstn, Nat.min_l by lia.
  destruct (Nat.leb_spec (off + 4) m); [|lia].
  destruct (Nat.leb_spec (off + 4) (length b)); [|lia].
  rewrite skipn_firstn_comm, firstn_firstn, Nat.min_l by lia; reflexivity.
Qed.

(** A read that fills the buffer of [Scrape] leaves the front of the
    datagram in it. *)
Lemma full_response (size : nat) (prev data : list byte) (n : Z) :
  length prev = size ->
  n = Z.of_nat (Nat.min (length data) size) ->
  Z.of_nat size <= n ->
  (size <= length data)%nat /\
  Bytes.copy_at prev 0 data = firstn size data.
Proof.
  intros Hl Hn Hle.
  assert (H : (size <= length data)%nat) by lia.
  split; [exact H|].
  rewrite copy_at_front by lia. rewrite Hl; reflexivity.
Qed.

(** ** Encoding and decoding *)

Lemma val_of_Z (z : Z) : Bytes.val (Bytes.of_Z z) = z mod 256.
Proof.
  unfold Bytes.val, Bytes.of_Z.
  pose proof (Z.mod_pos_bound z 256 eq_refl) as Hm.
  destruct (Byte.of_N (Z.to_N (z mod 256))) as [b|] eqn:E.
  - apply Byte.to_of_N in E; rewrite E. apply Z2N.id; lia.
  - apply Byte.of_N_None_iff in E; lia.
Qed.

Lemma encode_length (n : nat) (v : Z) : length (BigEndian.encode n v) = n.
Proof. induction n; cbn [BigEndian.encode length]; congruence. Qed.

Lemma decode_encode (n : nat) (acc v : Z) :
  BigEndian.decode acc (BigEndian.encode n v)
  = acc * 256 ^ Z.of_nat n + v mod 256 ^ Z.of_nat n.
Proof.
  revert acc; induction n as [|n IH]; intros acc.
  - cbn [BigEndian.encode BigEndian.decode].
    change (256 ^ Z.of_nat 0) with 1; rewrite Z.mod_1_r; lia.
  - cbn [BigEndian.encode BigEndian.decode].
    rewrite IH, val_of_Z, Z.shiftr_div_pow2 by lia.
    replace (2 ^ (8 * Z.of_nat n)) with (256 ^ Z.of_nat n)
      by (rewrite Z.pow_mul_r by lia; reflexivity).
    rewrite Nat2Z.inj_succ, Z.pow_succ_r by lia.
    rewrite (Z.mul_comm 256 (256 ^ Z.of_nat n)).
    rewrite (Z.rem_mul_r v (256 ^ Z.of_nat n) 256) by lia.
    ring.
Qed.

(** What [PutUint32] wrote is what [Uint32] reads. *)
Lemma Uint32_copy_at (b : list byte) (off : nat) (v : Z) :
  (off + 4 <= length b)%nat ->
  BigEndian.Uint32 (Bytes.copy_at b off (BigEndian.encode 4 v)) off
  = Some (Int.wrap_u32 v).
Proof.
  intros H; unfold BigEndian.Uint32.
  rewrite copy_at_length by lia.
  destruct (Nat.leb_spec (off + 4) (length b)); [|lia].
  unfold Bytes.copy_at.
  rewrite encode_length, Nat.min_r by lia.
  rewrite skipn_app, length_firstn, Nat.min_l by lia.
  rewrite skipn_all2 by (rewrite length_firstn; lia).
  rewrite Nat.sub_diag, skipn_O; cbn [app].
  rewrite firstn_app, length_firstn, encode_length, Nat.min_l by lia.
  rewrite Nat.sub_diag, firstn_O, app_nil_r.
  rewrite firstn_firstn, Nat.min_l, firstn_all2
    by (rewrite ?encode_length; lia).
  exact (f_equal Some (decode_encode 4 0 v)).
Qed.

(** A copy further on leaves it there. *)
Lemma Uint32_copy_at_before (b src : list byte) (off o : nat) :
  (o + 4 <= off)%nat -> (off <= length b)%nat ->
  BigEndian.Uint32 (Bytes.copy_at b off src) o = BigEndian.Uint32 b o.
Proof.
  intros H1 H2; unfold BigEndian.Uint32.
  rewrite copy_at_length by lia.
  destruct (Nat.leb_spec (o + 4) (length b)); [|lia].
  unfold Bytes.copy_at.
  rewrite skipn_app, length_firstn, Nat.min_l by lia.
  replace (o - off)%nat with O by lia; rewrite skipn_O.
  rewrite firstn_app, length_skipn, length_firstn, Nat.min_l by lia.
  replace (4 - (off - o))%nat with O by lia; rewrite firstn_O.
  rewrite app_nil_r, skipn_firstn_comm, firstn_firstn, Nat.min_l by lia.
  reflexivity.
Qed.

Lemma PutUint32_ok (b : list byte) (off : nat) (v : Z) :
  (off + 4 <= length b)%nat ->
  exists b', BigEndian.PutUint32 b off v = Some b' /\ length b' = length b.
Proof.
  intros H; unfold BigEndian.PutUint32.
  destruct (Nat.leb_spec (off + 4) (length b)); [|lia].
  eexists; split; [reflexivity|apply copy_at_length; lia].
Qed.

Lemma PutUint64_ok (b : list byte) (off : nat) (v : Z) :
  (off + 8 <= length b)%nat ->
  exists b', BigEndian.PutUint64 b off v = Some b' /\ length b' = length b.
Proof.
  intros H; unfold BigEndian.PutUint64.
  destruct (Nat.leb_spec (off + 8) (length b)); [|lia].
  eexists; split; [reflexivity|apply copy_at_length; lia].
Qed.

(** ** Hexadecimal strings *)

(** [hex.Decode] succeeds on the strings of an even number of
    hexadecimal digits and fails with an error of its own on the
    others. *)
Lemma Decode_spec (src : list byte) :
  (hexadecimal src = true -> is_Ok (Hex.Decode src) = true) /\
  (hexadecimal src = false ->
   exists e, Hex.Decode src = Err e /\ hex_error e).
Proof.
  remember (length src) as n eqn:Hn.
  assert (Hle : (length src <= n)%nat) by lia; clear Hn.
  revert src Hle; induction n as [|n IH]; intros src Hle.
  - destruct src; [|cbn in Hle; lia].
    split; [reflexivity|discriminate].
  - destruct src as [|p [|q rest]].
    + split; [reflexivity|discriminate].
    + split; [discriminate|intros _].
      cbn [Hex.Decode]; unfold hex_error.
      destruct (Hex.fromHexChar p); eexists; split; try reflexivity; eauto.
    + destruct (IH rest) as [IHok IHerr]; [cbn in Hle; lia|].
      unfold hexadecimal in *; cbn [length Nat.even forallb Hex.Decode].
      assert (Hp : is_hex p
                   = match Hex.fromHexChar p with
                     | Some _ => true | None => false end) by reflexivity.
      assert (Hq : is_hex q
                   = match Hex.fromHexChar q with
                     | Some _ => true | None => false end) by reflexivity.
      rewrite Hp, Hq; clear Hp Hq.
      destruct (Hex.fromHexChar p) as [a|]; cbn [andb].
      2:{ rewrite andb_false_r; split; [discriminate|intros _].
          eexists; split; [reflexivity|right; eauto]. }
      destruct (Hex.fromHexChar q) as [b|]; cbn [andb].
      2:{ rewrite andb_false_r; split; [discriminate|intros _].
          eexists; split; [reflexivity|right; eauto]. }
      split.
      * intros H; specialize (IHok H).
        destruct (Hex.Decode rest); try discriminate; reflexivity.
      * intros H; destruct (IHerr H) as (e & -> & He).
        exists e; split; [reflexivity|exact He].
Qed.

(** ** The history only grows *)

Lemma trace_record env ev w : trace (record env ev w) = ev :: trace w.
Proof. reflexivity. Qed.

Lemma now_record env ev w : now w <= now (record env ev w).
Proof. cbn; lia. Qed.

Lemma rand_calls_record env ev w : rand_calls (record env ev w) = rand_calls w.
Proof. reflexivity. Qed.

Lemma time_Since_mono (w w' : World) (t : Z) :
  now w <= now w' -> time_Since w t <= time_Since w' t.
Proof.
  intros H; unfold time_Since, TimeModel.Sub, time_Now.
  apply saturate_mono; lia.
Qed.

Lemma extends_refl w : extends w w.
Proof. repeat split; [exists []; reflexivity | lia]. Qed.

Lemma extends_trans w1 w2 w3 : extends w1 w2 -> extends w2 w3 -> extends w1 w3.
Proof.
  intros [[e1 H1] [N1 R1]] [[e2 H2] [N2 R2]]; repeat split.
  - exists (e2 ++ e1). rewrite H2, H1, app_assoc; reflexivity.
  - lia.
  - congruence.
Qed.

Lemma extends_record env ev w : extends w (record env ev w).
Proof.
  repeat split; [exists [ev]; reflexivity | apply now_record].
Qed.

(** One turn of the loop, unfolded. *)
Lemma exchange_step fuel env limit c reuse buf response retries w :
  exchange (S fuel) env limit c reuse buf response retries w =
  let retries := Int.wrap_int (retries + 1) in
  let w := SetWriteDeadline env c (TimeModel.Add (time_Now w) timeout) w in
  let '(n, err, w) := Write env c buf w in
  match err with
  | Some e => (Err (net_Err e), w)
  | None =>
      if negb (n =? Z.of_nat (length buf)) then (Err ErrRequest, w)
      else
        let w :=
          SetReadDeadline env c (TimeModel.Add (time_Now w) timeout) w in
        let '(n, err, response, w) := Read env c response w in
        let buf := if reuse then response else buf in
        match err with
        | Some e =>
            if implements_net_Error e && Timeout e then
              if retries >? limit then (Err ErrRetryLimit, w)
              else exchange fuel env limit c reuse buf response retries w
            else if implements_net_Error e then (Err (net_Err e), w)
            else (Ok (n, response), w)
        | None => (Ok (n, response), w)
        end
  end.
Proof. reflexivity. Qed.

Lemma exchange_extends fuel env limit c reuse :
  forall buf response retries w,
    extends w (snd (exchange fuel env limit c reuse buf response retries w)).
Proof.
  induction fuel as [|fuel IH]; intros buf response retries w.
  - apply extends_refl.
  - rewrite exchange_step; cbv zeta.
    unfold Write, Read, SetWriteDeadline, SetReadDeadline.
    destruct (write env _ c buf) as [n [e|]].
    + eapply extends_trans; apply extends_record.
    + destruct (negb (n =? Z.of_nat (length buf))).
      * eapply extends_trans; apply extends_record.
      * destruct (read env _ c (length response)) as [data err].
        assert (E : extends w
          (record env (EvRead c (length response) data err)
            (record env (EvSetReadDeadline c
               (TimeModel.Add (time_Now
                  (record env (EvWrite c buf n None)
                     (record env (EvSetWriteDeadline c
                        (TimeModel.Add (time_Now w) timeout)) w))) timeout))
               (record env (EvWrite c buf n None)
                  (record env (EvSetWriteDeadline c
                     (TimeModel.Add (time_Now w) timeout)) w))))).
        { repeat (eapply extends_trans; [|apply extends_record]).
          apply extends_refl. }
        destruct err as [e|]; [|exact E].
        destruct (implements_net_Error e && Timeout e).
        -- destruct (_ >? limit); [exact E|].
           eapply extends_trans; [exact E|apply IH].
        -- destruct (implements_net_Error e); exact E.
Qed.

(** ** One attempt *)

Lemma trace_sent env c buf w :
  trace (sent env c buf w) =
  EvWrite c buf (fst (write_answer env c buf w))
    (snd (write_answer env c buf w))
  :: EvSetWriteDeadline c (TimeModel.Add (time_Now w) timeout) :: trace w.
Proof.
  unfold sent, write_answer, Write, SetWriteDeadline; cbn [record trace].
  destruct (write env _ c buf); reflexivity.
Qed.

Lemma trace_received env c buf response w :
  trace (received env c buf response w) =
  EvRead c (length response) (fst (read_answer env c buf response w))
    (snd (read_answer env c buf response w))
  :: EvSetReadDeadline c
       (TimeModel.Add (time_Now (sent env c buf w)) timeout)
  :: trace (sent env c buf w).
Proof.
  unfold received, read_answer, Read, SetReadDeadline; cbn [record trace].
  destruct (read env _ c (length response)); reflexivity.
Qed.

(** The loop, by the answers to its first attempt. *)
Lemma exchange_cases fuel env limit c reuse buf response retries w :
  exchange (S fuel) env limit c reuse buf response retries w =
  match write_answer env c buf w with
  | (_, Some e) => (Err (net_Err e), sent env c buf w)
  | (n, None) =>
      if negb (n =? Z.of_nat (length buf))
      then (Err ErrRequest, sent env c buf w)
      else
        let w4 := received env c buf response w in
        match read_answer env c buf response w with
        | (data, err) =>
            let n := Z.of_nat (Nat.min (length data) (length response)) in
            let response := Bytes.copy_at response 0 data in
            match err with
            | Some e =>
                if implements_net_Error e && Timeout e then
                  if Int.wrap_int (retries + 1) >? limit
                  then (Err ErrRetryLimit, w4)
                  else exchange fuel env limit c reuse
                         (if reuse then response else buf) response
                         (Int.wrap_int (retries + 1)) w4
                else if implements_net_Error e then (Err (net_Err e), w4)
                else (Ok (n, response), w4)
            | None => (Ok (n, response), w4)
            end
        end
  end.
Proof.
  rewrite exchange_step; cbv zeta.
  unfold write_answer, read_answer, received, sent.
  unfold Write, Read, SetWriteDeadline, SetReadDeadline; cbn [record trace].
  destruct (write env _ c buf) as [n [e|]]; [reflexivity|].
  cbn [snd trace record].
  destruct (negb (n =? Z.of_nat (length buf))); [reflexivity|].
  destruct (read env _ c (length response)) as [data [e|]]; reflexivity.
Qed.

(** The first attempt of a renewal: the request is written. *)
Lemma exchange_first_write fuel env limit c reuse buf response retries w :
  exists evs,
    trace (snd (exchange (S fuel) env limit c reuse buf response retries w))
    = evs ++ trace (sent env c buf w).
Proof.
  rewrite exchange_cases.
  assert (R : exists evs, trace (received env c buf response w)
                          = evs ++ trace (sent env c buf w)).
  { rewrite trace_received; eexists [_; _]; reflexivity. }
  destruct (write_answer env c buf w) as [n [e|]];
    [exists []; reflexivity|].
  destruct (negb (n =? Z.of_nat (length buf))); [exists []; reflexivity|].
  cbv zeta.
  destruct (read_answer env c buf response w) as [data [e|]]; [|exact R].
  destruct (implements_net_Error e && Timeout e).
  - destruct (_ >? limit); [exact R|].
    destruct R as (evs & R).
    destruct (exchange_extends fuel env limit c reuse
                (if reuse then Bytes.copy_at response 0 data else buf)
                (Bytes.copy_at response 0 data)
                (Int.wrap_int (retries + 1))
                (received env c buf response w)) as [[evs' H] _].
    exists (evs' ++ evs). rewrite H, R, app_assoc; reflexivity.
  - destruct (implements_net_Error e); exact R.
Qed.

(** ** The loop when every read times out *)

Section Silence.

Variable env : Env.
Hypothesis HW : writes_complete env.
Hypothesis HR : reads_time_out env.

(** One attempt against such a transport: the write is whole, the read
    times out. *)
Lemma silent_attempt limit c reuse fuel buf response retries w :
  exists data,
    exchange (S fuel) env limit c reuse buf response retries w =
    if Int.wrap_int (retries + 1) >? limit
    then (Err ErrRetryLimit, received env c buf response w)
    else exchange fuel env limit c reuse
           (if reuse then Bytes.copy_at response 0 data else buf)
           (Bytes.copy_at response 0 data)
           (Int.wrap_int (retries + 1)) (received env c buf response w).
Proof.
  rewrite exchange_cases.
  unfold write_answer at 1; rewrite HW, Z.eqb_refl; cbn [negb]; cbv zeta.
  destruct (HR (EvSetReadDeadline c
                  (TimeModel.Add (time_Now (sent env c buf w)) timeout)
                :: trace (sent env c buf w)) c (length response))
    as (data & e & Hread & Hnet & Hto).
  unfold read_answer at 1; cbv zeta; rewrite Hread, Hnet, Hto; cbn [andb].
  exists data; reflexivity.
Qed.

Lemma exchange_timeouts limit c reuse :
  limit < Int.max_int ->
  forall fuel buf response retries w,
    Int.min_int <= retries + 1 -> retries <= Z.max 0 limit ->
    (attempts limit retries <= fuel)%nat ->
    exists w',
      exchange fuel env limit c reuse buf response retries w
      = (Err ErrRetryLimit, w') /\
      count_writes (trace w') =
      (count_writes (trace w) + attempts limit retries)%nat /\
      count_reads (trace w') =
      (count_reads (trace w) + attempts limit retries)%nat.
Proof.
  intros HL.
  induction fuel as [|fuel IH]; intros buf response retries w Hlo Hhi Hfuel.
  - unfold attempts in Hfuel; lia.
  - destruct (silent_attempt limit c reuse fuel buf response retries w)
      as (data & ->).
    assert (Hwrap : Int.wrap_int (retries + 1) = retries + 1).
    { apply wrap_int_small; unfold Int.in_int, Int.max_int in *; lia. }
    rewrite Hwrap.
    assert (Hcount : count_writes (trace (received env c buf response w))
                     = S (count_writes (trace w))).
    { rewrite trace_received, trace_sent; reflexivity. }
    assert (Hreads : count_reads (trace (received env c buf response w))
                     = S (count_reads (trace w))).
    { rewrite trace_received, trace_sent; reflexivity. }
    destruct (Z.gtb_spec (retries + 1) limit) as [Hgt|Hle].
    + eexists; split; [reflexivity|].
      rewrite Hcount, Hreads; unfold attempts.
      replace (Z.max 1 (limit - retries + 1)) with 1 by lia.
      change (Z.to_nat 1) with 1%nat; lia.
    + destruct (IH (if reuse then Bytes.copy_at response 0 data else buf)
                  (Bytes.copy_at response 0 data) (retries + 1)
                  (received env c buf response w))
        as (w' & Hex & Hcw & Hcr).
      * lia.
      * lia.
      * unfold attempts in *; lia.
      * exists w'; split; [exact Hex|].
        rewrite Hcw, Hcr, Hcount, Hreads; unfold attempts; lia.
Qed.

(** With the largest [int] as limit the counter never exceeds it: the
    loop goes on as long as the reads time out. *)
Lemma exchange_never_gives_up c reuse :
  forall fuel buf response retries w,
    fst (exchange fuel env Int.max_int c reuse buf response retries w)
    = OutOfFuel.
Proof.
  induction fuel as [|fuel IH]; intros buf response retries w;
    [reflexivity|].
  destruct (silent_attempt Int.max_int c reuse fuel buf response retries w)
    as (data & ->).
  pose proof (wrap_int_range (retries + 1)) as [_ Hmax].
  destruct (Z.gtb_spec (Int.wrap_int (retries + 1)) Int.max_int); [lia|].
  apply IH.
Qed.

End Silence.

(** ** Failures that end the call *)

Lemma ends_in_quiet {A} (r : outcome A) evs : quiet evs -> ends_in r evs.
Proof.
  destruct evs as [|ev rest]; [exact (fun _ => I)|].
  intros H; inversion H; subst; split; [assumption|congruence].
Qed.

Lemma ends_in_app {A} (r : outcome A) evs1 evs2 :
  ends_in r evs1 -> quiet evs2 -> (evs1 = [] -> ends_in r evs2) ->
  ends_in r (evs1 ++ evs2).
Proof.
  destruct evs1 as [|ev rest]; cbn [app]; intros H1 H2 H3; [auto|].
  destruct H1 as [Q F]; split; [apply Forall_app; split; assumption|exact F].
Qed.

Lemma ends_in_map {A B} (r1 : outcome A) (r2 : outcome B) evs :
  (forall e, r1 = Err e -> r2 = Err e) -> ends_in r1 evs -> ends_in r2 evs.
Proof.
  destruct evs as [|ev rest]; [intros; exact I|].
  intros H [Q F]; split; [exact Q|]. intros e He; apply H, F, He.
Qed.

Lemma ends_in_fatal {A} (r : outcome A) evs ev e :
  ends_in r evs -> In ev evs -> fatal ev = Some e ->
  r = Err e /\ exists rest, evs = ev :: rest.
Proof.
  destruct evs as [|ev0 rest]; [intros _ []|].
  intros [Q F] [->|Hin] Hf.
  - split; [auto|eexists; reflexivity].
  - unfold quiet in Q; rewrite Forall_forall in Q.
    rewrite (Q _ Hin) in Hf; discriminate.
Qed.

Lemma exchange_ends_in fuel env limit c reuse :
  forall buf response retries w,
  exists evs,
    trace (snd (exchange fuel env limit c reuse buf response retries w))
    = evs ++ trace w /\
    ends_in (fst (exchange fuel env limit c reuse buf response retries w))
      evs /\
    (is_Ok (fst (exchange fuel env limit c reuse buf response retries w))
     = true -> quiet evs).
Proof.
  induction fuel as [|fuel IH]; intros buf response retries w.
  - exists []; repeat split; discriminate.
  - rewrite exchange_cases.
    pose proof (trace_sent env c buf w) as Hs.
    pose proof (trace_received env c buf response w) as Hr.
    rewrite Hs in Hr.
    destruct (write_answer env c buf w) as [n [e|]] eqn:Hw; cbn [fst snd] in *.
    { eexists [_; _]; rewrite Hs; repeat split.
      - repeat constructor.
      - cbn; congruence.
      - discriminate. }
    destruct (Z.eqb_spec n (Z.of_nat (length buf))) as [Hn|Hn];
      cbn [negb fst snd].
    2:{ eexists [_; _]; rewrite Hs; repeat split.
        - repeat constructor.
        - cbn. destruct (Z.eqb_spec n (Z.of_nat (length buf))); congruence.
        - discriminate. }
    cbv zeta.
    assert (Qs : fatal (EvWrite c buf n None) = None).
    { cbn. rewrite Hn, Z.eqb_refl; reflexivity. }
    destruct (read_answer env c buf response w) as [data [e|]] eqn:Hrd;
      cbn [fst snd] in *.
    2:{ eexists [_; _; _; _]; rewrite Hr; repeat split; intros;
        repeat constructor; try assumption; discriminate. }
    destruct (implements_net_Error e) eqn:Hnet;
      destruct (Timeout e) eqn:Hto; cbn [andb fst snd].
    + assert (Qr : fatal (EvRead c (length response) data (Some e)) = None).
      { cbn; rewrite Hnet, Hto; reflexivity. }
      destruct (_ >? limit); cbn [fst snd].
      * eexists [_; _; _; _]; rewrite Hr; repeat split; intros;
          repeat constructor; try assumption; try discriminate.
        cbn [fst] in *; congruence.
      * destruct (IH (if reuse then Bytes.copy_at response 0 data else buf)
                    (Bytes.copy_at response 0 data)
                    (Int.wrap_int (retries + 1))
                    (received env c buf response w))
          as (evs & Ht & He & Hq).
        exists (evs ++ [EvRead c (length response) data (Some e);
                        EvSetReadDeadline c
                          (TimeModel.Add (time_Now (sent env c buf w))
                             timeout);
                        EvWrite c buf n None;
                        EvSetWriteDeadline c
                          (TimeModel.Add (time_Now w) timeout)]).
        assert (Q4 : quiet
                 [EvRead c (length response) data (Some e);
                  EvSetReadDeadline c
                    (TimeModel.Add (time_Now (sent env c buf w)) timeout);
                  EvWrite c buf n None;
                  EvSetWriteDeadline c
                    (TimeModel.Add (time_Now w) timeout)]).
        { repeat constructor; assumption. }
        repeat split.
        -- rewrite Ht, Hr, <- app_assoc; reflexivity.
        -- apply ends_in_app; [exact He|exact Q4|].
           intros _; apply ends_in_quiet; exact Q4.
        -- intros H; apply Forall_app; split; [apply Hq; exact H|exact Q4].
    + eexists [_; _; _; _]; rewrite Hr; repeat split; intros;
        repeat constructor; try assumption; try discriminate.
      cbn in *. rewrite Hnet, Hto in *; cbn in *; congruence.
    + eexists [_; _; _; _]; rewrite Hr; repeat split; intros;
        repeat constructor; try assumption; try discriminate;
        cbn in *; rewrite Hnet in *; cbn in *; congruence.
    + eexists [_; _; _; _]; rewrite Hr; repeat split; intros;
        repeat constructor; try assumption; try discriminate;
        cbn in *; rewrite Hnet in *; cbn in *; congruence.
Qed.

Lemma exchange_errors fuel env limit c reuse :
  forall buf response retries w e,
    fst (exchange fuel env limit c reuse buf response retries w) = Err e ->
    e = ErrRequest \/ e = ErrRetryLimit \/ exists io, e = net_Err io.
Proof.
  induction fuel as [|fuel IH]; intros buf response retries w e;
    [discriminate|].
  rewrite exchange_cases.
  destruct (write_answer env c buf w) as [m [io|]]; cbn [fst].
  { intros [= <-]; right; right; eexists; reflexivity. }
  destruct (negb (m =? Z.of_nat (length buf))); cbn [fst].
  { intros [= <-]; left; reflexivity. }
  cbv zeta.
  destruct (read_answer env c buf response w) as [data [io|]]; cbn [fst];
    [|discriminate].
  destruct (implements_net_Error io && Timeout io).
  - destruct (_ >? limit); cbn [fst]; [|apply IH].
    intros [= <-]; right; left; reflexivity.
  - destruct (implements_net_Error io); cbn [fst]; [|discriminate].
    intros [= <-]; right; right; eexists; reflexivity.
Qed.

(** ** The end of a successful exchange *)

(** When the loop of [Scrape] ends with a read, the history ends with
    that read, preceded by the write of the request; the count is that
    of the bytes copied and the buffer holds them at its front. *)
Lemma exchange_Ok fuel env limit c buf :
  forall response retries w n resp w',
    exchange fuel env limit c false buf response retries w
    = (Ok (n, resp), w') ->
    exists data err t m h prev,
      trace w' = EvRead c (length response) data err
                 :: EvSetReadDeadline c t :: EvWrite c buf m None :: h /\
      length prev = length response /\
      n = Z.of_nat (Nat.min (length data) (length response)) /\
      resp = Bytes.copy_at prev 0 data.
Proof.
  induction fuel as [|fuel IH]; intros response retries w n resp w';
    [discriminate|].
  rewrite exchange_cases.
  pose proof (trace_received env c buf response w) as Hr.
  rewrite trace_sent in Hr.
  destruct (write_answer env c buf w) as [m [e|]]; [discriminate|].
  cbn [fst snd] in Hr.
  destruct (negb (m =? Z.of_nat (length buf))); [discriminate|].
  cbv zeta.
  destruct (read_answer env c buf response w) as [data [e|]];
    cbn [fst snd] in Hr.
  - destruct (implements_net_Error e && Timeout e).
    + destruct (_ >? limit); [discriminate|].
      intros H; apply IH in H.
      destruct H as (data' & err & t & m' & h & prev & Ht & Hl & Hn & Hresp).
      rewrite copy_at_length in Ht, Hl, Hn by lia.
      exists data', err, t, m', h, prev; repeat split; assumption.
    + destruct (implements_net_Error e); [discriminate|].
      intros [= <- <- <-].
      do 5 eexists; exists response; repeat split; exact Hr.
  - intros [= <- <- <-].
    do 5 eexists; exists response; repeat split; exact Hr.
Qed.

(** ** Transaction identifiers and requests *)

Lemma transactionID_eq env w :
  transactionID env w = (tid_of env w, used_rand w).
Proof. reflexivity. Qed.

Lemma tid_of_bound env w : 0 <= tid_of env w < 2 ^ 31.
Proof.
  unfold tid_of, Int.wrap_u32.
  set (r := rand_source env (rand_calls w) mod 2 ^ 63).
  assert (Hr : 0 <= r < 2 ^ 63) by (apply Z.mod_pos_bound; lia).
  assert (Hs : 0 <= Z.shiftr r 32 < 2 ^ 31).
  { rewrite Z.shiftr_div_pow2 by lia. split.
    - apply Z.div_pos; lia.
    - apply Z.div_lt_upper_bound; lia. }
  rewrite Z.mod_small; lia.
Qed.

(** The connect request is never refused: 16 bytes, the protocol
    identifier, the action and the transaction identifier. *)
Lemma connect_request_ok (tid : Z) :
  connect_request tid
  = Ok (BigEndian.encode 8 pid ++ BigEndian.encode 4 0
        ++ BigEndian.encode 4 tid).
Proof. reflexivity. Qed.

(** The header of a scrape request fits its buffer; the request fails
    only where the infohashes fail to decode. *)
Lemma scrape_request_decode (connectionid tid : Z)
  (infohash : list (list byte)) :
  exists buf,
    length buf = (16 + length infohash * 20)%nat /\
    scrape_request connectionid tid infohash
    = (dst <- Hex.Decode (Bytes.Join infohash) ;;
       Ok (Bytes.copy_at buf 16 dst)).
Proof.
  unfold scrape_request.
  destruct (PutUint64_ok (Bytes.make (16 + length infohash * 20)) 0
              connectionid) as (b1 & -> & L1);
    [rewrite make_length; lia|].
  rewrite make_length in L1.
  destruct (PutUint32_ok b1 8 2) as (b2 & E2 & L2); [lia|].
  destruct (PutUint32_ok b2 12 tid) as (b3 & E3 & L3); [lia|].
  cbn [checked bind]; rewrite E2; cbn [checked bind]; rewrite E3;
    cbn [checked bind].
  exists b3; split; [lia|reflexivity].
Qed.

(** The transaction identifier of a scrape request is at offset 12. *)
Lemma scrape_request_tid (connectionid tid : Z) (infohash : list (list byte))
  (buf : list byte) :
  scrape_request connectionid tid infohash = Ok buf ->
  BigEndian.Uint32 buf 12 = Some (Int.wrap_u32 tid).
Proof.
  unfold scrape_request.
  destruct (PutUint64_ok (Bytes.make (16 + length infohash * 20)) 0
              connectionid) as (b1 & -> & L1);
    [rewrite make_length; lia|].
  rewrite make_length in L1.
  destruct (PutUint32_ok b1 8 2) as (b2 & E2 & L2); [lia|].
  cbn [checked bind]; rewrite E2; cbn [checked bind].
  unfold BigEndian.PutUint32 at 1.
  destruct (Nat.leb_spec (12 + 4) (length b2)); [|lia].
  cbn [checked bind].
  destruct (Hex.Decode (Bytes.Join infohash)) as [dst|e| |];
    cbn [bind]; try discriminate.
  intros [= <-].
  rewrite Uint32_copy_at_before by (rewrite ?copy_at_length; lia).
  apply Uint32_copy_at; lia.
Qed.

(** ** [connect] *)

(** A session no older than a minute: nothing is done. *)
Lemma connect_fresh fuel env g w :
  time_Since w (session g) <= TimeModel.Minute ->
  connect fuel env g w = (Ok (conn g, connectionID g), g, w).
Proof.
  intros H; unfold connect.
  destruct (Z.gtb_spec (time_Since w (session g)) TimeModel.Minute);
    [lia|reflexivity].
Qed.

(** An older session: what the renewal does to the history and to the
    struct. *)
Lemma connect_stale fuel env g w r g' w' :
  TimeModel.Minute < time_Since w (session g) ->
  connect fuel env g w = (r, g', w') ->
  exists evs,
    trace w' =
      evs ++ EvDial (url g) timeout (dial env (trace w) (url g)) :: trace w /\
    now w <= now w' /\
    rand_calls w' = S (rand_calls w) /\
    url g' = url g /\ retries g' = retries g /\
    ends_in r evs /\
    (is_Ok r = true ->
       quiet evs /\ session g' = now w' /\ conn g' <> None /\
       r = Ok (conn g', connectionID g')) /\
    (is_Ok r = false ->
       connectionID g' = connectionID g /\ session g' = session g).
Proof.
  intros Hage; unfold connect.
  destruct (Z.gtb_spec (time_Since w (session g)) TimeModel.Minute); [|lia].
  rewrite transactionID_eq, connect_request_ok; unfold net_DialTimeout.
  cbn [trace used_rand].
  pose proof (now_record env
                (EvDial (url g) timeout (dial env (trace w) (url g)))
                (used_rand w)) as Hnow.
  cbn [now used_rand] in Hnow.
  fold (dialled env g w) in Hnow |- *.
  destruct (dial env (trace w) (url g)) as [c|e] eqn:Hd.
  - set (buf := BigEndian.encode 8 pid ++ _).
    pose proof (exchange_extends fuel env (retries (set_conn g (Some c))) c
                  true buf buf 0 (dialled env g w)) as (_ & Hn & Hr).
    destruct (exchange_ends_in fuel env (retries (set_conn g (Some c))) c
                true buf buf 0 (dialled env g w)) as (evs & Ht & He & Hq).
    unfold dialled at 2 in Ht; cbn [trace record used_rand] in Ht.
    rewrite Hd in Ht.
    unfold dialled at 2 in Hr; cbn [rand_calls record used_rand] in Hr.
    destruct (exchange fuel env _ c true buf buf 0 (dialled env g w))
      as [[[n buf']|e| |] w1]; cbn [fst snd] in *.
    + specialize (Hq eq_refl).
      destruct (connect_response (set_conn g (Some c)) n buf' w1) as [g2|e| |]
        eqn:Hresp; intros [= <- <- <-]; exists evs;
        repeat split; try assumption; try lia; try discriminate;
        try (apply ends_in_quiet; assumption).
      all: unfold connect_response in Hresp.
      all: destruct (negb (n =? Z.of_nat (length buf'))); [discriminate|].
      all: destruct (BigEndian.Uint32 buf' 0) as [a|]; [|discriminate].
      all: cbn [checked bind] in Hresp.
      all: destruct (negb (a =? actionConnect)); [discriminate|].
      all: destruct (BigEndian.Uint32 buf' 4) as [t|]; [|discriminate].
      all: cbn [checked bind] in Hresp.
      all: destruct (negb (t =? t)); [discriminate|].
      all: destruct (BigEndian.Uint64 buf' 8) as [id|]; [|discriminate].
      all: cbn [checked bind] in Hresp; injection Hresp as <-.
      all: cbn; first [reflexivity | discriminate].
    + intros [= <- <- <-]; exists evs;
        repeat split; try assumption; try lia; try discriminate.
      eapply ends_in_map; [|exact He]. intros e0 [= ->]; reflexivity.
    + intros [= <- <- <-]; exists evs;
        repeat split; try assumption; try lia; try discriminate.
      eapply ends_in_map; [|exact He]. discriminate.
    + intros [= <- <- <-]; exists evs;
        repeat split; try assumption; try lia; try discriminate.
      eapply ends_in_map; [|exact He]. discriminate.
  - intros [= <- <- <-]; exists [];
      repeat split; try assumption; try lia; try discriminate.
    unfold dialled; cbn [trace record used_rand app]; rewrite Hd; reflexivity.
Qed.

Lemma connect_ends_in fuel env g w r g' w' :
  connect fuel env g w = (r, g', w') ->
  exists evs,
    trace w' = evs ++ trace w /\ ends_in r evs /\
    (is_Ok r = true -> quiet evs).
Proof.
  intros H.
  destruct (Z.le_gt_cases (time_Since w (session g)) TimeModel.Minute)
    as [Hage|Hage].
  - rewrite connect_fresh in H by exact Hage.
    injection H as <- <- <-.
    exists []; repeat split. constructor.
  - destruct (connect_stale fuel env g w r g' w' Hage H)
      as (evs & Ht & _ & _ & _ & _ & He & Hok & _).
    assert (Qd : quiet [EvDial (url g) timeout (dial env (trace w) (url g))])
      by (repeat constructor).
    exists (evs ++ [EvDial (url g) timeout (dial env (trace w) (url g))]).
    repeat split.
    + rewrite Ht, <- app_assoc; reflexivity.
    + apply ends_in_app; [exact He|exact Qd|].
      intros _; apply ends_in_quiet, Qd.
    + intros Hr; apply Forall_app; split; [apply Hok, Hr|exact Qd].
Qed.

Lemma connect_response_errors g n buf w e :
  connect_response g n buf w = Err e ->
  e = ErrResponse \/ e = ErrInvalidAction.
Proof.
  unfold connect_response.
  destruct (negb (n =? Z.of_nat (length buf))); [intros [= <-]; auto|].
  destruct (BigEndian.Uint32 buf 0) as [a|]; [|discriminate].
  cbn [checked bind].
  destruct (negb (a =? actionConnect)); [intros [= <-]; auto|].
  destruct (BigEndian.Uint32 buf 4) as [t|]; [|discriminate].
  cbn [checked bind]. rewrite Z.eqb_refl; cbn [negb].
  destruct (BigEndian.Uint64 buf 8); discriminate.
Qed.

(** [has_transport] is kept by [connect], for any later instant: it
    holds of every struct that started from [New]. *)
Lemma connect_keeps_transport fuel env g w r g' w' :
  has_transport g w ->
  connect fuel env g w = (r, g', w') ->
  forall w2, now w' <= now w2 -> has_transport g' w2.
Proof.
  intros Hinv Hc w2 Hlater Hfresh2.
  destruct (Z.le_gt_cases (time_Since w (session g)) TimeModel.Minute)
    as [Hage|Hage].
  - rewrite connect_fresh in Hc by exact Hage.
    injection Hc as <- <- <-; exact (Hinv Hage).
  - destruct (connect_stale fuel env g w r g' w' Hage Hc)
      as (evs & _ & Hnow & _ & _ & _ & _ & Hok & Hfail).
    destruct (is_Ok r) eqn:Hr.
    + destruct (Hok eq_refl) as (_ & _ & Hconn & _); exact Hconn.
    + destruct (Hfail eq_refl) as [_ Hs].
      rewrite Hs in Hfresh2.
      pose proof (time_Since_mono w w2 (session g)); lia.
Qed.

(** ** [Scrape] *)

(** [Scrape] once the session is there. *)
Lemma Scrape_after_connect fuel env g infohash w oc cid g1 w1 :
  (length infohash <= 74)%nat ->
  connect fuel env g w = (Ok (oc, cid), g1, w1) ->
  Scrape fuel env g infohash w =
  match scrape_request cid (tid_of env w1) infohash with
  | Ok buf =>
      match oc with
      | None => (Panic, g1, used_rand w1)
      | Some c =>
          match exchange fuel env (retries g1) c false buf
                  (Bytes.make (8 + 12 * length infohash)) 0 (used_rand w1)
          with
          | (Ok (n, response), w3) =>
              (scrape_response infohash (tid_of env w1) n response, g1, w3)
          | (Err e, w3) => (Err e, g1, w3)
          | (Panic, w3) => (Panic, g1, w3)
          | (OutOfFuel, w3) => (OutOfFuel, g1, w3)
          end
      end
  | Err e => (Err e, g1, used_rand w1)
  | Panic => (Panic, g1, used_rand w1)
  | OutOfFuel => (OutOfFuel, g1, used_rand w1)
  end.
Proof.
  intros Hlen Hc; unfold Scrape.
  destruct (Nat.ltb_spec 74 (length infohash)); [lia|].
  rewrite Hc, transactionID_eq; reflexivity.
Qed.

Lemma Scrape_ends_in fuel env g infohash w r g' w' :
  Scrape fuel env g infohash w = (r, g', w') ->
  exists evs, trace w' = evs ++ trace w /\ ends_in r evs.
Proof.
  unfold Scrape.
  destruct (74 <? length infohash)%nat.
  { intros [= <- <- <-]; exists []; split; [reflexivity|exact I]. }
  destruct (connect fuel env g w) as [[rc g1] w1] eqn:Hc.
  destruct (connect_ends_in fuel env g w _ _ _ Hc) as (evc & Htc & Hec & Hqc).
  destruct rc as [[oc cid]|e| |].
  2,3,4: intros [= <- <- <-]; exists evc; split; [exact Htc|];
    eapply ends_in_map; [|exact Hec]; congruence.
  specialize (Hqc eq_refl).
  rewrite transactionID_eq.
  destruct (scrape_request cid (tid_of env w1) infohash) as [buf|e| |].
  2,3,4: intros [= <- <- <-]; exists evc; split; [exact Htc|];
    apply ends_in_quiet, Hqc.
  destruct oc as [c|].
  2: intros [= <- <- <-]; exists evc; split; [exact Htc|];
    apply ends_in_quiet, Hqc.
  destruct (exchange_ends_in fuel env (retries g1) c false buf
              (Bytes.make (8 + 12 * length infohash)) 0 (used_rand w1))
    as (evx & Htx & Hex & Hqx).
  cbn [trace used_rand] in Htx.
  destruct (exchange fuel env (retries g1) c false buf _ 0 (used_rand w1))
    as [[[n resp]|e| |] w3]; cbn [fst snd] in *;
    intros [= <- <- <-]; exists (evx ++ evc);
    (split; [rewrite Htx, Htc, app_assoc; reflexivity|]).
  1: apply ends_in_quiet, Forall_app; split; [apply Hqx; reflexivity|exact Hqc].
  all: apply ends_in_app;
    [eapply ends_in_map; [|exact Hex]; congruence
    |exact Hqc|intros _; apply ends_in_quiet, Hqc].
Qed.

(** When every read times out, [Scrape] gives up after as many writes
    as the loop makes attempts: in [connect] when the session is to be
    renewed, in its own loop otherwise. *)
Lemma Scrape_timeouts fuel env g infohash w :
  dial_succeeds env -> writes_complete env -> reads_time_out env ->
  retries g < Int.max_int ->
  (length infohash <= 74)%nat ->
  is_Ok (Hex.Decode (Bytes.Join infohash)) = true ->
  has_transport g w ->
  (attempts (retries g) 0 <= fuel)%nat ->
  exists g' w',
    Scrape fuel env g infohash w = (Err ErrRetryLimit, g', w') /\
    count_writes (trace w') =
    (count_writes (trace w) + attempts (retries g) 0)%nat /\
    count_reads (trace w') =
    (count_reads (trace w) + attempts (retries g) 0)%nat.
Proof.
  intros HD HW HR HL Hlen Hhex Hconn Hfuel.
  unfold Scrape.
  destruct (Nat.ltb_spec 74 (length infohash)); [lia|].
  destruct (Z.le_gt_cases (time_Since w (session g)) TimeModel.Minute)
    as [Hage|Hage].
  - rewrite connect_fresh by exact Hage.
    rewrite transactionID_eq.
    destruct (scrape_request_decode (connectionID g) (tid_of env w) infohash)
      as (b & _ & ->).
    destruct (Hex.Decode (Bytes.Join infohash)) as [dst|e| |];
      try discriminate; cbn [bind].
    destruct (conn g) as [c|] eqn:Hc; [|exfalso; apply (Hconn Hage), Hc].
    destruct (exchange_timeouts env HW HR (retries g) c false HL fuel
                (Bytes.copy_at b 16 dst)
                (Bytes.make (8 + 12 * length infohash)) 0
                (used_rand w))
      as (w' & -> & Hcw);
      [unfold Int.min_int; lia|lia|exact Hfuel|].
    exists g, w'; split; [reflexivity|exact Hcw].
  - unfold connect.
    destruct (Z.gtb_spec (time_Since w (session g)) TimeModel.Minute); [|lia].
    rewrite transactionID_eq, connect_request_ok; unfold net_DialTimeout.
    cbn [trace used_rand].
    destruct (HD (trace w) (url g)) as (c & ->).
    set (buf := BigEndian.encode 8 pid ++ _).
    destruct (exchange_timeouts env HW HR (retries g) c true HL fuel
                buf buf 0
                (record env (EvDial (url g) timeout (inl c)) (used_rand w)))
      as (w' & Hx & Hcw);
      [unfold Int.min_int; lia|lia|exact Hfuel|].
    cbn [retries set_conn]; rewrite Hx.
    exists (set_conn g (Some c)), w'; split; [reflexivity|exact Hcw].
Qed.

(** The records of the answer, one for each infohash, in order. *)
Lemma results_spec (infohash : list (list byte)) (response : list byte) :
  forall offset r,
    results infohash response offset = Ok r ->
    length r = length infohash /\
    forall i h, nth_error infohash i = Some h ->
      exists x,
        nth_error r i = Some x /\ Infohash x = h /\
        BigEndian.Uint32 response (offset + 12 * i) = Some (Seeders x) /\
        BigEndian.Uint32 response (offset + 12 * i + 4)
        = Some (Completed x) /\
        BigEndian.Uint32 response (offset + 12 * i + 8)
        = Some (Leechers x).
Proof.
  induction infohash as [|h0 rest IH]; intros offset r; cbn [results].
  - intros [= <-]; split; [reflexivity|].
    intros [|i] h; discriminate.
  - destruct (BigEndian.Uint32 response offset) as [s|] eqn:Es;
      [|discriminate].
    destruct (BigEndian.Uint32 response (offset + 4)) as [c|] eqn:Ec;
      [|discriminate].
    destruct (BigEndian.Uint32 response (offset + 8)) as [l|] eqn:El;
      [|discriminate].
    cbn [checked bind].
    destruct (results rest response (offset + 12)) as [r'| | |] eqn:Er;
      try discriminate.
    cbn [bind]; intros [= <-].
    destruct (IH _ _ Er) as [Hlen Hnth].
    split; [cbn [length]; congruence|].
    intros [|i] h; cbn [nth_error].
    + intros [= <-]. eexists; split; [reflexivity|].
      cbn [Infohash Seeders Completed Leechers].
      rewrite Nat.mul_0_r, Nat.add_0_r; repeat split; assumption.
    + intros Hi. destruct (Hnth i h Hi) as (x & Hx & Hh & Hs & Hc & Hl).
      exists x.
      replace (offset + 12 * S i)%nat with (offset + 12 + 12 * i)%nat by lia.
      repeat split; assumption.
Qed.

(** The records are there whenever the buffer has room for them. *)
Lemma results_ok (infohash : list (list byte)) (response : list byte) :
  forall offset,
    (offset + 12 * length infohash <= length response)%nat ->
    is_Ok (results infohash response offset) = true.
Proof.
  induction infohash as [|h rest IH]; intros offset H; [reflexivity|].
  cbn [results length] in *.
  unfold BigEndian.Uint32.
  destruct (Nat.leb_spec (offset + 4) (length response)); [|lia].
  destruct (Nat.leb_spec (offset + 4 + 4) (length response)); [|lia].
  destruct (Nat.leb_spec (offset + 8 + 4) (length response)); [|lia].
  cbn [checked bind].
  specialize (IH (offset + 12)%nat).
  destruct (results rest response (offset + 12)); cbn [bind is_Ok] in *;
    try reflexivity; apply IH; lia.
Qed.

(** ** The example transports *)

Lemma silent_dial_succeeds : dial_succeeds silent.
Proof. intros h addr; exists 7; reflexivity. Qed.

Lemma silent_writes_complete : writes_complete silent.
Proof. intros h c b; reflexivity. Qed.

Lemma silent_reads_time_out : reads_time_out silent.
Proof.
  intros h c size; exists [], timed_out; repeat split.
Qed.

(** * The claims *)

(** C1.  When [Scrape] succeeds on [N] infohashes ([N <= 74]
    then), the history ends with the read of the scrape response, a
    datagram of at least [8 + 12 * N] bytes, and the result has [N]
    entries: entry [i] carries the [i]-th infohash of the caller as it
    was given and, as its seeders, completed and leechers, the three
    big-endian 32-bit fields of the response at offsets [8 + 12 * i],
    [8 + 12 * i + 4] and [8 + 12 * i + 8]. *)
Theorem Scrape_results fuel env g infohash w r g' w' :
  Scrape fuel env g infohash w = (Ok r, g', w') ->
  length r = length infohash /\
  (length infohash <= 74)%nat /\
  exists c data err h,
    trace w' = EvRead c (8 + 12 * length infohash) data err :: h /\
    (8 + 12 * length infohash <= length data)%nat /\
    forall i x, nth_error r i = Some x ->
      nth_error infohash i = Some (Infohash x) /\
      BigEndian.Uint32 data (8 + 12 * i) = Some (Seeders x) /\
      BigEndian.Uint32 data (8 + 12 * i + 4) = Some (Completed x) /\
      BigEndian.Uint32 data (8 + 12 * i + 8) = Some (Leechers x).
Proof.
  intros H.
  assert (Hlen : (length infohash <= 74)%nat).
  { unfold Scrape in H.
    destruct (Nat.ltb_spec 74 (length infohash)); [discriminate|lia]. }
  destruct (connect fuel env g w) as [[rc g1] w1] eqn:Hc.
  destruct rc as [[oc cid]|e| |];
    try (unfold Scrape in H;
         destruct (Nat.ltb_spec 74 (length infohash)); [lia|];
         rewrite Hc in H; discriminate).
  rewrite (Scrape_after_connect fuel env g infohash w oc cid g1 w1 Hlen Hc)
    in H.
  destruct (scrape_request cid (tid_of env w1) infohash) as [buf|e| |];
    try discriminate.
  destruct oc as [c|]; [|discriminate].
  destruct (exchange fuel env (retries g1) c false buf
              (Bytes.make (8 + 12 * length infohash)) 0 (used_rand w1))
    as [[[n resp]|e| |] w3] eqn:Hx; try discriminate.
  injection H as Hres <- <-.
  destruct (exchange_Ok fuel env (retries g1) c buf _ 0 _ n resp w3 Hx)
    as (data & err & t & m & h & prev & Ht & Hl & Hnn & Hresp).
  rewrite make_length in Ht, Hl, Hnn.
  unfold scrape_response in Hres.
  destruct (Z.ltb_spec n (8 + 12 * Z.of_nat (length infohash)));
    [discriminate|].
  destruct (full_response (8 + 12 * length infohash) prev data n Hl Hnn)
    as [Hdata Hfront]; [lia|].
  rewrite Hfront in Hresp; subst resp.
  destruct (BigEndian.Uint32 (firstn _ data) 0) as [action|];
    [|discriminate].
  destruct (BigEndian.Uint32 (firstn _ data) 4) as [tid'|];
    [|discriminate].
  cbn [checked bind] in Hres.
  destruct (negb (tid' =? tid_of env w1)); [discriminate|].
  destruct (action =? actionError); [discriminate|].
  destruct (negb (action =? actionScrap)); [discriminate|].
  destruct (results_spec infohash _ 8 r Hres) as [Hlr Hnth].
  split; [exact Hlr|]; split; [exact Hlen|].
  exists c, data, err, (EvSetReadDeadline c t :: EvWrite c buf m None :: h).
  split; [exact Ht|]; split; [exact Hdata|].
  intros i x Hx'.
  assert (Hi : (i < length infohash)%nat).
  { rewrite <- Hlr. apply nth_error_Some; congruence. }
  destruct (nth_error infohash i) as [hi|] eqn:Ehi;
    [|apply nth_error_None in Ehi; lia].
  destruct (Hnth i hi Ehi) as (x' & Hx'' & Hh & Hs & Hc' & Hll).
  assert (x' = x) by congruence; subst x'.
  rewrite Uint32_firstn in Hs, Hc', Hll by lia.
  repeat split; [congruence|exact Hs|exact Hc'|exact Hll].
Qed.

(** The two infohashes of the example, against a tracker that answers
    (10, 50, 2) and (20, 100, 4). *)
Lemma Scrape_results_witness :
  length scraped = length [hash_1; hash_2] /\
  exists c data err h,
    trace (snd (Scrape 4 (tracker [(10, 50, 2); (20, 100, 4)])
                  fresh_client [hash_1; hash_2] (world_at an_instant)))
    = EvRead c 32 data err :: h /\
    BigEndian.Uint32 data 20 = Some (Seeders (nth 1 scraped no_result)) /\
    BigEndian.Uint32 data 24 = Some (Completed (nth 1 scraped no_result)) /\
    BigEndian.Uint32 data 28 = Some (Leechers (nth 1 scraped no_result)).
Proof.
  destruct (Scrape_results 4 (tracker [(10, 50, 2); (20, 100, 4)])
              fresh_client [hash_1; hash_2] (world_at an_instant)
              scraped
              (snd (fst (Scrape 4 (tracker [(10, 50, 2); (20, 100, 4)])
                           fresh_client [hash_1; hash_2]
                           (world_at an_instant))))
              (snd (Scrape 4 (tracker [(10, 50, 2); (20, 100, 4)])
                      fresh_client [hash_1; hash_2] (world_at an_instant))))
    as (Hlen & _ & c & data & err & h & Ht & _ & Hnth).
  - vm_compute; reflexivity.
  - destruct (Hnth 1%nat (nth 1 scraped no_result) eq_refl)
      as (_ & Hs & Hc & Hl).
    split; [exact Hlen|].
    exists c, data, err, h; repeat split; assumption.
Defined.

(** C2, on the code.  The check of line 156 compares the transaction
    identifier of the response with itself, so [connect] never fails
    with [ErrInvalidTransactionID]; and a response that carries another
    identifier than the request (here 0xffffffff for 0x12345678) is
    accepted: the call succeeds and the session is installed. *)
Theorem connect_accepts_stray_transaction :
  (forall fuel env g w,
     fst (fst (connect fuel env g w)) <> Err ErrInvalidTransactionID) /\
  option_map (fun b => BigEndian.Uint32 b 12)
    (last_written (trace (snd stray_session))) = Some (Some 0x12345678) /\
  option_map (fun b => BigEndian.Uint32 b 4)
    (last_read (trace (snd stray_session))) = Some (Some 0xffffffff) /\
  fst (fst stray_session) = Ok (Some 7, 0x1122334455667788) /\
  connectionID stray_client = 0x1122334455667788 /\
  session stray_client = now (snd stray_session).
Proof.
  split; [|vm_compute; repeat split].
  intros fuel env g w; unfold connect.
  destruct (time_Since w (session g) >? TimeModel.Minute); [|discriminate].
  rewrite transactionID_eq, connect_request_ok; unfold net_DialTimeout.
  destruct (dial env (trace (used_rand w)) (url g)) as [c|io];
    [|discriminate].
  set (buf := BigEndian.encode 8 pid ++ _).
  pose proof (exchange_errors fuel env (retries (set_conn g (Some c))) c true
                buf buf 0
                (record env (EvDial (url g) timeout (inl c)) (used_rand w)))
    as Hx.
  destruct (exchange fuel env _ c true buf buf 0 _)
    as [[[n buf']|e| |] w1]; cbn [fst] in *; try discriminate.
  - pose proof (connect_response_errors (set_conn g (Some c)) n buf' w1)
      as Hr.
    destruct (connect_response (set_conn g (Some c)) n buf' w1) as [g2|e| |];
      cbn [fst]; try discriminate.
    intros [= ->]; destruct (Hr _ eq_refl); discriminate.
  - intros [= ->].
    destruct (Hx _ eq_refl) as [H|[H|[io H]]]; discriminate.
Qed.

(** C3, as the code has it.  The infohashes are decoded together, after
    the session step: when their concatenation is not a string of an
    even number of hexadecimal digits and the session step has
    succeeded, [Scrape] fails with the error of [hex.Decode]; no scrape
    request is written, the history is the one the session step left,
    and that is the history of before when the session is no older than
    a minute. *)
Theorem Scrape_undecodable_infohash fuel env g infohash w oc cid g1 w1 :
  (length infohash <= 74)%nat ->
  connect fuel env g w = (Ok (oc, cid), g1, w1) ->
  hexadecimal (Bytes.Join infohash) = false ->
  exists e,
    hex_error e /\
    Scrape fuel env g infohash w = (Err e, g1, snd (transactionID env w1)) /\
    trace (snd (Scrape fuel env g infohash w)) = trace w1 /\
    (time_Since w (session g) <= TimeModel.Minute ->
     trace (snd (Scrape fuel env g infohash w)) = trace w).
Proof.
  intros Hlen Hc Hhex.
  destruct (Decode_spec (Bytes.Join infohash)) as [_ Herr].
  destruct (Herr Hhex) as (e & Hd & He).
  exists e; split; [exact He|].
  rewrite (Scrape_after_connect fuel env g infohash w oc cid g1 w1 Hlen Hc).
  destruct (scrape_request_decode cid (tid_of env w1) infohash)
    as (b & _ & ->).
  rewrite Hd, transactionID_eq; cbn [bind snd].
  repeat split.
  intros Hage; rewrite connect_fresh in Hc by exact Hage.
  injection Hc as _ _ _ <-; reflexivity.
Qed.

(** A string that is not hexadecimal, with a session of 59 seconds: the
    call fails and nothing has gone to the network. *)
Lemma Scrape_undecodable_infohash_witness :
  exists e,
    hex_error e /\
    fst (fst (Scrape 4 (tracker []) connected_client [not_hex]
                (world_at (an_instant + 59 * TimeModel.Second))))
    = Err e /\
    trace (snd (Scrape 4 (tracker []) connected_client [not_hex]
                  (world_at (an_instant + 59 * TimeModel.Second))))
    = [].
Proof.
  destruct (Scrape_undecodable_infohash 4 (tracker []) connected_client
              [not_hex] (world_at (an_instant + 59 * TimeModel.Second))
              (Some 7) 99 connected_client
              (world_at (an_instant + 59 * TimeModel.Second)))
    as (e & He & Hs & _ & Hfresh).
  - vm_compute; lia.
  - vm_compute; reflexivity.
  - vm_compute; reflexivity.
  - exists e; split; [exact He|]; split.
    + rewrite Hs; reflexivity.
    + apply Hfresh; vm_compute; discriminate.
Defined.

(** C3, as the specification has it, fails twice.  An infohash of two
    hexadecimal digits is not refused: it is sent, padded with zeros,
    and the call succeeds.  And an infohash that is not hexadecimal is
    refused only after the session step: from a client without a
    session, the connect request has been written by then. *)
Lemma Scrape_short_infohash_accepted :
  length short_hash = 2%nat /\
  fst (fst (Scrape 4 (tracker [(10, 50, 2)]) fresh_client [short_hash]
              (world_at an_instant)))
  = Ok [ {| Infohash := short_hash; Seeders := 10; Leechers := 2;
            Completed := 50 |} ] /\
  hexadecimal not_hex = false /\
  fst (fst (Scrape 4 (tracker []) fresh_client [not_hex]
              (world_at an_instant)))
  = Err (hex_InvalidByteError (Bytes.of_Z 122)) /\
  count_writes (trace (snd (Scrape 4 (tracker []) fresh_client [not_hex]
                              (world_at an_instant)))) = 1%nat.
Proof. vm_compute; repeat split. Qed.

(** C4, as the code has it.  [connect] renews the session exactly when
    the session is older than a minute, strictly: then it dials, and
    if the dial succeeds it writes the connect request.  A session of a
    minute or less is returned as it is cached, the struct and the
    world untouched: no network operation.  A struct without a session
    (the zero [Time]) is older than a minute at any instant later than
    the first minute of the calendar. *)
Theorem connect_renews_when_older_than_a_minute fuel env g w :
  (TimeModel.Minute < time_Since w (session g) <->
   exists evs,
     trace (snd (connect fuel env g w)) =
     evs ++ EvDial (url g) timeout (dial env (trace w) (url g)) :: trace w)
  /\ (time_Since w (session g) <= TimeModel.Minute ->
      connect fuel env g w = (Ok (conn g, connectionID g), g, w))
  /\ (session g = 0 -> TimeModel.Minute < now w ->
      TimeModel.Minute < time_Since w (session g))
  /\ (TimeModel.Minute < time_Since w (session g) ->
      forall c, dial env (trace w) (url g) = inl c -> fuel <> O ->
      exists evs n err t,
        trace (snd (connect fuel env g w)) =
        evs ++ EvWrite c
                 (BigEndian.encode 8 pid ++ BigEndian.encode 4 actionConnect
                  ++ BigEndian.encode 4 (fst (transactionID env w))) n err
            :: EvSetWriteDeadline c t
            :: EvDial (url g) timeout (inl c) :: trace w).
Proof.
  repeat split.
  - intros Hage.
    destruct (connect fuel env g w) as [[r g'] w'] eqn:Hc.
    destruct (connect_stale fuel env g w r g' w' Hage Hc) as (evs & Ht & _).
    exists evs; exact Ht.
  - intros (evs & Ht).
    destruct (Z.le_gt_cases (time_Since w (session g)) TimeModel.Minute)
      as [Hage|Hage]; [|exact Hage].
    rewrite connect_fresh in Ht by exact Hage; cbn [snd] in Ht.
    apply (f_equal (@length Event)) in Ht.
    rewrite length_app in Ht; cbn [length] in Ht; lia.
  - apply connect_fresh.
  - intros Hs Hnow; rewrite Hs.
    unfold time_Since, TimeModel.Sub, time_Now, Int.saturate.
    unfold TimeModel.Minute, TimeModel.Second, Int.min_int, Int.max_int in *.
    by_comparisons; lia.
  - intros Hage c Hd Hfuel.
    destruct fuel as [|fuel]; [congruence|].
    unfold connect.
    destruct (Z.gtb_spec (time_Since w (session g)) TimeModel.Minute); [|lia].
    rewrite transactionID_eq, connect_request_ok; unfold net_DialTimeout.
    cbn [trace used_rand fst]; rewrite Hd.
    set (buf := BigEndian.encode 8 pid ++ _).
    set (wd := record env (EvDial (url g) timeout (inl c)) (used_rand w)).
    destruct (exchange_first_write fuel env (retries (set_conn g (Some c))) c
                true buf buf 0 wd) as (evs & Ht).
    rewrite trace_sent in Ht.
    exists evs. do 3 eexists.
    destruct (exchange (S fuel) env _ c true buf buf 0 wd)
      as [[[n buf']|e| |] w1]; cbn [snd] in Ht;
      try destruct (connect_response _ n buf' w1); exact Ht.
Qed.

(** The strict comparison at work: a session of one second less than a
    minute is returned from the cache. *)
Lemma connect_renews_when_older_than_a_minute_witness :
  connect 4 (tracker []) connected_client
    (world_at (an_instant + 59 * TimeModel.Second))
  = (Ok (Some 7, 99), connected_client,
     world_at (an_instant + 59 * TimeModel.Second)).
Proof.
  apply (proj1 (proj2 (connect_renews_when_older_than_a_minute 4 (tracker [])
                         connected_client
                         (world_at (an_instant + 59 * TimeModel.Second))))).
  vm_compute; discriminate.
Defined.

(** C4, as the specification has it, fails at a session of exactly one
    minute: the cached transport and identifier are returned and the
    history is as it was, so no renewal handshake has run. *)
Lemma connect_at_one_minute_no_renewal :
  time_Since (world_at (an_instant + 60 * TimeModel.Second))
    (session connected_client) = 60 * TimeModel.Second /\
  connect 4 (tracker []) connected_client
    (world_at (an_instant + 60 * TimeModel.Second))
  = (Ok (Some 7, 99), connected_client,
     world_at (an_instant + 60 * TimeModel.Second)) /\
  trace (snd (connect 4 (tracker []) connected_client
                (world_at (an_instant + 60 * TimeModel.Second)))) = [].
Proof. vm_compute; repeat split. Qed.

(** C5, as the code has it.  Take a retry limit from 0 up (3 after
    [New]) and below the largest [int].  When the transport can be
    dialled, takes every
    write whole and times out on every read, [Scrape] fails with
    [ErrRetryLimit] after exactly [retries + 1] writes.  And in any run
    of [Scrape], a write that returns an error, a write that is short,
    or a read that fails with a [net.Error] (as the errors of a read on
    a UDP connection are) other than a deadline expiry is the last
    thing done, and its error is the result: [ErrRequest] for the
    short write, the error itself otherwise. *)
Theorem Scrape_retry_policy fuel env g infohash w r g' w' :
  Scrape fuel env g infohash w = (r, g', w') ->
  (forall parse rawurl g0, New parse rawurl = Ok g0 -> retries g0 = 3) /\
  (dial_succeeds env -> writes_complete env -> reads_time_out env ->
   0 <= retries g < Int.max_int ->
   (length infohash <= 74)%nat ->
   hexadecimal (Bytes.Join infohash) = true ->
   has_transport g w ->
   (Z.to_nat (retries g) < fuel)%nat ->
   r = Err ErrRetryLimit /\
   count_writes (trace w')
   = (count_writes (trace w) + Z.to_nat (retries g + 1))%nat) /\
  exists evs,
    trace w' = evs ++ trace w /\
    forall ev e, In ev evs -> fatal ev = Some e ->
      r = Err e /\ exists rest, evs = ev :: rest.
Proof.
  intros H; split; [|split].
  - intros parse rawurl g0; unfold New.
    destruct (parse rawurl) as [u|e| |]; try discriminate.
    destruct (String.eqb (Scheme u) "udp"); [|discriminate].
    intros [= <-]; reflexivity.
  - intros HD HW HR Hlim Hlen Hhex Hconn Hfuel.
    destruct (Decode_spec (Bytes.Join infohash)) as [Hok _].
    destruct (Scrape_timeouts fuel env g infohash w HD HW HR (proj2 Hlim)
                Hlen (Hok Hhex) Hconn) as (g2 & w2 & Hs & Hcw & _).
    + unfold attempts; lia.
    + rewrite Hs in H; injection H as <- <- <-.
      split; [reflexivity|].
      rewrite Hcw; unfold attempts.
      replace (Z.max 1 (retries g - 0 + 1)) with (retries g + 1) by lia.
      reflexivity.
  - destruct (Scrape_ends_in fuel env g infohash w r g' w' H)
      as (evs & Ht & He).
    exists evs; split; [exact Ht|].
    intros ev e Hin Hf; exact (ends_in_fatal r evs ev e He Hin Hf).
Qed.

(** Against the silent tracker, with the limit of [New]: four writes.
    Against a host that refuses: the error of the first read. *)
Lemma Scrape_retry_policy_witness :
  (fst (fst (Scrape 4 silent fresh_client [hash_1] (world_at an_instant)))
   = Err ErrRetryLimit /\
   count_writes
     (trace (snd (Scrape 4 silent fresh_client [hash_1]
                    (world_at an_instant))))
   = (count_writes (trace (world_at an_instant))
      + Z.to_nat (retries fresh_client + 1))%nat) /\
  fst (fst (Scrape 4 refusing fresh_client [hash_1] (world_at an_instant)))
  = Err (net_Err refused).
Proof.
  split.
  - apply (Scrape_retry_policy 4 silent fresh_client [hash_1]
             (world_at an_instant)
             (fst (fst (Scrape 4 silent fresh_client [hash_1]
                          (world_at an_instant))))
             (snd (fst (Scrape 4 silent fresh_client [hash_1]
                          (world_at an_instant))))
             (snd (Scrape 4 silent fresh_client [hash_1]
                     (world_at an_instant)))).
    + vm_compute; reflexivity.
    + exact silent_dial_succeeds.
    + exact silent_writes_complete.
    + exact silent_reads_time_out.
    + unfold Int.max_int; cbn [retries fresh_client]; lia.
    + vm_compute; lia.
    + vm_compute; reflexivity.
    + intros Hage; vm_compute in Hage; exfalso; apply Hage; reflexivity.
    + vm_compute; lia.
  - destruct (Scrape_retry_policy 4 refusing fresh_client [hash_1]
                (world_at an_instant)
                (fst (fst (Scrape 4 refusing fresh_client [hash_1]
                             (world_at an_instant))))
                (snd (fst (Scrape 4 refusing fresh_client [hash_1]
                             (world_at an_instant))))
                (snd (Scrape 4 refusing fresh_client [hash_1]
                        (world_at an_instant))))
      as (_ & _ & evs & Ht & Hfatal); [vm_compute; reflexivity|].
    rewrite app_nil_r in Ht.
    apply (Hfatal (EvRead 7 16 [] (Some refused)) (net_Err refused));
      [rewrite <- Ht; vm_compute; left; reflexivity|reflexivity].
Defined.

(** C5, as the specification has it, fails for a retry limit that is
    no count below the largest [int], as [SetRetryLimit] takes them.
    On a session still valid and against a tracker that stays silent,
    the loop of [Scrape] with the limit -5 gives up after one write,
    which is not [retries + 1]; and with the largest [int] as limit it
    never gives up, however many attempts it is given. *)
Lemma Scrape_limit_outside_the_counts :
  (forall k,
     fst (fst (Scrape (S k) silent (SetRetryLimit connected_client (-5))
                 [hash_1] (world_at (an_instant + 59 * TimeModel.Second))))
     = Err ErrRetryLimit /\
     count_writes
       (trace (snd (Scrape (S k) silent (SetRetryLimit connected_client (-5))
                      [hash_1]
                      (world_at (an_instant + 59 * TimeModel.Second)))))
     = 1%nat /\
     Z.of_nat
       (count_writes
          (trace (snd (Scrape (S k) silent
                         (SetRetryLimit connected_client (-5)) [hash_1]
                         (world_at (an_instant + 59 * TimeModel.Second))))))
     <> retries (SetRetryLimit connected_client (-5)) + 1) /\
  ~ exists fuel,
      fst (fst (Scrape fuel silent
                  (SetRetryLimit connected_client Int.max_int) [hash_1]
                  (world_at (an_instant + 59 * TimeModel.Second))))
      = Err ErrRetryLimit.
Proof.
  split.
  - intros k.
    destruct (Scrape_timeouts (S k) silent
                (SetRetryLimit connected_client (-5)) [hash_1]
                (world_at (an_instant + 59 * TimeModel.Second))
                silent_dial_succeeds silent_writes_complete
                silent_reads_time_out)
      as (g2 & w2 & Hs & Hcw & _).
    + unfold Int.max_int; cbn [retries SetRetryLimit]; lia.
    + cbn [length]; lia.
    + vm_compute; reflexivity.
    + intros _; cbn [conn SetRetryLimit connected_client]; discriminate.
    + unfold attempts; cbn [retries SetRetryLimit].
      change (Z.to_nat (Z.max 1 (-5 - 0 + 1))) with 1%nat; lia.
    + rewrite Hs; cbn [fst snd]; rewrite Hcw.
      unfold attempts; cbn [retries SetRetryLimit trace world_at count_writes].
      change (Z.to_nat (Z.max 1 (-5 - 0 + 1))) with 1%nat.
      repeat split; cbn; lia.
  - intros [fuel H].
    rewrite (Scrape_after_connect fuel silent
               (SetRetryLimit connected_client Int.max_int) [hash_1]
               (world_at (an_instant + 59 * TimeModel.Second))
               (Some 7) 99
               (SetRetryLimit connected_client Int.max_int)
               (world_at (an_instant + 59 * TimeModel.Second))) in H;
      [|cbn [length]; lia
       |apply connect_fresh; vm_compute; intros Hc; discriminate Hc].
    destruct (scrape_request_decode 99
                (tid_of silent
                   (world_at (an_instant + 59 * TimeModel.Second)))
                [hash_1]) as (b & _ & Hreq).
    rewrite Hreq in H.
    destruct (Hex.Decode (Bytes.Join [hash_1])) as [dst|e| |] eqn:Hd;
      try (vm_compute in Hd; discriminate Hd).
    cbn [bind retries SetRetryLimit] in H.
    match type of H with
    | context [exchange fuel silent Int.max_int 7 false ?rq ?rs 0 ?w0] =>
        pose proof (exchange_never_gives_up silent
                      silent_writes_complete silent_reads_time_out 7 false
                      fuel rq rs 0 w0) as Hx;
        destruct (exchange fuel silent Int.max_int 7 false rq rs 0 w0)
          as [[[n buf']|e| |] w1]
    end; cbn [fst] in Hx, H; discriminate.
Qed.

(** C6.  Once the loop of [Scrape] has read an answer of at least
    [8 + 12 * N] bytes, the result is decided by the answer alone and in
    this order: a transaction identifier other than the one in the
    request just written gives [ErrInvalidTransactionID]; else the
    action [actionError] gives [ErrRemote]; else an action other than
    [actionScrap] gives [ErrInvalidAction]; else the results are
    returned.  In every case the world is the one the read left: nothing
    is written again. *)
Theorem Scrape_validates_response fuel env g infohash w c cid g1 w1 buf n
  resp w3 :
  (length infohash <= 74)%nat ->
  connect fuel env g w = (Ok (Some c, cid), g1, w1) ->
  scrape_request cid (fst (transactionID env w1)) infohash = Ok buf ->
  exchange fuel env (retries g1) c false buf
    (Bytes.make (8 + 12 * length infohash)) 0 (snd (transactionID env w1))
  = (Ok (n, resp), w3) ->
  8 + 12 * Z.of_nat (length infohash) <= n ->
  exists data err t m h sent_tid echoed action,
    trace w3 = EvRead c (8 + 12 * length infohash) data err
               :: EvSetReadDeadline c t :: EvWrite c buf m None :: h /\
    BigEndian.Uint32 buf 12 = Some sent_tid /\
    BigEndian.Uint32 data 4 = Some echoed /\
    BigEndian.Uint32 data 0 = Some action /\
    Scrape fuel env g infohash w =
    (if negb (echoed =? sent_tid) then Err ErrInvalidTransactionID
     else if action =? actionError then Err ErrRemote
     else if negb (action =? actionScrap) then Err ErrInvalidAction
     else results infohash (firstn (8 + 12 * length infohash) data) 8,
     g1, w3) /\
    is_Ok (results infohash (firstn (8 + 12 * length infohash) data) 8)
    = true.
Proof.
  rewrite transactionID_eq; cbn [fst snd].
  intros Hlen Hc Hreq Hx Hn.
  rewrite (Scrape_after_connect fuel env g infohash w (Some c) cid g1 w1
             Hlen Hc), Hreq, Hx.
  destruct (exchange_Ok fuel env (retries g1) c buf _ 0 _ n resp w3 Hx)
    as (data & err & t & m & h & prev & Ht & Hl & Hnn & Hresp).
  rewrite make_length in Ht, Hl, Hnn.
  destruct (full_response (8 + 12 * length infohash) prev data n Hl Hnn)
    as [Hdata Hfront]; [lia|].
  rewrite Hfront in Hresp; subst resp.
  assert (H0 : BigEndian.Uint32 (firstn (8 + 12 * length infohash) data) 0
               = BigEndian.Uint32 data 0)
    by (apply Uint32_firstn; lia).
  assert (H4 : BigEndian.Uint32 (firstn (8 + 12 * length infohash) data) 4
               = BigEndian.Uint32 data 4)
    by (apply Uint32_firstn; lia).
  assert (E0 : exists a, BigEndian.Uint32 data 0 = Some a).
  { unfold BigEndian.Uint32.
    destruct (Nat.leb_spec (0 + 4) (length data)); [eexists; reflexivity|lia]. }
  assert (E4 : exists a, BigEndian.Uint32 data 4 = Some a).
  { unfold BigEndian.Uint32.
    destruct (Nat.leb_spec (4 + 4) (length data)); [eexists; reflexivity|lia]. }
  destruct E0 as (action & E0), E4 as (echoed & E4).
  exists data, err, t, m, h, (tid_of env w1), echoed, action.
  repeat split; try assumption.
  - rewrite (scrape_request_tid cid (tid_of env w1) infohash buf Hreq).
    unfold tid_of, Int.wrap_u32; rewrite Z.mod_mod by lia; reflexivity.
  - unfold scrape_response.
    destruct (Z.ltb_spec n (8 + 12 * Z.of_nat (length infohash))); [lia|].
    rewrite H0, H4, E0, E4; reflexivity.
  - apply results_ok. rewrite length_firstn; lia.
Qed.

(** A tracker that answers the scrape request with a transaction
    identifier of its own: the call fails on it. *)
Lemma Scrape_validates_response_witness :
  fst (fst (Scrape 4 (stray_tracker [(10, 50, 2)]) fresh_client [hash_1]
              (world_at an_instant)))
  = Err ErrInvalidTransactionID.
Proof.
  destruct (Scrape_validates_response 4 (stray_tracker [(10, 50, 2)])
              fresh_client [hash_1] (world_at an_instant)
              7 0x1122334455667788 stray_client (snd stray_session)
              stray_request 20 (snd (stray_answer)) (snd stray_exchange))
    as (data & err & t & m & h & sent_tid & echoed & action
        & Ht & Hs & He & Ha & HS & _).
  - vm_compute; lia.
  - vm_compute; reflexivity.
  - vm_compute; reflexivity.
  - vm_compute; reflexivity.
  - vm_compute; discriminate.
  - vm_compute in Ht; injection Ht as <- _ _ _ _.
    vm_compute in Hs; injection Hs as <-.
    vm_compute in He; injection He as <-.
    rewrite HS; reflexivity.
Defined.

(** C7.  A list of more than 74 infohashes: [Scrape] fails with
    [ErrTooManyInfohash]; the struct and the world, and with it the
    history of network operations, are as they were: no dial, no
    handshake, no datagram. *)
Theorem Scrape_too_many fuel env g infohash w :
  (74 < length infohash)%nat ->
  Scrape fuel env g infohash w = (Err ErrTooManyInfohash, g, w).
Proof.
  intros H; unfold Scrape.
  destruct (Nat.ltb_spec 74 (length infohash)); [reflexivity|lia].
Qed.

Lemma Scrape_too_many_witness :
  Scrape 4 (tracker []) fresh_client (repeat hash_1 75)
    (world_at an_instant)
  = (Err ErrTooManyInfohash, fresh_client, world_at an_instant).
Proof.
  apply (Scrape_too_many 4 (tracker []) fresh_client (repeat hash_1 75)
           (world_at an_instant)).
  rewrite repeat_length; lia.
Defined.

(** C8.  A transaction identifier, as [transactionID] makes it, is
    below 2^31: its bit 31 is zero.  It is what the connect request and
    every scrape request carry at offset 12. *)
Theorem transactionID_below_2_31 env w :
  0 <= fst (transactionID env w) < 2 ^ 31 /\
  Z.testbit (fst (transactionID env w)) 31 = false /\
  (forall buf,
     connect_request (fst (transactionID env w)) = Ok buf ->
     BigEndian.Uint32 buf 12 = Some (fst (transactionID env w))) /\
  (forall connectionid infohash buf,
     scrape_request connectionid (fst (transactionID env w)) infohash
     = Ok buf ->
     BigEndian.Uint32 buf 12 = Some (fst (transactionID env w))).
Proof.
  rewrite transactionID_eq; cbn [fst].
  pose proof (tid_of_bound env w) as H.
  assert (Hw : Int.wrap_u32 (tid_of env w) = tid_of env w)
    by (unfold Int.wrap_u32; apply Z.mod_small; lia).
  repeat split; try apply H.
  - apply Z.testbit_false; [lia|].
    rewrite Z.div_small by lia; reflexivity.
  - intros buf; rewrite connect_request_ok; intros [= <-].
    etransitivity; [exact (f_equal Some (decode_encode 4 0 (tid_of env w)))|].
    exact (f_equal Some Hw).
  - intros connectionid infohash buf Hreq.
    rewrite (scrape_request_tid connectionid (tid_of env w) infohash buf Hreq).
    rewrite Hw; reflexivity.
Qed.

(** C9.  [connect] writes [connectionID] and [session] at one place
    only, the end of a successful handshake, and both there.  So:
    - when [connect] does not succeed, whatever the failure, both
      fields are as they were; the session was, and stays, older than a
      minute, and any later call dials again;
    - when either field has changed, the handshake succeeded: [session]
      is the instant of its end and [connectionID] the identifier that
      is returned. *)
Theorem connect_failure_keeps_session fuel env g w r g' w' :
  connect fuel env g w = (r, g', w') ->
  (is_Ok r = false ->
     connectionID g' = connectionID g /\ session g' = session g /\
     TimeModel.Minute < time_Since w (session g) /\
     forall fuel2 env2 w2, now w' <= now w2 ->
       exists evs,
         trace (snd (connect fuel2 env2 g' w2)) =
         evs ++ EvDial (url g') timeout (dial env2 (trace w2) (url g'))
             :: trace w2)
  /\ (connectionID g' <> connectionID g \/ session g' <> session g ->
      TimeModel.Minute < time_Since w (session g) /\
      session g' = now w' /\ r = Ok (conn g', connectionID g')).
Proof.
  intros Hc.
  destruct (Z.le_gt_cases (time_Since w (session g)) TimeModel.Minute)
    as [Hage|Hage].
  - rewrite connect_fresh in Hc by exact Hage.
    injection Hc as <- <- <-; split; [discriminate|].
    intros [H|H]; congruence.
  - destruct (connect_stale fuel env g w r g' w' Hage Hc)
      as (evs & Ht & Hnow & _ & _ & _ & _ & Hok & Hfail).
    split.
    + intros Hr; destruct (Hfail Hr) as [Hid Hs].
      repeat split; try assumption.
      intros fuel2 env2 w2 Hlater.
      assert (Hage2 : TimeModel.Minute < time_Since w2 (session g')).
      { rewrite Hs.
        pose proof (time_Since_mono w w2 (session g)); lia. }
      destruct (connect fuel2 env2 g' w2) as [[r2 g2] w3] eqn:Hc2.
      destruct (connect_stale fuel2 env2 g' w2 r2 g2 w3 Hage2 Hc2)
        as (evs2 & Ht2 & _).
      exists evs2; exact Ht2.
    + intros Hchanged.
      destruct (is_Ok r) eqn:Hr.
      * destruct (Hok eq_refl) as (_ & Hs & _ & Hres).
        repeat split; assumption.
      * destruct (Hfail eq_refl) as [Hid Hs].
        destruct Hchanged; congruence.
Qed.

(** A handshake that fails (the tracker is silent), from a struct with
    an old session: the identifier and the instant are kept. *)
Lemma connect_failure_keeps_session_witness :
  connectionID
    (snd (fst (connect 4 silent connected_client
                 (world_at (an_instant + 61 * TimeModel.Second)))))
  = connectionID connected_client /\
  session
    (snd (fst (connect 4 silent connected_client
                 (world_at (an_instant + 61 * TimeModel.Second)))))
  = session connected_client.
Proof.
  destruct (connect_failure_keeps_session 4 silent connected_client
              (world_at (an_instant + 61 * TimeModel.Second))
              (fst (fst (connect 4 silent connected_client
                           (world_at (an_instant + 61 * TimeModel.Second)))))
              (snd (fst (connect 4 silent connected_client
                           (world_at (an_instant + 61 * TimeModel.Second)))))
              (snd (connect 4 silent connected_client
                      (world_at (an_instant + 61 * TimeModel.Second)))))
    as [Hfail _]; [vm_compute; reflexivity|].
  destruct Hfail as (Hid & Hs & _); [vm_compute; reflexivity|].
  split; assumption.
Defined.

(** C10, as the code has it.  For every retry limit set by
    [SetRetryLimit] below the largest [int], zero and the negative ones
    included: when the transport can be dialled, takes every write
    whole and times out on every read, [Scrape] fails with
    [ErrRetryLimit] after exactly [max 1 (n + 1)] writes, each followed
    by its read; that is one attempt at least. *)
Theorem Scrape_attempts_for_any_limit fuel env g infohash w n :
  Int.min_int <= n < Int.max_int ->
  dial_succeeds env -> writes_complete env -> reads_time_out env ->
  (length infohash <= 74)%nat ->
  hexadecimal (Bytes.Join infohash) = true ->
  has_transport (SetRetryLimit g n) w ->
  (Z.to_nat (Z.max 1 (n + 1)) <= fuel)%nat ->
  fst (fst (Scrape fuel env (SetRetryLimit g n) infohash w))
  = Err ErrRetryLimit /\
  count_writes (trace (snd (Scrape fuel env (SetRetryLimit g n) infohash w)))
  = (count_writes (trace w) + Z.to_nat (Z.max 1 (n + 1)))%nat /\
  count_reads (trace (snd (Scrape fuel env (SetRetryLimit g n) infohash w)))
  = (count_reads (trace w) + Z.to_nat (Z.max 1 (n + 1)))%nat /\
  (1 <= Z.to_nat (Z.max 1 (n + 1)))%nat.
Proof.
  intros Hn HD HW HR Hlen Hhex Hconn Hfuel.
  destruct (Decode_spec (Bytes.Join infohash)) as [Hok _].
  destruct (Scrape_timeouts fuel env (SetRetryLimit g n) infohash w HD HW HR
              (proj2 Hn) Hlen (Hok Hhex) Hconn) as (g2 & w2 & Hs & Hcw & Hcr).
  - unfold attempts; cbn [retries SetRetryLimit].
    replace (n - 0 + 1) with (n + 1) by lia; exact Hfuel.
  - rewrite Hs; cbn [fst snd].
    unfold attempts in Hcw, Hcr; cbn [retries SetRetryLimit] in Hcw, Hcr.
    replace (n - 0 + 1) with (n + 1) in Hcw, Hcr by lia.
    repeat split; [exact Hcw|exact Hcr|lia].
Qed.

(** A limit of -5: one write and one read all the same. *)
Lemma Scrape_attempts_for_any_limit_witness :
  fst (fst (Scrape 1 silent (SetRetryLimit fresh_client (-5)) [hash_1]
              (world_at an_instant)))
  = Err ErrRetryLimit /\
  count_writes
    (trace (snd (Scrape 1 silent (SetRetryLimit fresh_client (-5)) [hash_1]
                   (world_at an_instant))))
  = (count_writes (trace (world_at an_instant))
     + Z.to_nat (Z.max 1 (-5 + 1)))%nat /\
  count_reads
    (trace (snd (Scrape 1 silent (SetRetryLimit fresh_client (-5)) [hash_1]
                   (world_at an_instant))))
  = (count_reads (trace (world_at an_instant))
     + Z.to_nat (Z.max 1 (-5 + 1)))%nat /\
  (1 <= Z.to_nat (Z.max 1 (-5 + 1)))%nat.
Proof.
  apply (Scrape_attempts_for_any_limit 1 silent fresh_client [hash_1]
           (world_at an_instant) (-5)).
  - unfold Int.min_int, Int.max_int; lia.
  - exact silent_dial_succeeds.
  - exact silent_writes_complete.
  - exact silent_reads_time_out.
  - vm_compute; lia.
  - vm_compute; reflexivity.
  - intros Hage; vm_compute in Hage; exfalso; apply Hage; reflexivity.
  - vm_compute; lia.
Defined.

(** C10, as the specification has it, fails at the largest [int]: the
    counter of the loop, an [int] itself, is never greater, and against
    a tracker that stays silent [Scrape] does not give up, however many
    attempts it is given. *)
Lemma Scrape_largest_limit_never_gives_up :
  ~ exists fuel,
      fst (fst (Scrape fuel silent (SetRetryLimit fresh_client Int.max_int)
                  [hash_1] (world_at an_instant)))
      = Err ErrRetryLimit.
Proof.
  intros [fuel H].
  unfold Scrape in H; cbn [length Nat.ltb Nat.leb] in H.
  unfold connect in H.
  destruct (Z.gtb_spec
              (time_Since (world_at an_instant)
                 (session (SetRetryLimit fresh_client Int.max_int)))
              TimeModel.Minute) as [_|Hage];
    [|vm_compute in Hage; apply Hage; reflexivity].
  rewrite transactionID_eq, connect_request_ok in H.
  unfold net_DialTimeout in H; cbn [dial silent] in H.
  cbn [retries set_conn SetRetryLimit] in H.
  match type of H with
  | context [exchange fuel silent Int.max_int 7 true ?b ?b 0 ?w0] =>
      pose proof (exchange_never_gives_up silent
                    silent_writes_complete silent_reads_time_out 7 true
                    fuel b b 0 w0) as Hx;
      destruct (exchange fuel silent Int.max_int 7 true b b 0 w0)
        as [[[n buf']|e| |] w1]
  end; cbn [fst] in Hx, H; discriminate.
Qed.

(** * Further properties *)

(** ** The wire format of the requests *)

Lemma copy_at_middle (a b c src : list byte) :
  length src = length b ->
  Bytes.copy_at (a ++ b ++ c) (length a) src = a ++ src ++ c.
Proof.
  intros H; unfold Bytes.copy_at.
  rewrite !length_app.
  replace (length a + (length b + length c) - length a)%nat
    with (length b + length c)%nat by lia.
  rewrite Nat.min_r by lia.
  rewrite firstn_app, Nat.sub_diag, firstn_O, app_nil_r, firstn_all.
  rewrite firstn_all.
  rewrite skipn_app, skipn_all2 by lia. cbn [app].
  replace (length a + length src - length a)%nat with (length b) by lia.
  rewrite skipn_app, skipn_all, Nat.sub_diag, skipn_O; reflexivity.
Qed.

Lemma make_app (n m : nat) :
  Bytes.make (n + m) = Bytes.make n ++ Bytes.make m.
Proof. apply repeat_app. Qed.

(** The buffer of a scrape request before the infohashes are copied:
    the header, then zeros. *)
Lemma scrape_request_header (connectionid tid : Z)
  (infohash : list (list byte)) :
  scrape_request connectionid tid infohash
  = (dst <- Hex.Decode (Bytes.Join infohash) ;;
     Ok (Bytes.copy_at
           (scrape_header connectionid tid
            ++ Bytes.make (length infohash * 20)) 16 dst)).
Proof.
  unfold scrape_request, scrape_header.
  set (M := (length infohash * 20)%nat).
  assert (E1 : BigEndian.PutUint64 (Bytes.make (16 + M)) 0 connectionid
               = Some (BigEndian.encode 8 connectionid
                       ++ Bytes.make 4 ++ Bytes.make 4 ++ Bytes.make M)).
  { unfold BigEndian.PutUint64. rewrite make_length.
    destruct (Nat.leb_spec (0 + 8) (16 + M)); [|lia].
    change (16 + M)%nat with (8 + (4 + (4 + M)))%nat.
    rewrite !make_app.
    apply f_equal.
    apply (copy_at_middle [] (Bytes.make 8)
             (Bytes.make 4 ++ Bytes.make 4 ++ Bytes.make M)
             (BigEndian.encode 8 connectionid)).
    rewrite encode_length, make_length; reflexivity. }
  rewrite E1; cbn [checked bind].
  assert (E2 : BigEndian.PutUint32
                 (BigEndian.encode 8 connectionid
                  ++ Bytes.make 4 ++ Bytes.make 4 ++ Bytes.make M) 8 2
               = Some (BigEndian.encode 8 connectionid
                       ++ BigEndian.encode 4 2
                       ++ Bytes.make 4 ++ Bytes.make M)).
  { unfold BigEndian.PutUint32.
    rewrite !length_app, encode_length, !make_length.
    destruct (Nat.leb_spec (8 + 4) (8 + (4 + (4 + M)))); [|lia].
    rewrite <- (encode_length 8 connectionid) at 2.
    rewrite copy_at_middle;
      [reflexivity|rewrite encode_length, make_length; reflexivity]. }
  rewrite E2; cbn [checked bind].
  assert (E3 : BigEndian.PutUint32
                 (BigEndian.encode 8 connectionid
                  ++ BigEndian.encode 4 2
                  ++ Bytes.make 4 ++ Bytes.make M) 12 tid
               = Some (BigEndian.encode 8 connectionid
                       ++ BigEndian.encode 4 2
                       ++ BigEndian.encode 4 tid ++ Bytes.make M)).
  { unfold BigEndian.PutUint32.
    rewrite !length_app, !encode_length, !make_length.
    destruct (Nat.leb_spec (12 + 4) (8 + (4 + (4 + M)))); [|lia].
    rewrite (app_assoc (BigEndian.encode 8 connectionid)).
    replace 12%nat
      with (length (BigEndian.encode 8 connectionid ++ BigEndian.encode 4 2))
      by (rewrite length_app, !encode_length; reflexivity).
    rewrite copy_at_middle, <- app_assoc;
      [reflexivity|rewrite encode_length, make_length; reflexivity]. }
  rewrite E3; cbn [checked bind].
  rewrite <- !app_assoc; reflexivity.
Qed.

Lemma Uint32_at (a c : list byte) (v : Z) :
  BigEndian.Uint32 (a ++ BigEndian.encode 4 v ++ c) (length a)
  = Some (Int.wrap_u32 v).
Proof.
  unfold BigEndian.Uint32.
  rewrite !length_app, encode_length.
  destruct (Nat.leb_spec (length a + 4) (length a + (4 + length c))); [|lia].
  rewrite skipn_app, skipn_all, Nat.sub_diag, skipn_O; cbn [app].
  rewrite firstn_app, encode_length, Nat.sub_diag, firstn_O, app_nil_r.
  rewrite firstn_all2 by (rewrite encode_length; lia).
  exact (f_equal Some (decode_encode 4 0 v)).
Qed.

Lemma Uint64_at (a c : list byte) (v : Z) :
  BigEndian.Uint64 (a ++ BigEndian.encode 8 v ++ c) (length a)
  = Some (v mod 2 ^ 64).
Proof.
  unfold BigEndian.Uint64.
  rewrite !length_app, encode_length.
  destruct (Nat.leb_spec (length a + 8) (length a + (8 + length c))); [|lia].
  rewrite skipn_app, skipn_all, Nat.sub_diag, skipn_O; cbn [app].
  rewrite firstn_app, encode_length, Nat.sub_diag, firstn_O, app_nil_r.
  rewrite firstn_all2 by (rewrite encode_length; lia).
  exact (f_equal Some (decode_encode 8 0 v)).
Qed.

(** X1.  The connect request is 16 bytes: the protocol identifier
    0x41727101980 as a big-endian 64-bit value, the action 0, and the
    transaction identifier, each read back by the decoder of the
    response side. *)
Theorem connect_request_layout (tid : Z) :
  exists buf,
    connect_request tid = Ok buf /\
    length buf = 16%nat /\
    BigEndian.Uint64 buf 0 = Some pid /\
    BigEndian.Uint32 buf 8 = Some actionConnect /\
    BigEndian.Uint32 buf 12 = Some (Int.wrap_u32 tid).
Proof.
  eexists; split; [apply connect_request_ok|].
  split; [rewrite !length_app, !encode_length; reflexivity|].
  split; [exact (Uint64_at [] _ pid)|].
  split.
  - exact (Uint32_at (BigEndian.encode 8 pid) _ 0).
  - rewrite app_assoc.
    rewrite <- (app_nil_r (BigEndian.encode 4 tid)).
    exact (Uint32_at (BigEndian.encode 8 pid ++ BigEndian.encode 4 0) [] tid).
Qed.

(** ** Hexadecimal strings, two digits at a time *)

Lemma list_pair_ind (A : Type) (P : list A -> Prop) :
  P [] -> (forall x, P [x]) ->
  (forall x y l, P l -> P (x :: y :: l)) ->
  forall l, P l.
Proof.
  intros H0 H1 H2.
  fix IH 1; intros [|x [|y l]]; [exact H0|apply H1|apply H2, IH].
Qed.

Lemma Decode_length (src d : list byte) :
  Hex.Decode src = Ok d -> length src = (2 * length d)%nat.
Proof.
  revert d; induction src as [| x | x y l IH] using list_pair_ind;
    intros d; cbn [Hex.Decode].
  - intros [= <-]; reflexivity.
  - destruct (Hex.fromHexChar x); discriminate.
  - destruct (Hex.fromHexChar x); [|discriminate].
    destruct (Hex.fromHexChar y); [|discriminate].
    destruct (Hex.Decode l) as [d'| | |]; try discriminate.
    intros [= <-]; cbn [length]; rewrite (IH d' eq_refl); lia.
Qed.

Lemma Decode_app (a b : list byte) :
  Nat.even (length a) = true ->
  Hex.Decode (a ++ b)
  = (da <- Hex.Decode a ;; db <- Hex.Decode b ;; Ok (da ++ db)).
Proof.
  induction a as [| x | x y l IH] using list_pair_ind; intros Heven.
  - cbn [app Hex.Decode bind]. destruct (Hex.Decode b); reflexivity.
  - discriminate.
  - cbn [app Hex.Decode].
    destruct (Hex.fromHexChar x); [|reflexivity].
    destruct (Hex.fromHexChar y); [|reflexivity].
    rewrite IH by exact Heven.
    destruct (Hex.Decode l); cbn [bind]; try reflexivity.
    destruct (Hex.Decode b); reflexivity.
Qed.

(** The infohashes of 40 digits decode one by one, 20 bytes each. *)
Lemma Decode_infohashes (infohash : list (list byte)) :
  Forall (fun h => length h = 40%nat) infohash ->
  forall dst,
    Hex.Decode (Bytes.Join infohash) = Ok dst ->
    length dst = (20 * length infohash)%nat /\
    forall i h, nth_error infohash i = Some h ->
      Hex.Decode h = Ok (firstn 20 (skipn (20 * i) dst)).
Proof.
  unfold Bytes.Join.
  induction 1 as [|h0 rest Hh0 Hrest IH]; intros dst; cbn [concat].
  - intros [= <-]; split; [reflexivity|]. intros [|i] h; discriminate.
  - rewrite Decode_app by (rewrite Hh0; reflexivity).
    destruct (Hex.Decode h0) as [d0| | |] eqn:E0; try discriminate.
    cbn [bind].
    destruct (Hex.Decode (concat rest)) as [dr| | |] eqn:Er;
      try discriminate.
    cbn [bind]; intros [= <-].
    destruct (IH dr eq_refl) as [Hlen Hnth].
    assert (L0 : length d0 = 20%nat).
    { apply Decode_length in E0; lia. }
    split; [rewrite length_app; cbn [length]; lia|].
    intros [|i] h; cbn [nth_error].
    + intros [= <-].
      rewrite Nat.mul_0_r, skipn_O, firstn_app, L0, Nat.sub_diag, firstn_O,
        app_nil_r, firstn_all2 by lia.
      exact E0.
    + intros Hi.
      replace (20 * S i)%nat with (length d0 + 20 * i)%nat by lia.
      rewrite skipn_app, skipn_all2 by lia; cbn [app].
      replace (length d0 + 20 * i - length d0)%nat with (20 * i)%nat by lia.
      apply Hnth, Hi.
Qed.

(** X2.  The scrape request for [N] infohashes of 40 hexadecimal digits
    is [16 + 20 * N] bytes: the connection identifier as a big-endian
    64-bit value, the action 2, the transaction identifier, and then
    the infohashes in the order given, infohash [i] decoded to the 20
    bytes at offset [16 + 20 * i]. *)
Theorem scrape_request_layout (connectionid tid : Z)
  (infohash : list (list byte)) (buf : list byte) :
  Forall (fun h => length h = 40%nat) infohash ->
  scrape_request connectionid tid infohash = Ok buf ->
  length buf = (16 + 20 * length infohash)%nat /\
  BigEndian.Uint64 buf 0 = Some (connectionid mod 2 ^ 64) /\
  BigEndian.Uint32 buf 8 = Some actionScrap /\
  BigEndian.Uint32 buf 12 = Some (Int.wrap_u32 tid) /\
  forall i h, nth_error infohash i = Some h ->
    Hex.Decode h = Ok (firstn 20 (skipn (16 + 20 * i) buf)).
Proof.
  intros Hwf. rewrite scrape_request_header.
  destruct (Hex.Decode (Bytes.Join infohash)) as [dst| | |] eqn:Hd;
    try discriminate.
  cbn [bind]; intros Hbuf.
  destruct (Decode_infohashes infohash Hwf dst Hd) as [Hlen Hnth].
  assert (Hh : length (scrape_header connectionid tid) = 16%nat).
  { unfold scrape_header; rewrite !length_app, !encode_length; reflexivity. }
  assert (E : Bytes.copy_at
                (scrape_header connectionid tid
                 ++ Bytes.make (length infohash * 20)) 16 dst
              = scrape_header connectionid tid ++ dst).
  { rewrite <- Hh.
    pose proof (copy_at_middle (scrape_header connectionid tid)
                  (Bytes.make (length infohash * 20)) [] dst) as Hm.
    rewrite !app_nil_r in Hm; apply Hm.
    rewrite make_length; lia. }
  rewrite E in Hbuf; clear E.
  assert (Hb : buf = scrape_header connectionid tid ++ dst) by congruence.
  subst buf; clear Hbuf.
  split; [rewrite length_app; lia|].
  unfold scrape_header.
  split; [rewrite <- !app_assoc; exact (Uint64_at [] _ connectionid)|].
  split.
  { rewrite <- !app_assoc.
    exact (Uint32_at (BigEndian.encode 8 connectionid) _ 2). }
  split.
  { rewrite <- !app_assoc, (app_assoc (BigEndian.encode 8 connectionid)).
    exact (Uint32_at (BigEndian.encode 8 connectionid
                      ++ BigEndian.encode 4 actionScrap) dst tid). }
  intros i h Hi.
  fold (scrape_header connectionid tid).
  replace (16 + 20 * i)%nat
    with (length (scrape_header connectionid tid) + 20 * i)%nat by lia.
  rewrite skipn_app, skipn_all2 by lia; cbn [app].
  replace (length (scrape_header connectionid tid) + 20 * i
           - length (scrape_header connectionid tid))%nat
    with (20 * i)%nat by lia.
  apply Hnth, Hi.
Qed.

Lemma scrape_request_layout_witness :
  length stray_request = (16 + 20 * length [hash_1])%nat /\
  BigEndian.Uint64 stray_request 0 = Some (0x1122334455667788 mod 2 ^ 64) /\
  BigEndian.Uint32 stray_request 8 = Some actionScrap.
Proof.
  destruct (scrape_request_layout 0x1122334455667788
              (fst (transactionID (stray_tracker [(10, 50, 2)])
                      (snd stray_session))) [hash_1] stray_request)
    as (Hl & H0 & H8 & _).
  - repeat constructor.
  - vm_compute; reflexivity.
  - repeat split; assumption.
Defined.

(** ** The loop on any transport *)

(** [connect] once its session is found older than a minute. *)
Lemma connect_stale_eq fuel env g w :
  TimeModel.Minute < time_Since w (session g) ->
  connect fuel env g w =
  match dial env (trace w) (url g) with
  | inr e => (Err (net_Err e), set_conn g None, dialled env g w)
  | inl c =>
      match exchange fuel env (retries g) c true
              (BigEndian.encode 8 pid ++ BigEndian.encode 4 0
               ++ BigEndian.encode 4 (tid_of env w))
              (BigEndian.encode 8 pid ++ BigEndian.encode 4 0
               ++ BigEndian.encode 4 (tid_of env w))
              0 (dialled env g w)
      with
      | (Ok (n, buf), w1) =>
          match connect_response (set_conn g (Some c)) n buf w1 with
          | Ok g2 => (Ok (conn g2, connectionID g2), g2, w1)
          | Err e => (Err e, set_conn g (Some c), w1)
          | Panic => (Panic, set_conn g (Some c), w1)
          | OutOfFuel => (OutOfFuel, set_conn g (Some c), w1)
          end
      | (Err e, w1) => (Err e, set_conn g (Some c), w1)
      | (Panic, w1) => (Panic, set_conn g (Some c), w1)
      | (OutOfFuel, w1) => (OutOfFuel, set_conn g (Some c), w1)
      end
  end.
Proof.
  intros Hage; unfold connect.
  destruct (Z.gtb_spec (time_Since w (session g)) TimeModel.Minute); [|lia].
  rewrite transactionID_eq, connect_request_ok; unfold net_DialTimeout.
  cbn [trace used_rand]; unfold dialled.
  destruct (dial env (trace w) (url g)); reflexivity.
Qed.

(** The loop ends with a read into a buffer of the length it was
    given: the history ends with that read, the count is that of the
    bytes copied, and the error of the read, if any, is none that
    implements [net.Error]. *)
Lemma exchange_Ok_any fuel env limit c reuse :
  forall buf response retries w n resp w',
    exchange fuel env limit c reuse buf response retries w
    = (Ok (n, resp), w') ->
    exists data err h prev,
      trace w' = EvRead c (length response) data err :: h /\
      length prev = length response /\
      n = Z.of_nat (Nat.min (length data) (length response)) /\
      resp = Bytes.copy_at prev 0 data /\
      length resp = length response.
Proof.
  induction fuel as [|fuel IH]; intros buf response retries w n resp w';
    [discriminate|].
  rewrite exchange_cases.
  pose proof (trace_received env c buf response w) as Hr.
  destruct (write_answer env c buf w) as [m [e|]]; [discriminate|].
  destruct (negb (m =? Z.of_nat (length buf))); [discriminate|].
  cbv zeta.
  destruct (read_answer env c buf response w) as [data [e|]];
    cbn [fst snd] in Hr.
  - destruct (implements_net_Error e && Timeout e).
    + destruct (_ >? limit); [discriminate|].
      intros H; apply IH in H.
      destruct H as (data' & err & h & prev & Ht & Hl & Hn & Hresp & Hlr).
      rewrite copy_at_length in Ht, Hl, Hn, Hlr by lia.
      exists data', err, h, prev; repeat split; assumption.
    + destruct (implements_net_Error e); [discriminate|].
      intros [= <- <- <-].
      do 3 eexists; exists response; repeat split;
        [exact Hr|apply copy_at_length; lia].
  - intros [= <- <- <-].
    do 3 eexists; exists response; repeat split;
      [exact Hr|apply copy_at_length; lia].
Qed.

Lemma exchange_no_panic fuel env limit c reuse :
  forall buf response retries w,
    fst (exchange fuel env limit c reuse buf response retries w) <> Panic.
Proof.
  induction fuel as [|fuel IH]; intros buf response retries w;
    [discriminate|].
  rewrite exchange_cases.
  destruct (write_answer env c buf w) as [m [e|]]; [discriminate|].
  destruct (negb (m =? Z.of_nat (length buf))); [discriminate|].
  cbv zeta.
  destruct (read_answer env c buf response w) as [data [e|]];
    [|discriminate].
  destruct (implements_net_Error e && Timeout e).
  - destruct (_ >? limit); [discriminate|apply IH].
  - destruct (implements_net_Error e); discriminate.
Qed.

Lemma exchange_no_dial fuel env limit c reuse :
  forall buf response retries w,
    count_dials
      (trace (snd (exchange fuel env limit c reuse buf response retries w)))
    = count_dials (trace w).
Proof.
  induction fuel as [|fuel IH]; intros buf response retries w;
    [reflexivity|].
  rewrite exchange_cases.
  assert (Hs : count_dials (trace (sent env c buf w))
               = count_dials (trace w))
    by (rewrite trace_sent; reflexivity).
  assert (Hr : count_dials (trace (received env c buf response w))
               = count_dials (trace w))
    by (rewrite trace_received, trace_sent; reflexivity).
  destruct (write_answer env c buf w) as [m [e|]]; [exact Hs|].
  destruct (negb (m =? Z.of_nat (length buf))); [exact Hs|].
  cbv zeta.
  destruct (read_answer env c buf response w) as [data [e|]];
    [|exact Hr].
  destruct (implements_net_Error e && Timeout e).
  - destruct (_ >? limit); [exact Hr|]. rewrite IH; exact Hr.
  - destruct (implements_net_Error e); exact Hr.
Qed.

(** With a limit below the largest [int] the loop ends within
    [attempts] turns, whatever the transport does, and writes no more
    datagrams than that. *)
Lemma exchange_terminates env limit c reuse :
  limit < Int.max_int ->
  forall fuel buf response retries w,
    Int.min_int <= retries + 1 -> retries <= Z.max 0 limit ->
    (attempts limit retries <= fuel)%nat ->
    fst (exchange fuel env limit c reuse buf response retries w)
    <> OutOfFuel /\
    (count_writes
       (trace (snd (exchange fuel env limit c reuse buf response retries w)))
     <= count_writes (trace w) + attempts limit retries)%nat.
Proof.
  intros HL.
  induction fuel as [|fuel IH]; intros buf response retries w Hlo Hhi Hfuel.
  - unfold attempts in Hfuel; lia.
  - rewrite exchange_cases.
    assert (Hs : count_writes (trace (sent env c buf w))
                 = S (count_writes (trace w)))
      by (rewrite trace_sent; reflexivity).
    assert (Hr : count_writes (trace (received env c buf response w))
                 = S (count_writes (trace w)))
      by (rewrite trace_received, trace_sent; reflexivity).
    assert (Hone : (1 <= attempts limit retries)%nat)
      by (unfold attempts; lia).
    destruct (write_answer env c buf w) as [m [e|]];
      [split; [discriminate|cbn [snd]; lia]|].
    destruct (negb (m =? Z.of_nat (length buf)));
      [split; [discriminate|cbn [snd]; lia]|].
    cbv zeta.
    destruct (read_answer env c buf response w) as [data [e|]];
      [|split; [discriminate|cbn [snd]; lia]].
    destruct (implements_net_Error e && Timeout e).
    + assert (Hwrap : Int.wrap_int (retries + 1) = retries + 1).
      { apply wrap_int_small; unfold Int.in_int, Int.max_int in *; lia. }
      rewrite Hwrap.
      destruct (Z.gtb_spec (retries + 1) limit) as [Hgt|Hle];
        [split; [discriminate|cbn [snd]; lia]|].
      destruct (IH (if reuse then Bytes.copy_at response 0 data else buf)
                  (Bytes.copy_at response 0 data) (retries + 1)
                  (received env c buf response w)) as [Hno Hcw].
      * lia.
      * lia.
      * unfold attempts in *; lia.
      * split; [exact Hno|].
        rewrite Hr in Hcw; unfold attempts in *; lia.
    + destruct (implements_net_Error e);
        split; try discriminate; cbn [snd]; lia.
Qed.

(** More fuel does not change a loop that has ended. *)
Lemma exchange_fuel env limit c reuse :
  forall fuel buf response retries w,
    fst (exchange fuel env limit c reuse buf response retries w)
    <> OutOfFuel ->
    forall k,
      exchange (fuel + k) env limit c reuse buf response retries w
      = exchange fuel env limit c reuse buf response retries w.
Proof.
  induction fuel as [|fuel IH]; intros buf response retries w Hend k;
    [exfalso; apply Hend; reflexivity|].
  change (S fuel + k)%nat with (S (fuel + k)).
  rewrite !exchange_cases in *.
  destruct (write_answer env c buf w) as [m [e|]]; [reflexivity|].
  destruct (negb (m =? Z.of_nat (length buf))); [reflexivity|].
  cbv zeta in *.
  destruct (read_answer env c buf response w) as [data [e|]];
    [|reflexivity].
  destruct (implements_net_Error e && Timeout e); [|reflexivity].
  destruct (_ >? limit); [reflexivity|].
  apply IH, Hend.
Qed.

(** ** The response to the connect request *)

Lemma Uint64_firstn (b : list byte) (m off : nat) :
  (off + 8 <= m)%nat -> (m <= length b)%nat ->
  BigEndian.Uint64 (firstn m b) off = BigEndian.Uint64 b off.
Proof.
  intros H1 H2; unfold BigEndian.Uint64.
  rewrite length_firstn, Nat.min_l by lia.
  destruct (Nat.leb_spec (off + 8) m); [|lia].
  destruct (Nat.leb_spec (off + 8) (length b)); [|lia].
  rewrite skipn_firstn_comm, firstn_firstn, Nat.min_l by lia; reflexivity.
Qed.

(** X3.  When the loop of [connect] ends with a read, the datagram
    decides: fewer than 16 bytes give [ErrResponse]; otherwise an
    action other than 0 gives [ErrInvalidAction]; otherwise [connect]
    succeeds, returns the transport just dialled with the identifier at
    bytes 8 to 15 of the datagram, and installs that identifier with
    the instant of the read as session.  Bytes beyond the 16th are
    ignored. *)
Theorem connect_checks_response fuel env g w c req n buf w1 :
  TimeModel.Minute < time_Since w (session g) ->
  dial env (trace w) (url g) = inl c ->
  connect_request (fst (transactionID env w)) = Ok req ->
  exchange fuel env (retries g) c true req req 0 (dialled env g w)
  = (Ok (n, buf), w1) ->
  exists data err h,
    trace w1 = EvRead c 16 data err :: h /\
    ((length data < 16)%nat ->
     connect fuel env g w = (Err ErrResponse, set_conn g (Some c), w1)) /\
    ((16 <= length data)%nat ->
     exists action id,
       BigEndian.Uint32 data 0 = Some action /\
       BigEndian.Uint64 data 8 = Some id /\
       connect fuel env g w =
       if action =? actionConnect
       then (Ok (Some c, id),
             set_session (set_conn g (Some c)) id (now w1), w1)
       else (Err ErrInvalidAction, set_conn g (Some c), w1)).
Proof.
  rewrite transactionID_eq, connect_request_ok; cbn [fst].
  intros Hage Hd Hreq Hx.
  assert (Hq : req = BigEndian.encode 8 pid ++ BigEndian.encode 4 0
                     ++ BigEndian.encode 4 (tid_of env w)) by congruence.
  subst req; clear Hreq.
  rewrite (connect_stale_eq fuel env g w Hage), Hd, Hx.
  destruct (exchange_Ok_any fuel env (retries g) c true _ _ 0 _ n buf w1 Hx)
    as (data & err & h & prev & Ht & Hl & Hn & Hresp & Hlr).
  assert (H16 : length (BigEndian.encode 8 pid ++ BigEndian.encode 4 0
                        ++ BigEndian.encode 4 (tid_of env w)) = 16%nat)
    by (rewrite !length_app, !encode_length; reflexivity).
  rewrite H16 in Ht, Hl, Hn, Hlr.
  exists data, err, h; split; [exact Ht|]; split.
  - intros Hshort; unfold connect_response.
    rewrite Hlr.
    destruct (Z.eqb_spec n (Z.of_nat 16)); [lia|reflexivity].
  - intros Hfull.
    destruct (full_response 16 prev data n Hl Hn) as [_ Hfront]; [lia|].
    rewrite Hfront in Hresp; subst buf.
    assert (E0 : exists a, BigEndian.Uint32 data 0 = Some a).
    { unfold BigEndian.Uint32.
      destruct (Nat.leb_spec (0 + 4) (length data));
        [eexists; reflexivity|lia]. }
    assert (E8 : exists a, BigEndian.Uint64 data 8 = Some a).
    { unfold BigEndian.Uint64.
      destruct (Nat.leb_spec (8 + 8) (length data));
        [eexists; reflexivity|lia]. }
    assert (E4 : exists a, BigEndian.Uint32 data 4 = Some a).
    { unfold BigEndian.Uint32.
      destruct (Nat.leb_spec (4 + 4) (length data));
        [eexists; reflexivity|lia]. }
    destruct E0 as (action & E0), E8 as (id & E8), E4 as (t & E4).
    exists action, id; split; [exact E0|]; split; [exact E8|].
    unfold connect_response.
    rewrite Hlr.
    destruct (Z.eqb_spec n (Z.of_nat 16)); [|lia]; cbn [negb].
    rewrite (Uint32_firstn data 16 0), (Uint32_firstn data 16 4),
      (Uint64_firstn data 16 8), E0, E4, E8 by lia.
    cbn [checked bind]; rewrite Z.eqb_refl; cbn [negb].
    destruct (action =? actionConnect); reflexivity.
Qed.

(** The well-behaved tracker: the handshake installs its identifier. *)
Lemma connect_checks_response_witness :
  exists data err h,
    trace (snd stray_session) = EvRead 7 16 data err :: h /\
    ((16 <= length data)%nat ->
     exists action id,
       BigEndian.Uint32 data 0 = Some action /\
       BigEndian.Uint64 data 8 = Some id /\
       stray_session =
       if action =? actionConnect
       then (Ok (Some 7, id),
             set_session (set_conn fresh_client (Some 7)) id
               (now (snd stray_session)), snd stray_session)
       else (Err ErrInvalidAction, set_conn fresh_client (Some 7),
             snd stray_session)).
Proof.
  destruct (connect_checks_response 4 (stray_tracker [(10, 50, 2)])
              fresh_client (world_at an_instant) 7
              (BigEndian.encode 8 pid ++ BigEndian.encode 4 0
               ++ BigEndian.encode 4 0x12345678)
              16 (BigEndian.encode 4 0 ++ BigEndian.encode 4 0xffffffff
                  ++ BigEndian.encode 8 0x1122334455667788)
              (snd stray_session))
    as (data & err & h & Ht & _ & Hfull).
  - vm_compute; reflexivity.
  - reflexivity.
  - vm_compute; reflexivity.
  - vm_compute; reflexivity.
  - exists data, err, h; split; [exact Ht|exact Hfull].
Defined.

(** ** A scrape response that is too short *)

(** X4.  When the loop of [Scrape] ends with a read of fewer than
    [8 + 12 * N] bytes, [Scrape] fails with [ErrResponse], whatever the
    datagram holds; nothing more is done. *)
Theorem Scrape_short_response fuel env g infohash w c cid g1 w1 buf n
  resp w3 :
  (length infohash <= 74)%nat ->
  connect fuel env g w = (Ok (Some c, cid), g1, w1) ->
  scrape_request cid (fst (transactionID env w1)) infohash = Ok buf ->
  exchange fuel env (retries g1) c false buf
    (Bytes.make (8 + 12 * length infohash)) 0 (snd (transactionID env w1))
  = (Ok (n, resp), w3) ->
  n < 8 + 12 * Z.of_nat (length infohash) ->
  Scrape fuel env g infohash w = (Err ErrResponse, g1, w3) /\
  exists data err h,
    trace w3 = EvRead c (8 + 12 * length infohash) data err :: h /\
    (length data < 8 + 12 * length infohash)%nat.
Proof.
  rewrite transactionID_eq; cbn [fst snd].
  intros Hlen Hc Hreq Hx Hn.
  rewrite (Scrape_after_connect fuel env g infohash w (Some c) cid g1 w1
             Hlen Hc), Hreq, Hx.
  split.
  - unfold scrape_response.
    destruct (Z.ltb_spec n (8 + 12 * Z.of_nat (length infohash)));
      [reflexivity|lia].
  - destruct (exchange_Ok_any fuel env (retries g1) c false buf _ 0 _ n resp
                w3 Hx) as (data & err & h & prev & Ht & _ & Hnn & _).
    rewrite make_length in Ht, Hnn.
    exists data, err, h; split; [exact Ht|lia].
Qed.

(** ** A dial that fails *)

(** X5.  When the session is older than a minute and the dial fails,
    [connect] returns the error of the dial and has written nothing;
    the transport of the struct is nil from then on, whatever it was,
    and [Scrape] returns the same error. *)
Theorem connect_dial_failure fuel env g w e :
  TimeModel.Minute < time_Since w (session g) ->
  dial env (trace w) (url g) = inr e ->
  connect fuel env g w = (Err (net_Err e), set_conn g None, dialled env g w)
  /\ trace (dialled env g w)
     = EvDial (url g) timeout (inr e) :: trace w
  /\ conn (snd (fst (connect fuel env g w))) = None
  /\ forall infohash, (length infohash <= 74)%nat ->
       Scrape fuel env g infohash w
       = (Err (net_Err e), set_conn g None, dialled env g w).
Proof.
  intros Hage Hd.
  assert (Hc : connect fuel env g w
               = (Err (net_Err e), set_conn g None, dialled env g w))
    by (rewrite (connect_stale_eq fuel env g w Hage), Hd; reflexivity).
  repeat split.
  - exact Hc.
  - unfold dialled; cbn [trace record used_rand]; rewrite Hd; reflexivity.
  - rewrite Hc; reflexivity.
  - intros infohash Hlen; unfold Scrape.
    destruct (Nat.ltb_spec 74 (length infohash)); [lia|].
    rewrite Hc; reflexivity.
Qed.

(** ** The session, once installed *)

(** X6.  After a renewal that succeeded, [connect] returns the same
    transport and identifier, and touches neither the struct nor the
    network, at every instant up to and including one minute after the
    end of the handshake. *)
Theorem connect_reuses_session fuel env g w oc id g' w' :
  TimeModel.Minute < time_Since w (session g) ->
  connect fuel env g w = (Ok (oc, id), g', w') ->
  forall fuel2 env2 w2,
    now w2 - now w' <= TimeModel.Minute ->
    connect fuel2 env2 g' w2 = (Ok (oc, id), g', w2).
Proof.
  intros Hage Hc fuel2 env2 w2 Hsoon.
  destruct (connect_stale fuel env g w _ g' w' Hage Hc)
    as (evs & _ & _ & _ & _ & _ & _ & Hok & _).
  destruct (Hok eq_refl) as (_ & Hs & _ & Hres).
  injection Hres as -> ->.
  apply connect_fresh.
  rewrite Hs; unfold time_Since, TimeModel.Sub, time_Now, Int.saturate.
  unfold TimeModel.Minute, TimeModel.Second, Int.min_int, Int.max_int in *.
  by_comparisons; lia.
Qed.

(** ** What [Scrape] does around [connect] *)

Lemma has_transport_later g w w2 :
  has_transport g w -> now w <= now w2 -> has_transport g w2.
Proof.
  intros H Hlater Hfresh; apply H.
  pose proof (time_Since_mono w w2 (session g)); lia.
Qed.

(** [Scrape] leaves the struct as [connect] left it, dials no more than
    [connect] did and draws one transaction identifier more. *)
Lemma Scrape_around_connect fuel env g infohash w r g' w' :
  Scrape fuel env g infohash w = (r, g', w') ->
  ((74 < length infohash)%nat /\ g' = g /\ w' = w) \/
  ((length infohash <= 74)%nat /\
   exists rc w1,
     connect fuel env g w = (rc, g', w1) /\
     now w1 <= now w' /\
     count_dials (trace w') = count_dials (trace w1) /\
     (rand_calls w' <= S (rand_calls w1))%nat /\
     (is_Ok rc = false -> w' = w1)).
Proof.
  unfold Scrape.
  destruct (Nat.ltb_spec 74 (length infohash)) as [Hlen|Hlen].
  { intros [= <- <- <-]; left; repeat split; exact Hlen. }
  intros H; right; split; [exact Hlen|].
  destruct (connect fuel env g w) as [[rc g1] w1].
  destruct rc as [[oc cid]|e| |].
  2,3,4: injection H as <- <- <-; do 2 eexists;
    repeat split; try reflexivity; lia.
  rewrite transactionID_eq in H.
  destruct (scrape_request cid (tid_of env w1) infohash) as [buf|e| |].
  2,3,4: injection H as <- <- <-; do 2 eexists;
    repeat split; try reflexivity; try discriminate; cbn; lia.
  destruct oc as [c|].
  2: injection H as <- <- <-; do 2 eexists;
    repeat split; try reflexivity; try discriminate; cbn; lia.
  pose proof (exchange_extends fuel env (retries g1) c false buf
                (Bytes.make (8 + 12 * length infohash)) 0 (used_rand w1))
    as (_ & Hn & Hr).
  pose proof (exchange_no_dial fuel env (retries g1) c false buf
                (Bytes.make (8 + 12 * length infohash)) 0 (used_rand w1))
    as Hd.
  cbn [now rand_calls trace used_rand] in Hn, Hr, Hd.
  destruct (exchange fuel env (retries g1) c false buf _ 0 (used_rand w1))
    as [[[n resp]|e| |] w3]; cbn [snd] in *;
    injection H as <- <- <-; do 2 eexists;
    repeat split; try reflexivity; try discriminate; try assumption; lia.
Qed.

(** ** The transport is there when it is used *)

Lemma connect_no_panic fuel env g w :
  fst (fst (connect fuel env g w)) <> Panic.
Proof.
  destruct (Z.le_gt_cases (time_Since w (session g)) TimeModel.Minute)
    as [Hage|Hage].
  - rewrite connect_fresh by exact Hage; discriminate.
  - rewrite (connect_stale_eq fuel env g w Hage).
    destruct (dial env (trace w) (url g)) as [c|e]; [|discriminate].
    set (req := BigEndian.encode 8 pid ++ _).
    pose proof (exchange_no_panic fuel env (retries g) c true req req 0
                  (dialled env g w)) as Hp.
    destruct (exchange fuel env (retries g) c true req req 0
                (dialled env g w)) as [[[n buf]|e| |] w1] eqn:Hx;
      cbn [fst] in *; try discriminate; [|congruence].
    destruct (exchange_Ok_any fuel env (retries g) c true req req 0 _ n buf
                w1 Hx) as (_ & _ & _ & _ & _ & _ & _ & _ & Hl).
    assert (H16 : length req = 16%nat)
      by (unfold req; rewrite !length_app, !encode_length; reflexivity).
    rewrite H16 in Hl.
    unfold connect_response, BigEndian.Uint32, BigEndian.Uint64.
    rewrite Hl; cbn [Nat.leb Nat.add checked bind].
    destruct (negb (n =? Z.of_nat 16)); [discriminate|].
    destruct (negb (_ =? actionConnect)); [discriminate|].
    rewrite Z.eqb_refl; discriminate.
Qed.

(** X7.  A struct made by [New] holds [has_transport] at every instant
    past the first minute of the calendar, and [Scrape] keeps it for
    every later instant, whatever its outcome: the transport is never
    nil while the session counts as fresh. *)
Theorem Scrape_keeps_transport fuel env g infohash w r g' w' :
  has_transport g w ->
  Scrape fuel env g infohash w = (r, g', w') ->
  (forall w2, now w' <= now w2 -> has_transport g' w2) /\
  (forall parse rawurl g0 w0,
     New parse rawurl = Ok g0 -> TimeModel.Minute < now w0 ->
     has_transport g0 w0).
Proof.
  intros Hinv HS; split.
  - intros w2 Hlater.
    destruct (Scrape_around_connect fuel env g infohash w r g' w' HS)
      as [(_ & -> & ->)|(_ & rc & w1 & Hc & Hn & _)].
    + exact (has_transport_later g w w2 Hinv Hlater).
    + apply (connect_keeps_transport fuel env g w rc g' w1 Hinv Hc); lia.
  - intros parse rawurl g0 w0; unfold New.
    destruct (parse rawurl) as [u|e| |]; try discriminate.
    destruct (String.eqb (Scheme u) "udp"); [|discriminate].
    intros [= <-] Hnow Hfresh; exfalso.
    unfold time_Since, TimeModel.Sub, time_Now, Int.saturate in Hfresh.
    cbn [session] in Hfresh.
    unfold TimeModel.Minute, TimeModel.Second, Int.min_int, Int.max_int in *.
    revert Hfresh; by_comparisons; lia.
Qed.

Lemma results_no_fuel (infohash : list (list byte)) (response : list byte) :
  forall offset, results infohash response offset <> OutOfFuel.
Proof.
  induction infohash as [|h rest IH]; intros offset; cbn [results];
    [discriminate|].
  destruct (BigEndian.Uint32 response offset); [|discriminate].
  destruct (BigEndian.Uint32 response (offset + 4)); [|discriminate].
  destruct (BigEndian.Uint32 response (offset + 8)); [|discriminate].
  cbn [checked bind].
  specialize (IH (offset + 12)%nat).
  destruct (results rest response (offset + 12)); cbn [bind];
    congruence.
Qed.

(** X8.  [Scrape] on a struct that holds [has_transport] never panics:
    no nil transport is used and no buffer is read or written out of
    its bounds, whatever the transport answers and whatever the
    infohashes are. *)
Theorem Scrape_never_panics fuel env g infohash w :
  has_transport g w ->
  fst (fst (Scrape fuel env g infohash w)) <> Panic.
Proof.
  intros Hinv; unfold Scrape.
  destruct (Nat.ltb_spec 74 (length infohash)) as [Hlen|Hlen];
    [discriminate|].
  pose proof (connect_no_panic fuel env g w) as Hcp.
  destruct (connect fuel env g w) as [[rc g1] w1] eqn:Hc.
  destruct rc as [[oc cid]|e| |]; cbn [fst] in *; try discriminate;
    [|congruence].
  assert (Hoc : oc <> None).
  { destruct (Z.le_gt_cases (time_Since w (session g)) TimeModel.Minute)
      as [Hage|Hage].
    - rewrite connect_fresh in Hc by exact Hage.
      injection Hc as <- _ _ _; exact (Hinv Hage).
    - destruct (connect_stale fuel env g w _ g1 w1 Hage Hc)
        as (evs & _ & _ & _ & _ & _ & _ & Hok & _).
      destruct (Hok eq_refl) as (_ & _ & Hconn & Hres).
      congruence. }
  rewrite transactionID_eq.
  destruct (scrape_request_decode cid (tid_of env w1) infohash)
    as (b & _ & ->).
  destruct (Decode_spec (Bytes.Join infohash)) as [Hok Herr].
  destruct (hexadecimal (Bytes.Join infohash)).
  2:{ destruct (Herr eq_refl) as (e & -> & _); discriminate. }
  specialize (Hok eq_refl).
  destruct (Hex.Decode (Bytes.Join infohash)) as [dst| | |];
    try discriminate; cbn [bind].
  destruct oc as [c|]; [|congruence].
  set (req := Bytes.copy_at b 16 dst).
  pose proof (exchange_no_panic fuel env (retries g1) c false req
                (Bytes.make (8 + 12 * length infohash)) 0 (used_rand w1))
    as Hp.
  destruct (exchange fuel env (retries g1) c false req _ 0 (used_rand w1))
    as [[[n resp]|e| |] w3] eqn:Hx; cbn [fst] in *; try discriminate;
    [|congruence].
  destruct (exchange_Ok_any fuel env (retries g1) c false req _ 0 _ n resp
              w3 Hx) as (_ & _ & _ & _ & _ & _ & _ & _ & Hl).
  rewrite make_length in Hl.
  unfold scrape_response.
  destruct (n <? 8 + 12 * Z.of_nat (length infohash)); [discriminate|].
  unfold BigEndian.Uint32 at 1 2.
  destruct (Nat.leb_spec (0 + 4) (length resp)); [|lia].
  destruct (Nat.leb_spec (4 + 4) (length resp)); [|lia].
  cbn [checked bind].
  destruct (negb (_ =? tid_of env w1)); [discriminate|].
  destruct (_ =? actionError); [discriminate|].
  destruct (negb (_ =? actionScrap)); [discriminate|].
  pose proof (results_ok infohash resp 8) as Hres.
  destruct (results infohash resp 8); try discriminate.
  discriminate Hres; lia.
Qed.

(** ** [Scrape] returns *)

Lemma connect_keeps_limit fuel env g w r g' w' :
  connect fuel env g w = (r, g', w') -> retries g' = retries g.
Proof.
  intros Hc.
  destruct (Z.le_gt_cases (time_Since w (session g)) TimeModel.Minute)
    as [Hage|Hage].
  - rewrite connect_fresh in Hc by exact Hage.
    injection Hc as _ <- _; reflexivity.
  - destruct (connect_stale fuel env g w r g' w' Hage Hc)
      as (evs & _ & _ & _ & _ & Hr & _); exact Hr.
Qed.

Lemma connect_response_no_fuel g n buf w :
  connect_response g n buf w <> OutOfFuel.
Proof.
  unfold connect_response.
  destruct (negb (n =? Z.of_nat (length buf))); [discriminate|].
  destruct (BigEndian.Uint32 buf 0) as [a|]; [|discriminate].
  cbn [checked bind].
  destruct (negb (a =? actionConnect)); [discriminate|].
  destruct (BigEndian.Uint32 buf 4) as [t|]; [|discriminate].
  cbn [checked bind].
  destruct (negb (t =? t)); [discriminate|].
  destruct (BigEndian.Uint64 buf 8); discriminate.
Qed.

Lemma connect_terminates fuel env g w :
  retries g < Int.max_int ->
  (attempts (retries g) 0 <= fuel)%nat ->
  fst (fst (connect fuel env g w)) <> OutOfFuel /\
  (count_writes (trace (snd (connect fuel env g w)))
   <= count_writes (trace w) + attempts (retries g) 0)%nat /\
  forall k, connect (fuel + k) env g w = connect fuel env g w.
Proof.
  intros HL Hfuel.
  destruct (Z.le_gt_cases (time_Since w (session g)) TimeModel.Minute)
    as [Hage|Hage].
  - repeat split.
    + rewrite connect_fresh by exact Hage; discriminate.
    + rewrite connect_fresh by exact Hage; cbn [snd]; lia.
    + intros k; rewrite !connect_fresh by exact Hage; reflexivity.
  - assert (Hk : forall k, connect (fuel + k) env g w = connect fuel env g w).
    { intros k. rewrite !(connect_stale_eq _ env g w Hage).
      destruct (dial env (trace w) (url g)) as [c|e]; [|reflexivity].
      set (req := BigEndian.encode 8 pid ++ _).
      destruct (exchange_terminates env (retries g) c true HL fuel req req 0
                  (dialled env g w)) as [Hno _];
        [unfold Int.min_int; lia|lia|exact Hfuel|].
      rewrite (exchange_fuel env (retries g) c true fuel req req 0
                 (dialled env g w) Hno k); reflexivity. }
    split; [|split; [|exact Hk]].
    + rewrite (connect_stale_eq fuel env g w Hage).
      destruct (dial env (trace w) (url g)) as [c|e]; [|discriminate].
      set (req := BigEndian.encode 8 pid ++ _).
      destruct (exchange_terminates env (retries g) c true HL fuel req req 0
                  (dialled env g w)) as [Hno _];
        [unfold Int.min_int; lia|lia|exact Hfuel|].
      destruct (exchange fuel env (retries g) c true req req 0
                  (dialled env g w)) as [[[n buf]|e| |] w1];
        cbn [fst] in *; try discriminate; [|congruence].
      pose proof (connect_response_no_fuel (set_conn g (Some c)) n buf w1).
      destruct (connect_response (set_conn g (Some c)) n buf w1);
        cbn [fst]; congruence.
    + rewrite (connect_stale_eq fuel env g w Hage).
      assert (Hdw : count_writes (trace (dialled env g w))
                    = count_writes (trace w)) by reflexivity.
      destruct (dial env (trace w) (url g)) as [c|e];
        [|cbn [snd]; lia].
      set (req := BigEndian.encode 8 pid ++ _).
      destruct (exchange_terminates env (retries g) c true HL fuel req req 0
                  (dialled env g w)) as [_ Hcw];
        [unfold Int.min_int; lia|lia|exact Hfuel|].
      rewrite Hdw in Hcw.
      destruct (exchange fuel env (retries g) c true req req 0
                  (dialled env g w)) as [[[n buf]|e| |] w1];
        cbn [snd] in *;
        try destruct (connect_response (set_conn g (Some c)) n buf w1);
        exact Hcw.
Qed.

Lemma Scrape_eq fuel env g infohash w :
  (length infohash <= 74)%nat ->
  Scrape fuel env g infohash w
  = Scrape_rest fuel env infohash (connect fuel env g w).
Proof.
  intros Hlen; unfold Scrape, Scrape_rest.
  destruct (Nat.ltb_spec 74 (length infohash)); [lia|reflexivity].
Qed.

(** What follows [connect] ends as well, and is the same with more
    fuel. *)
Lemma Scrape_rest_terminates fuel env infohash rc g1 w1 :
  retries g1 < Int.max_int ->
  (attempts (retries g1) 0 <= fuel)%nat ->
  rc <> OutOfFuel ->
  fst (fst (Scrape_rest fuel env infohash (rc, g1, w1))) <> OutOfFuel /\
  (count_writes (trace (snd (Scrape_rest fuel env infohash (rc, g1, w1))))
   <= count_writes (trace w1) + attempts (retries g1) 0)%nat /\
  forall k,
    Scrape_rest (fuel + k) env infohash (rc, g1, w1)
    = Scrape_rest fuel env infohash (rc, g1, w1).
Proof.
  intros HL Hfuel Hrc; unfold Scrape_rest.
  destruct rc as [[oc cid]|e| |];
    try (repeat split; [discriminate|cbn [snd]; lia]); [|congruence].
  rewrite transactionID_eq.
  pose proof (scrape_request_decode cid (tid_of env w1) infohash)
    as (b & _ & Hreq).
  destruct (Decode_spec (Bytes.Join infohash)) as [Hok Herr].
  rewrite Hreq.
  destruct (hexadecimal (Bytes.Join infohash)).
  2:{ destruct (Herr eq_refl) as (e & -> & _); cbn [bind].
      repeat split; [discriminate|cbn [snd trace used_rand]; lia]. }
  specialize (Hok eq_refl).
  destruct (Hex.Decode (Bytes.Join infohash)) as [dst| | |];
    try discriminate; cbn [bind].
  destruct oc as [c|];
    [|repeat split; [discriminate|cbn [snd trace used_rand]; lia]].
  destruct (exchange_terminates env (retries g1) c false HL fuel
              (Bytes.copy_at b 16 dst)
              (Bytes.make (8 + 12 * length infohash)) 0 (used_rand w1))
    as [Hno Hcw]; [unfold Int.min_int; lia|lia|exact Hfuel|].
  split; [|split].
  - destruct (exchange fuel env (retries g1) c false _ _ 0 (used_rand w1))
      as [[[n resp]|e| |] w3]; cbn [fst] in *; try discriminate;
      [|congruence].
    unfold scrape_response.
    destruct (n <? 8 + 12 * Z.of_nat (length infohash)); [discriminate|].
    destruct (BigEndian.Uint32 resp 0); [|discriminate].
    destruct (BigEndian.Uint32 resp 4); [|discriminate].
    cbn [checked bind].
    destruct (negb (_ =? tid_of env w1)); [discriminate|].
    destruct (_ =? actionError); [discriminate|].
    destruct (negb (_ =? actionScrap)); [discriminate|].
    apply results_no_fuel.
  - cbn [trace used_rand] in Hcw.
    destruct (exchange fuel env (retries g1) c false _ _ 0 (used_rand w1))
      as [[[n resp]|e| |] w3]; cbn [snd] in *; exact Hcw.
  - intros k.
    rewrite (exchange_fuel env (retries g1) c false fuel _ _ 0 _ Hno k).
    reflexivity.
Qed.

(** X9.  With a retry limit below the largest [int], [Scrape] returns
    whatever the transport does: it needs no more than
    [max 1 (retries + 1)] turns of either loop, more turns allowed
    change nothing, and it writes at most twice that many datagrams. *)
Theorem Scrape_terminates fuel env g infohash w :
  retries g < Int.max_int ->
  (attempts (retries g) 0 <= fuel)%nat ->
  fst (fst (Scrape fuel env g infohash w)) <> OutOfFuel /\
  (count_writes (trace (snd (Scrape fuel env g infohash w)))
   <= count_writes (trace w) + 2 * attempts (retries g) 0)%nat /\
  forall k,
    Scrape (fuel + k) env g infohash w = Scrape fuel env g infohash w.
Proof.
  intros HL Hfuel.
  destruct (Nat.le_gt_cases (length infohash) 74) as [Hlen|Hlen].
  2:{ unfold Scrape.
      destruct (Nat.ltb_spec 74 (length infohash)); [|lia].
      repeat split; [discriminate|cbn [snd]; lia]. }
  destruct (connect_terminates fuel env g w HL Hfuel) as (Hcno & Hccw & Hck).
  assert (Hk : forall k, Scrape (fuel + k) env g infohash w
                         = Scrape_rest (fuel + k) env infohash
                             (connect fuel env g w))
    by (intros k; rewrite (Scrape_eq (fuel + k) env g infohash w Hlen), Hck;
        reflexivity).
  rewrite (Scrape_eq fuel env g infohash w Hlen).
  destruct (connect fuel env g w) as [[rc g1] w1] eqn:Hc.
  pose proof (connect_keeps_limit fuel env g w rc g1 w1 Hc) as Hret.
  cbn [fst snd] in Hcno, Hccw.
  destruct (Scrape_rest_terminates fuel env infohash rc g1 w1)
    as (H1 & H2 & H3); [lia|rewrite Hret; exact Hfuel|exact Hcno|].
  rewrite Hret in H2.
  split; [exact H1|]; split; [lia|].
  intros k; rewrite Hk; apply H3.
Qed.

(** ** What is written again on a retry *)

Lemma copy_at_nil (b : list byte) : Bytes.copy_at b 0 [] = b.
Proof.
  unfold Bytes.copy_at; cbn [length firstn app].
  rewrite Nat.min_0_r; reflexivity.
Qed.

(** The loop of [Scrape] talks to one connection only and writes the
    same datagram at every attempt. *)
Lemma exchange_talks_to fuel env limit c buf :
  forall response retries w,
  exists evs,
    trace (snd (exchange fuel env limit c false buf response retries w))
    = evs ++ trace w /\
    Forall (talks_to c buf (length response)) evs.
Proof.
  induction fuel as [|fuel IH]; intros response retries w.
  - exists []; split; [reflexivity|constructor].
  - rewrite exchange_cases.
    pose proof (trace_sent env c buf w) as Hs.
    pose proof (trace_received env c buf response w) as Hr.
    rewrite Hs in Hr.
    assert (T2 : Forall (talks_to c buf (length response))
                   [EvWrite c buf (fst (write_answer env c buf w))
                      (snd (write_answer env c buf w));
                    EvSetWriteDeadline c
                      (TimeModel.Add (time_Now w) timeout)])
      by (repeat constructor).
    assert (T4 : Forall (talks_to c buf (length response))
                   [EvRead c (length response)
                      (fst (read_answer env c buf response w))
                      (snd (read_answer env c buf response w));
                    EvSetReadDeadline c
                      (TimeModel.Add (time_Now (sent env c buf w)) timeout);
                    EvWrite c buf (fst (write_answer env c buf w))
                      (snd (write_answer env c buf w));
                    EvSetWriteDeadline c
                      (TimeModel.Add (time_Now w) timeout)])
      by (repeat constructor).
    assert (R2 : exists evs,
               trace (sent env c buf w) = evs ++ trace w /\
               Forall (talks_to c buf (length response)) evs)
      by (eexists [_; _]; split; [exact Hs|exact T2]).
    assert (R4 : exists evs,
               trace (received env c buf response w) = evs ++ trace w /\
               Forall (talks_to c buf (length response)) evs)
      by (eexists [_; _; _; _]; split; [exact Hr|exact T4]).
    destruct (write_answer env c buf w) as [m [e|]]; [exact R2|].
    destruct (negb (m =? Z.of_nat (length buf))); [exact R2|].
    cbv zeta.
    destruct (read_answer env c buf response w) as [data [e|]];
      [|exact R4].
    destruct (implements_net_Error e && Timeout e).
    + destruct (_ >? limit); [exact R4|].
      destruct (IH (Bytes.copy_at response 0 data)
                  (Int.wrap_int (retries + 1))
                  (received env c buf response w)) as (evs & Ht & Hf).
      rewrite copy_at_length in Hf by lia.
      destruct R4 as (evs4 & Ht4 & Hf4).
      exists (evs ++ evs4); split.
      * rewrite Ht, Ht4, app_assoc; reflexivity.
      * apply Forall_app; split; assumption.
    + destruct (implements_net_Error e); exact R4.
Qed.

(** X10.  Whatever [Scrape] does after [connect] has returned a
    transport is done on that transport: no dial, every read into a
    buffer of [8 + 12 * N] bytes, and every write, the first and the
    retries alike, carries the one request built for the call, with its
    one transaction identifier. *)
Theorem Scrape_resends_request fuel env g infohash w c cid g1 w1 buf :
  (length infohash <= 74)%nat ->
  connect fuel env g w = (Ok (Some c, cid), g1, w1) ->
  scrape_request cid (fst (transactionID env w1)) infohash = Ok buf ->
  exists evs,
    trace (snd (Scrape fuel env g infohash w)) = evs ++ trace w1 /\
    Forall (talks_to c buf (8 + 12 * length infohash)) evs /\
    BigEndian.Uint32 buf 12 = Some (fst (transactionID env w1)).
Proof.
  rewrite transactionID_eq; cbn [fst].
  intros Hlen Hc Hreq.
  rewrite (Scrape_after_connect fuel env g infohash w (Some c) cid g1 w1
             Hlen Hc), Hreq.
  destruct (exchange_talks_to fuel env (retries g1) c buf
              (Bytes.make (8 + 12 * length infohash)) 0 (used_rand w1))
    as (evs & Ht & Hf).
  rewrite make_length in Hf; cbn [trace used_rand] in Ht.
  exists evs; split; [|split; [exact Hf|]].
  - destruct (exchange fuel env (retries g1) c false buf _ 0 (used_rand w1))
      as [[[n resp]|e| |] w3]; exact Ht.
  - rewrite (scrape_request_tid cid (tid_of env w1) infohash buf Hreq).
    pose proof (tid_of_bound env w1).
    unfold Int.wrap_u32; rewrite Z.mod_small by lia; reflexivity.
Qed.

(** The loop of [connect], which reads into the buffer it writes, on a
    transport whose timed-out reads deliver nothing. *)
Lemma exchange_reuse_talks_to fuel env limit c req :
  timeouts_deliver_nothing env ->
  forall retries w,
  exists evs,
    trace (snd (exchange fuel env limit c true req req retries w))
    = evs ++ trace w /\
    Forall (talks_to c req (length req)) evs.
Proof.
  intros Hnothing.
  induction fuel as [|fuel IH]; intros retries w.
  - exists []; split; [reflexivity|constructor].
  - rewrite exchange_cases.
    pose proof (trace_sent env c req w) as Hs.
    pose proof (trace_received env c req req w) as Hr.
    rewrite Hs in Hr.
    assert (R2 : exists evs,
               trace (sent env c req w) = evs ++ trace w /\
               Forall (talks_to c req (length req)) evs)
      by (eexists [_; _]; split; [exact Hs|repeat constructor]).
    assert (R4 : exists evs,
               trace (received env c req req w) = evs ++ trace w /\
               Forall (talks_to c req (length req)) evs)
      by (eexists [_; _; _; _]; split; [exact Hr|repeat constructor]).
    destruct (write_answer env c req w) as [m [e|]]; [exact R2|].
    destruct (negb (m =? Z.of_nat (length req))); [exact R2|].
    cbv zeta.
    destruct (read_answer env c req req w) as [data [e|]] eqn:Hread;
      [|exact R4].
    destruct (implements_net_Error e && Timeout e) eqn:Hto.
    + destruct (_ >? limit); [exact R4|].
      assert (Hdata : data = []).
      { unfold read_answer in Hread. exact (Hnothing _ _ _ _ _ Hread Hto). }
      subst data; rewrite copy_at_nil.
      destruct (IH (Int.wrap_int (retries + 1))
                  (received env c req req w)) as (evs & Ht & Hf).
      destruct R4 as (evs4 & Ht4 & Hf4).
      exists (evs ++ evs4); split.
      * rewrite Ht, Ht4, app_assoc; reflexivity.
      * apply Forall_app; split; assumption.
    + destruct (implements_net_Error e); exact R4.
Qed.

(** X11.  [connect] reads the response into the buffer that holds
    the request.  On a transport whose timed-out reads deliver nothing,
    as those of a UDP connection, this does no harm: after the dial,
    every write of the handshake carries the same 16-byte connect
    request, on the transport just dialled. *)
Theorem connect_resends_request fuel env g w c req :
  timeouts_deliver_nothing env ->
  TimeModel.Minute < time_Since w (session g) ->
  dial env (trace w) (url g) = inl c ->
  connect_request (fst (transactionID env w)) = Ok req ->
  exists evs,
    trace (snd (connect fuel env g w))
    = evs ++ EvDial (url g) timeout (inl c) :: trace w /\
    Forall (talks_to c req 16) evs.
Proof.
  rewrite transactionID_eq, connect_request_ok; cbn [fst].
  intros Hnothing Hage Hd Hreq.
  assert (Hq : req = BigEndian.encode 8 pid ++ BigEndian.encode 4 0
                     ++ BigEndian.encode 4 (tid_of env w)) by congruence.
  subst req; clear Hreq.
  rewrite (connect_stale_eq fuel env g w Hage), Hd.
  set (req := BigEndian.encode 8 pid ++ _).
  destruct (exchange_reuse_talks_to fuel env (retries g) c req Hnothing 0
              (dialled env g w)) as (evs & Ht & Hf).
  assert (H16 : length req = 16%nat)
    by (unfold req; rewrite !length_app, !encode_length; reflexivity).
  rewrite H16 in Hf.
  unfold dialled at 2 in Ht; cbn [trace record used_rand] in Ht.
  rewrite Hd in Ht.
  exists evs; split; [|exact Hf].
  destruct (exchange fuel env (retries g) c true req req 0 (dialled env g w))
    as [[[n buf]|e| |] w1]; cbn [snd] in *;
    try destruct (connect_response (set_conn g (Some c)) n buf w1);
    exact Ht.
Qed.

(** ** What a call leaves alone *)

Lemma connect_dials fuel env g w :
  count_dials (trace (snd (connect fuel env g w)))
  = (count_dials (trace w)
     + if time_Since w (session g) >? TimeModel.Minute then 1 else 0)%nat.
Proof.
  destruct (Z.gtb_spec (time_Since w (session g)) TimeModel.Minute)
    as [Hage|Hage].
  - rewrite (connect_stale_eq fuel env g w Hage).
    assert (Hd : count_dials (trace (dialled env g w))
                 = (count_dials (trace w) + 1)%nat)
      by (unfold dialled; cbn [trace record used_rand count_dials]; lia).
    destruct (dial env (trace w) (url g)) as [c|e]; [|exact Hd].
    set (req := BigEndian.encode 8 pid ++ _).
    pose proof (exchange_no_dial fuel env (retries g) c true req req 0
                  (dialled env g w)) as Hx.
    rewrite Hd in Hx.
    destruct (exchange fuel env (retries g) c true req req 0
                (dialled env g w)) as [[[n buf]|e| |] w1]; cbn [snd] in *;
      try destruct (connect_response (set_conn g (Some c)) n buf w1);
      exact Hx.
  - rewrite connect_fresh by lia; cbn [snd]; lia.
Qed.

(** X12.  A call of [Scrape] never changes the address or the retry
    limit of the struct, dials at most once and draws at most two
    transaction identifiers.  On a session no older than a minute it
    does not dial, draws one, and leaves the whole struct as it was,
    whether it succeeds or fails: a failed scrape does not cost the
    session. *)
Theorem Scrape_frame fuel env g infohash w r g' w' :
  Scrape fuel env g infohash w = (r, g', w') ->
  url g' = url g /\ retries g' = retries g /\
  (count_dials (trace w') <= count_dials (trace w) + 1)%nat /\
  (rand_calls w' <= rand_calls w + 2)%nat /\
  (time_Since w (session g) <= TimeModel.Minute ->
   g' = g /\ count_dials (trace w') = count_dials (trace w) /\
   (rand_calls w' <= rand_calls w + 1)%nat).
Proof.
  intros HS.
  destruct (Scrape_around_connect fuel env g infohash w r g' w' HS)
    as [(_ & -> & ->)|(_ & rc & w1 & Hc & _ & Hd & Hr & _)].
  { repeat split; lia. }
  pose proof (connect_dials fuel env g w) as Hcd.
  rewrite Hc in Hcd; cbn [snd] in Hcd.
  destruct (Z.le_gt_cases (time_Since w (session g)) TimeModel.Minute)
    as [Hage|Hage].
  - rewrite connect_fresh in Hc by exact Hage.
    injection Hc as _ <- <-.
    destruct (Z.gtb_spec (time_Since w (session g)) TimeModel.Minute);
      [lia|].
    repeat split; lia.
  - destruct (connect_stale fuel env g w rc g' w1 Hage Hc)
      as (evs & _ & _ & Hrc & Hurl & Hret & _).
    destruct (Z.gtb_spec (time_Since w (session g)) TimeModel.Minute);
      [|lia].
    repeat split; try assumption; lia.
Qed.

(** ** The records of the response, read back *)

Lemma results_of_records (infohash : list (list byte)) (rest : list byte) :
  forall (stats : list (Z * Z * Z)) (pre : list byte),
    length stats = length infohash ->
    Forall u32_triple stats ->
    results infohash (pre ++ flat_map stats_record stats ++ rest) (length pre)
    = Ok (paired infohash stats).
Proof.
  induction infohash as [|h infohash IH]; intros stats pre Hlen Hu32.
  - destruct stats; [reflexivity|discriminate].
  - destruct stats as [|[[s c] l] stats]; [discriminate|].
    inversion Hu32 as [|? ? Ht Hrest]; subst.
    unfold u32_triple in Ht; destruct Ht as (Hs & Hc & Hl).
    cbn [flat_map stats_record results paired].
    rewrite <- !app_assoc.
    rewrite (Uint32_at pre _ s).
    replace (length pre + 4)%nat
      with (length (pre ++ BigEndian.encode 4 s))
      by (rewrite length_app, encode_length; reflexivity).
    rewrite (app_assoc pre (BigEndian.encode 4 s)).
    rewrite (Uint32_at (pre ++ BigEndian.encode 4 s) _ c).
    replace (length pre + 8)%nat
      with (length ((pre ++ BigEndian.encode 4 s) ++ BigEndian.encode 4 c))
      by (rewrite !length_app, !encode_length; lia).
    rewrite (app_assoc (pre ++ BigEndian.encode 4 s) (BigEndian.encode 4 c)).
    rewrite (Uint32_at _ _ l).
    cbn [checked bind].
    replace (length pre + 12)%nat
      with (length (((pre ++ BigEndian.encode 4 s) ++ BigEndian.encode 4 c)
                    ++ BigEndian.encode 4 l))
      by (rewrite !length_app, !encode_length; lia).
    rewrite (app_assoc _ (BigEndian.encode 4 l)).
    rewrite IH by (try assumption; cbn [length] in Hlen; lia).
    cbn [bind]. unfold Int.wrap_u32.
    rewrite !Z.mod_small by lia; reflexivity.
Qed.

(** X13.  Decoding reads back what a tracker encodes: a response of
    the action 2, the transaction identifier of the request and one
    record of three big-endian 32-bit values for each infohash gives
    exactly those values, paired with the infohashes in order, whatever
    follows the records. *)
Theorem scrape_response_round_trip (infohash : list (list byte))
  (stats : list (Z * Z * Z)) (tid n : Z) (rest : list byte) :
  length stats = length infohash ->
  Forall u32_triple stats ->
  0 <= tid < 2 ^ 32 ->
  8 + 12 * Z.of_nat (length infohash) <= n ->
  scrape_response infohash tid n
    (BigEndian.encode 4 actionScrap ++ BigEndian.encode 4 tid
     ++ flat_map stats_record stats ++ rest)
  = Ok (paired infohash stats).
Proof.
  intros Hlen Hu32 Htid Hn; unfold scrape_response.
  destruct (Z.ltb_spec n (8 + 12 * Z.of_nat (length infohash))); [lia|].
  set (tail := flat_map stats_record stats ++ rest).
  assert (H0 : BigEndian.Uint32
                 (BigEndian.encode 4 actionScrap ++ BigEndian.encode 4 tid
                  ++ tail) 0 = Some actionScrap)
    by exact (Uint32_at [] _ actionScrap).
  assert (H4 : BigEndian.Uint32
                 (BigEndian.encode 4 actionScrap ++ BigEndian.encode 4 tid
                  ++ tail) 4 = Some tid).
  { etransitivity;
      [exact (Uint32_at (BigEndian.encode 4 actionScrap) tail tid)|].
    unfold Int.wrap_u32; rewrite Z.mod_small by lia; reflexivity. }
  rewrite H0, H4; cbn [checked bind].
  rewrite Z.eqb_refl; cbn [negb].
  change (actionScrap =? actionError) with false.
  change (negb (actionScrap =? actionScrap)) with false.
  cbv iota.
  rewrite (app_assoc (BigEndian.encode 4 actionScrap)).
  exact (results_of_records infohash rest stats
           (BigEndian.encode 4 actionScrap ++ BigEndian.encode 4 tid)
           Hlen Hu32).
Qed.

(** ** Two round trips *)

(** When no read runs into its deadline, the loop makes one attempt,
    whatever the retry limit. *)
Lemma exchange_single fuel env limit c reuse buf response retries w :
  no_timeouts env ->
  fst (exchange (S fuel) env limit c reuse buf response retries w)
  <> OutOfFuel /\
  count_writes
    (trace (snd (exchange (S fuel) env limit c reuse buf response retries w)))
  = S (count_writes (trace w)) /\
  (is_Ok (fst (exchange (S fuel) env limit c reuse buf response retries w))
   = true ->
   count_reads
     (trace (snd (exchange (S fuel) env limit c reuse buf response retries
                    w)))
   = S (count_reads (trace w))).
Proof.
  intros Hno; rewrite exchange_cases.
  assert (Hs : count_writes (trace (sent env c buf w))
               = S (count_writes (trace w)))
    by (rewrite trace_sent; reflexivity).
  assert (Hr : count_writes (trace (received env c buf response w))
               = S (count_writes (trace w)))
    by (rewrite trace_received, trace_sent; reflexivity).
  assert (Hrr : count_reads (trace (received env c buf response w))
                = S (count_reads (trace w)))
    by (rewrite trace_received, trace_sent; reflexivity).
  destruct (write_answer env c buf w) as [m [e|]];
    [repeat split; [discriminate|exact Hs|discriminate]|].
  destruct (negb (m =? Z.of_nat (length buf)));
    [repeat split; [discriminate|exact Hs|discriminate]|].
  cbv zeta.
  destruct (read_answer env c buf response w) as [data [e|]] eqn:Hread;
    [|repeat split; [discriminate|exact Hr|intros _; exact Hrr]].
  unfold read_answer in Hread.
  rewrite (Hno _ _ _ _ _ Hread).
  destruct (implements_net_Error e);
    repeat split; try discriminate; try exact Hr; intros _; exact Hrr.
Qed.

Lemma connect_single fuel env g w :
  no_timeouts env ->
  fst (fst (connect (S fuel) env g w)) <> OutOfFuel /\
  (count_writes (trace (snd (connect (S fuel) env g w)))
   <= count_writes (trace w)
      + if time_Since w (session g) >? TimeModel.Minute then 1 else 0)%nat /\
  (is_Ok (fst (fst (connect (S fuel) env g w))) = true ->
   count_writes (trace (snd (connect (S fuel) env g w)))
   = (count_writes (trace w)
      + if time_Since w (session g) >? TimeModel.Minute then 1 else 0)%nat /\
   count_reads (trace (snd (connect (S fuel) env g w)))
   = (count_reads (trace w)
      + if time_Since w (session g) >? TimeModel.Minute then 1 else 0)%nat).
Proof.
  intros Hno.
  destruct (Z.gtb_spec (time_Since w (session g)) TimeModel.Minute)
    as [Hage|Hage].
  - rewrite (connect_stale_eq (S fuel) env g w Hage).
    destruct (dial env (trace w) (url g)) as [c|e];
      [|repeat split; try discriminate; cbn; lia].
    set (req := BigEndian.encode 8 pid ++ _).
    destruct (exchange_single fuel env (retries g) c true req req 0
                (dialled env g w) Hno) as (Hf & Hw & Hr).
    change (count_writes (trace (dialled env g w)))
      with (count_writes (trace w)) in Hw.
    change (count_reads (trace (dialled env g w)))
      with (count_reads (trace w)) in Hr.
    destruct (exchange (S fuel) env (retries g) c true req req 0
                (dialled env g w)) as [[[n buf]|e| |] w1];
      cbn [fst snd] in *;
      try (repeat split; try discriminate; try congruence; lia).
    pose proof (connect_response_no_fuel (set_conn g (Some c)) n buf w1).
    specialize (Hr eq_refl).
    destruct (connect_response (set_conn g (Some c)) n buf w1);
      cbn [fst snd]; repeat split;
      try discriminate; try congruence; lia.
  - rewrite connect_fresh by lia; cbn [fst snd].
    repeat split; try discriminate; lia.
Qed.

(** X14.  On a transport where no read runs into its deadline,
    [Scrape] returns after at most two datagrams written, whatever the
    retry limit; when it succeeds it has made exactly two round trips
    (the handshake and the scrape) if the session was older than a
    minute, and exactly one otherwise. *)
Theorem Scrape_two_round_trips fuel env g infohash w :
  no_timeouts env ->
  fst (fst (Scrape (S fuel) env g infohash w)) <> OutOfFuel /\
  (count_writes (trace (snd (Scrape (S fuel) env g infohash w)))
   <= count_writes (trace w) + 2)%nat /\
  (is_Ok (fst (fst (Scrape (S fuel) env g infohash w))) = true ->
   count_writes (trace (snd (Scrape (S fuel) env g infohash w)))
   = (count_writes (trace w)
      + if time_Since w (session g) >? TimeModel.Minute then 2 else 1)%nat /\
   count_reads (trace (snd (Scrape (S fuel) env g infohash w)))
   = (count_reads (trace w)
      + if time_Since w (session g) >? TimeModel.Minute then 2 else 1)%nat).
Proof.
  intros Hno.
  destruct (Nat.le_gt_cases (length infohash) 74) as [Hlen|Hlen].
  2:{ unfold Scrape.
      destruct (Nat.ltb_spec 74 (length infohash)); [|lia].
      repeat split; try discriminate; cbn [snd]; lia. }
  rewrite (Scrape_eq (S fuel) env g infohash w Hlen).
  destruct (connect_single fuel env g w Hno) as (Hcf & Hcw & Hcok).
  destruct (connect (S fuel) env g w) as [[rc g1] w1].
  cbn [fst snd] in Hcf, Hcw, Hcok.
  unfold Scrape_rest.
  destruct rc as [[oc cid]|e| |];
    try (repeat split; try discriminate; try congruence; cbn [snd];
         destruct (time_Since w (session g) >? TimeModel.Minute); lia).
  destruct (Hcok eq_refl) as [Hcw' Hcr'].
  rewrite transactionID_eq.
  pose proof (scrape_request_decode cid (tid_of env w1) infohash)
    as (b & _ & Hreq).
  rewrite Hreq.
  destruct (Decode_spec (Bytes.Join infohash)) as [Hok Herr].
  destruct (hexadecimal (Bytes.Join infohash)).
  2:{ destruct (Herr eq_refl) as (e & -> & _); cbn [bind fst snd].
      repeat split; try discriminate; cbn [trace used_rand];
        destruct (time_Since w (session g) >? TimeModel.Minute); lia. }
  specialize (Hok eq_refl).
  destruct (Hex.Decode (Bytes.Join infohash)) as [dst| | |];
    try discriminate; cbn [bind].
  destruct oc as [c|].
  2:{ cbn [fst snd]; repeat split; try discriminate; cbn [trace used_rand];
        destruct (time_Since w (session g) >? TimeModel.Minute); lia. }
  destruct (exchange_single fuel env (retries g1) c false
              (Bytes.copy_at b 16 dst)
              (Bytes.make (8 + 12 * length infohash)) 0 (used_rand w1) Hno)
    as (Hf & Hw & Hr).
  cbn [trace used_rand] in Hw, Hr.
  destruct (exchange (S fuel) env (retries g1) c false _ _ 0 (used_rand w1))
    as [[[n resp]|e| |] w3]; cbn [fst snd] in *;
    try (repeat split; try discriminate; try congruence;
         destruct (time_Since w (session g) >? TimeModel.Minute); lia).
  specialize (Hr eq_refl).
  split; [|split].
  - unfold scrape_response.
    destruct (n <? 8 + 12 * Z.of_nat (length infohash)); [discriminate|].
    destruct (BigEndian.Uint32 resp 0); [|discriminate].
    destruct (BigEndian.Uint32 resp 4); [|discriminate].
    cbn [checked bind].
    destruct (negb (_ =? tid_of env w1)); [discriminate|].
    destruct (_ =? actionError); [discriminate|].
    destruct (negb (_ =? actionScrap)); [discriminate|].
    apply results_no_fuel.
  - destruct (time_Since w (session g) >? TimeModel.Minute); lia.
  - intros _.
    destruct (time_Since w (session g) >? TimeModel.Minute); lia.
Qed.

(** ** A new client *)

(** X15.  [New] succeeds only on a URL that parses with the scheme
    [udp]; the struct keeps the host, a retry limit of 3 and no
    session, so that its first [connect], at any instant past the
    first minute of the calendar, starts by dialling that host with
    the timeout of 15 seconds. *)
Theorem New_client_dials_host parse rawurl g w :
  New parse rawurl = Ok g ->
  TimeModel.Minute < now w ->
  exists u,
    parse rawurl = Ok u /\ Scheme u = "udp"%string /\
    url g = Host u /\ retries g = 3 /\ conn g = None /\
    forall fuel env,
    exists evs,
      trace (snd (connect fuel env g w))
      = evs ++ EvDial (Host u) (15 * TimeModel.Second)
                 (dial env (trace w) (Host u)) :: trace w.
Proof.
  unfold New.
  destruct (parse rawurl) as [u|e| |]; try discriminate.
  destruct (String.eqb_spec (Scheme u) "udp") as [Hs|Hs]; [|discriminate].
  intros [= <-] Hnow.
  exists u; repeat split; try assumption.
  intros fuel env.
  set (g := {| url := Host u; conn := None; connectionID := 0;
               session := 0; retries := 3 |}).
  assert (Hage : TimeModel.Minute < time_Since w (session g)).
  { unfold time_Since, TimeModel.Sub, time_Now, Int.saturate; cbn [session g].
    unfold TimeModel.Minute, TimeModel.Second, Int.min_int, Int.max_int in *.
    by_comparisons; lia. }
  destruct (connect fuel env g w) as [[r g'] w'] eqn:Hc.
  destruct (connect_stale fuel env g w r g' w' Hage Hc) as (evs & Ht & _).
  exists evs; exact Ht.
Qed.

(** ** The empty list *)

(** X16.  An empty list of infohashes is not answered without asking:
    once [connect] has returned a transport, [Scrape] still writes a
    request, of the 16 bytes of the header alone, and reads into a
    buffer of 8 bytes; if it succeeds, the result is the empty list. *)
Theorem Scrape_empty_list fuel env g w c cid g1 w1 :
  connect (S fuel) env g w = (Ok (Some c, cid), g1, w1) ->
  (exists evs n err t,
     trace (snd (Scrape (S fuel) env g [] w))
     = evs ++ EvWrite c (scrape_header cid (fst (transactionID env w1))) n err
           :: EvSetWriteDeadline c t :: trace w1) /\
  (exists evs,
     trace (snd (Scrape (S fuel) env g [] w)) = evs ++ trace w1 /\
     Forall (talks_to c (scrape_header cid (fst (transactionID env w1))) 8)
       evs) /\
  forall r, fst (fst (Scrape (S fuel) env g [] w)) = Ok r -> r = [].
Proof.
  rewrite transactionID_eq; cbn [fst].
  intros Hc.
  assert (Hreq : scrape_request cid (tid_of env w1) []
                 = Ok (scrape_header cid (tid_of env w1)))
    by reflexivity.
  rewrite (Scrape_after_connect (S fuel) env g [] w (Some c) cid g1 w1
             (Nat.le_0_l 74) Hc), Hreq.
  cbn [length Nat.mul Nat.add].
  set (req := scrape_header cid (tid_of env w1)).
  destruct (exchange_first_write fuel env (retries g1) c false req
              (Bytes.make 8) 0 (used_rand w1)) as (evs & Ht).
  rewrite trace_sent in Ht; cbn [trace used_rand] in Ht.
  destruct (exchange_talks_to (S fuel) env (retries g1) c req
              (Bytes.make 8) 0 (used_rand w1)) as (evs' & Ht' & Hf).
  cbn [trace used_rand] in Ht'.
  split; [|split].
  - exists evs; do 3 eexists.
    destruct (exchange (S fuel) env (retries g1) c false req (Bytes.make 8) 0
                (used_rand w1)) as [[[n resp]|e| |] w3]; exact Ht.
  - exists evs'; split; [|exact Hf].
    destruct (exchange (S fuel) env (retries g1) c false req (Bytes.make 8) 0
                (used_rand w1)) as [[[n resp]|e| |] w3]; exact Ht'.
  - intros r.
    destruct (exchange (S fuel) env (retries g1) c false req (Bytes.make 8) 0
                (used_rand w1)) as [[[n resp]|e| |] w3]; cbn [fst];
      try discriminate.
    unfold scrape_response; cbn [results].
    destruct (n <? _); [discriminate|].
    destruct (BigEndian.Uint32 resp 0); [|discriminate].
    destruct (BigEndian.Uint32 resp 4); [|discriminate].
    cbn [checked bind].
    destruct (negb (_ =? tid_of env w1)); [discriminate|].
    destruct (_ =? actionError); [discriminate|].
    destruct (negb (_ =? actionScrap)); [discriminate|].
    intros [= <-]; reflexivity.
Qed.

(** * The further properties on examples *)

Lemma silent_timeouts_deliver_nothing : timeouts_deliver_nothing silent.
Proof. intros h c size data e [= <- _] _; reflexivity. Qed.

Lemma prompt_tracker_no_timeouts stats : no_timeouts (prompt_tracker stats).
Proof.
  intros h c size data e; cbn [read prompt_tracker].
  destruct (tracker_answer _ stats _ h) as [d [e'|]]; [|discriminate].
  intros [= _ <-]; reflexivity.
Qed.

(** A tracker that sends the header alone where a record is due. *)
Lemma Scrape_short_response_witness :
  fst (fst (Scrape 4 (tracker []) fresh_client [hash_1]
              (world_at an_instant)))
  = Err ErrResponse.
Proof.
  destruct (Scrape_short_response 4 (tracker []) fresh_client [hash_1]
              (world_at an_instant) 7 0x1122334455667788
              (snd (fst (first_session []))) (snd (first_session []))
              (example_request (tracker []) 0x1122334455667788
                 (snd (first_session [])) [hash_1])
              (fst (example_answer
                      (example_exchange 4 (tracker [])
                         (snd (fst (first_session []))) 7
                         0x1122334455667788 (snd (first_session []))
                         [hash_1])))
              (snd (example_answer
                      (example_exchange 4 (tracker [])
                         (snd (fst (first_session []))) 7
                         0x1122334455667788 (snd (first_session []))
                         [hash_1])))
              (snd (example_exchange 4 (tracker [])
                      (snd (fst (first_session []))) 7
                      0x1122334455667788 (snd (first_session []))
                      [hash_1])))
    as [HS _].
  - vm_compute; lia.
  - vm_compute; reflexivity.
  - vm_compute; reflexivity.
  - vm_compute; reflexivity.
  - vm_compute; reflexivity.
  - rewrite HS; reflexivity.
Defined.

Lemma connect_dial_failure_witness :
  connect 4 unreachable connected_client
    (world_at (an_instant + 61 * TimeModel.Second))
  = (Err (net_Err refused), set_conn connected_client None,
     dialled unreachable connected_client
       (world_at (an_instant + 61 * TimeModel.Second))) /\
  conn (snd (fst (connect 4 unreachable connected_client
                    (world_at (an_instant + 61 * TimeModel.Second)))))
  = None.
Proof.
  destruct (connect_dial_failure 4 unreachable connected_client
              (world_at (an_instant + 61 * TimeModel.Second)) refused)
    as (Hc & _ & Hn & _).
  - vm_compute; reflexivity.
  - reflexivity.
  - split; assumption.
Defined.

(** Sixty seconds after the handshake, to the nanosecond. *)
Lemma connect_reuses_session_witness :
  connect 0 silent (snd (fst (first_session [])))
    (world_at (now (snd (first_session [])) + 60 * TimeModel.Second))
  = (Ok (Some 7, 0x1122334455667788), snd (fst (first_session [])),
     world_at (now (snd (first_session [])) + 60 * TimeModel.Second)).
Proof.
  apply (connect_reuses_session 4 (tracker []) fresh_client
           (world_at an_instant) (Some 7) 0x1122334455667788
           (snd (fst (first_session []))) (snd (first_session []))).
  - vm_compute; reflexivity.
  - vm_compute; reflexivity.
  - vm_compute; discriminate.
Defined.

Lemma Scrape_keeps_transport_witness :
  has_transport
    (snd (fst (Scrape 4 (tracker [(10, 50, 2)]) fresh_client [hash_1]
                 (world_at an_instant))))
    (snd (Scrape 4 (tracker [(10, 50, 2)]) fresh_client [hash_1]
            (world_at an_instant))).
Proof.
  destruct (Scrape_keeps_transport 4 (tracker [(10, 50, 2)]) fresh_client
              [hash_1] (world_at an_instant)
              (fst (fst (Scrape 4 (tracker [(10, 50, 2)]) fresh_client
                           [hash_1] (world_at an_instant))))
              (snd (fst (Scrape 4 (tracker [(10, 50, 2)]) fresh_client
                           [hash_1] (world_at an_instant))))
              (snd (Scrape 4 (tracker [(10, 50, 2)]) fresh_client [hash_1]
                      (world_at an_instant))))
    as [Hkeep _].
  - intros Hage; vm_compute in Hage; exfalso; apply Hage; reflexivity.
  - vm_compute; reflexivity.
  - apply Hkeep; lia.
Defined.

Lemma Scrape_never_panics_witness :
  fst (fst (Scrape 4 (tracker []) fresh_client [not_hex]
              (world_at an_instant))) <> Panic.
Proof.
  apply (Scrape_never_panics 4 (tracker []) fresh_client [not_hex]
           (world_at an_instant)).
  intros Hage; vm_compute in Hage; exfalso; apply Hage; reflexivity.
Defined.

Lemma Scrape_terminates_witness :
  fst (fst (Scrape 4 silent fresh_client [hash_1] (world_at an_instant)))
  <> OutOfFuel /\
  (count_writes (trace (snd (Scrape 4 silent fresh_client [hash_1]
                               (world_at an_instant))))
   <= count_writes (trace (world_at an_instant))
      + 2 * attempts (retries fresh_client) 0)%nat /\
  forall k,
    Scrape (4 + k) silent fresh_client [hash_1] (world_at an_instant)
    = Scrape 4 silent fresh_client [hash_1] (world_at an_instant).
Proof.
  apply (Scrape_terminates 4 silent fresh_client [hash_1]
           (world_at an_instant)).
  - unfold Int.max_int; cbn [retries fresh_client]; lia.
  - vm_compute; lia.
Defined.

Lemma Scrape_resends_request_witness :
  exists evs,
    trace (snd (Scrape 4 (tracker []) fresh_client [hash_1]
                  (world_at an_instant)))
    = evs ++ trace (snd (first_session [])) /\
    Forall (talks_to 7
              (example_request (tracker []) 0x1122334455667788
                 (snd (first_session [])) [hash_1])
              (8 + 12 * length [hash_1])) evs /\
    BigEndian.Uint32
      (example_request (tracker []) 0x1122334455667788
         (snd (first_session [])) [hash_1]) 12
    = Some (fst (transactionID (tracker []) (snd (first_session [])))).
Proof.
  apply (Scrape_resends_request 4 (tracker []) fresh_client [hash_1]
           (world_at an_instant) 7 0x1122334455667788
           (snd (fst (first_session [])))).
  - vm_compute; lia.
  - vm_compute; reflexivity.
  - vm_compute; reflexivity.
Defined.

Lemma connect_resends_request_witness :
  exists evs,
    trace (snd (connect 4 silent fresh_client (world_at an_instant)))
    = evs ++ EvDial (url fresh_client) timeout (inl 7)
          :: trace (world_at an_instant) /\
    Forall (talks_to 7
              (BigEndian.encode 8 pid ++ BigEndian.encode 4 0
               ++ BigEndian.encode 4 0x12345678) 16) evs.
Proof.
  apply (connect_resends_request 4 silent fresh_client (world_at an_instant)
           7).
  - exact silent_timeouts_deliver_nothing.
  - vm_compute; reflexivity.
  - reflexivity.
  - vm_compute; reflexivity.
Defined.

(** A scrape that fails on a session of 59 seconds: the struct is as it
    was. *)
Lemma Scrape_frame_witness :
  snd (fst (Scrape 4 silent connected_client [hash_1]
              (world_at (an_instant + 59 * TimeModel.Second))))
  = connected_client.
Proof.
  destruct (Scrape_frame 4 silent connected_client [hash_1]
              (world_at (an_instant + 59 * TimeModel.Second))
              (fst (fst (Scrape 4 silent connected_client [hash_1]
                           (world_at (an_instant + 59 * TimeModel.Second)))))
              (snd (fst (Scrape 4 silent connected_client [hash_1]
                           (world_at (an_instant + 59 * TimeModel.Second)))))
              (snd (Scrape 4 silent connected_client [hash_1]
                      (world_at (an_instant + 59 * TimeModel.Second)))))
    as (_ & _ & _ & _ & Hfresh).
  - vm_compute; reflexivity.
  - apply Hfresh; vm_compute; discriminate.
Defined.

Lemma scrape_response_round_trip_witness :
  scrape_response [hash_1; hash_2] 0x12345678 32
    (BigEndian.encode 4 actionScrap ++ BigEndian.encode 4 0x12345678
     ++ flat_map stats_record [(10, 50, 2); (20, 100, 4)] ++ [])
  = Ok (paired [hash_1; hash_2] [(10, 50, 2); (20, 100, 4)]).
Proof.
  apply (scrape_response_round_trip [hash_1; hash_2]
           [(10, 50, 2); (20, 100, 4)] 0x12345678 32 []).
  - reflexivity.
  - repeat constructor; lia.
  - lia.
  - cbn [length]; lia.
Defined.

Lemma Scrape_two_round_trips_witness :
  count_writes
    (trace (snd (Scrape 1 (prompt_tracker [(10, 50, 2)]) fresh_client
                   [hash_1] (world_at an_instant))))
  = (count_writes (trace (world_at an_instant))
     + if time_Since (world_at an_instant) (session fresh_client)
          >? TimeModel.Minute then 2 else 1)%nat.
Proof.
  destruct (Scrape_two_round_trips 0 (prompt_tracker [(10, 50, 2)])
              fresh_client [hash_1] (world_at an_instant))
    as (_ & _ & Hok).
  - apply prompt_tracker_no_timeouts.
  - apply Hok; vm_compute; reflexivity.
Defined.

Lemma New_client_dials_host_witness :
  exists u,
    example_parse "udp://tracker.example:6969/announce"%string = Ok u /\
    Scheme u = "udp"%string /\
    url fresh_client = Host u /\ retries fresh_client = 3 /\
    conn fresh_client = None /\
    forall fuel env,
    exists evs,
      trace (snd (connect fuel env fresh_client (world_at an_instant)))
      = evs ++ EvDial (Host u) (15 * TimeModel.Second)
                 (dial env (trace (world_at an_instant)) (Host u))
            :: trace (world_at an_instant).
Proof.
  apply (New_client_dials_host example_parse
           "udp://tracker.example:6969/announce"%string fresh_client
           (world_at an_instant)).
  - reflexivity.
  - vm_compute; reflexivity.
Defined.

Lemma Scrape_empty_list_witness :
  exists evs,
    trace (snd (Scrape 4 (tracker []) fresh_client [] (world_at an_instant)))
    = evs ++ trace (snd (first_session [])) /\
    Forall
      (talks_to 7
         (scrape_header 0x1122334455667788
            (fst (transactionID (tracker []) (snd (first_session []))))) 8)
      evs.
Proof.
  destruct (Scrape_empty_list 3 (tracker []) fresh_client
              (world_at an_instant) 7 0x1122334455667788
              (snd (fst (first_session []))) (snd (first_session [])))
    as (_ & H & _); [vm_compute; reflexivity|exact H].
Defined.

(** ** Infohashes of other lengths *)

Lemma skipn_make (k n : nat) :
  skipn k (Bytes.make n) = Bytes.make (n - k).
Proof.
  unfold Bytes.make; revert n; induction k as [|k IH]; intros n.
  - rewrite Nat.sub_0_r; reflexivity.
  - destruct n as [|n]; [reflexivity|]. cbn [repeat skipn]. apply IH.
Qed.

(** X17.  The request has room for 20 bytes for each infohash and the
    decoded infohashes are copied into it as one string: whenever the
    infohashes decode, whatever their lengths, the request is the
    header, then the first [20 * N] bytes of what they decode to, then
    zeros up to [16 + 20 * N] bytes.  What is beyond is dropped and
    what is missing is sent as zeros. *)
Theorem scrape_request_payload (connectionid tid : Z)
  (infohash : list (list byte)) (dst : list byte) :
  Hex.Decode (Bytes.Join infohash) = Ok dst ->
  scrape_request connectionid tid infohash
  = Ok (scrape_header connectionid tid
        ++ firstn (20 * length infohash) dst
        ++ Bytes.make (20 * length infohash - length dst)) /\
  forall buf, scrape_request connectionid tid infohash = Ok buf ->
    length buf = (16 + 20 * length infohash)%nat.
Proof.
  intros Hd. rewrite scrape_request_header, Hd; cbn [bind].
  assert (Hh : length (scrape_header connectionid tid) = 16%nat).
  { unfold scrape_header; rewrite !length_app, !encode_length; reflexivity. }
  assert (E : Bytes.copy_at
                (scrape_header connectionid tid
                 ++ Bytes.make (length infohash * 20)) 16 dst
              = scrape_header connectionid tid
                ++ firstn (20 * length infohash) dst
                ++ Bytes.make (20 * length infohash - length dst)).
  { unfold Bytes.copy_at.
    rewrite length_app, Hh, make_length.
    replace (16 + length infohash * 20 - 16)%nat
      with (20 * length infohash)%nat by lia.
    rewrite <- Hh at 1.
    rewrite firstn_app, Nat.sub_diag, firstn_O, app_nil_r, firstn_all.
    f_equal. f_equal.
    - destruct (Nat.le_gt_cases (20 * length infohash) (length dst)).
      + rewrite Nat.min_l by lia; reflexivity.
      + rewrite Nat.min_r, !firstn_all2 by lia; reflexivity.
    - replace (16 + Nat.min (20 * length infohash) (length dst))%nat
        with (length (scrape_header connectionid tid)
              + Nat.min (20 * length infohash) (length dst))%nat by lia.
      rewrite skipn_app, skipn_all2 by lia; cbn [app].
      replace (length (scrape_header connectionid tid)
               + Nat.min (20 * length infohash) (length dst)
               - length (scrape_header connectionid tid))%nat
        with (Nat.min (20 * length infohash) (length dst)) by lia.
      rewrite skipn_make. f_equal.
      destruct (Nat.le_gt_cases (20 * length infohash) (length dst)); lia. }
  rewrite E; split; [reflexivity|].
  intros buf Hb.
  assert (Hq : buf = scrape_header connectionid tid
                     ++ firstn (20 * length infohash) dst
                     ++ Bytes.make (20 * length infohash - length dst))
    by congruence.
  rewrite Hq, !length_app, Hh, length_firstn, make_length; lia.
Qed.

(** An infohash of two digits: one byte of it and 19 zeros. *)
Lemma scrape_request_payload_witness :
  scrape_request 99 5 [short_hash]
  = Ok (scrape_header 99 5
        ++ firstn (20 * length [short_hash]) [Bytes.of_Z 171]
        ++ Bytes.make (20 * length [short_hash] - length [Bytes.of_Z 171])).
Proof.
  apply (scrape_request_payload 99 5 [short_hash] [Bytes.of_Z 171]).
  vm_compute; reflexivity.
Defined.
